(** * WYGIWYH MCP server: schema resolver, tool catalog and dispatcher

    A shallow embedding of [server.py]: the conversion of OpenAPI schema
    fragments ([convert_openapi_to_json_schema]), the catalog builder
    ([generate_tools_from_openapi]) and the dispatcher ([call_tool]),
    followed by the properties of the specification that concern them. *)

From Stdlib Require Import String Ascii List ZArith Lia Bool Permutation Arith.
From Stdlib Require Import DecimalString FinFun.
Import ListNotations.
Set Warnings "-register-all".
Local Open Scope string_scope.
Local Open Scope list_scope.

(** ** Values

    The OpenAPI document is what [yaml.safe_load] returns: mappings,
    sequences and scalars.  They form a tree when the file has no
    alias, and [json] is such a tree; a file with anchors and aliases
    loads with one dict at several places, which [json] cannot tell
    from copies and the module [Shared] below models with a heap.  A
    Python [dict] keeps insertion
    order and has unique keys; it is an association list here, read with
    [dict_get] (first binding) and written with [dict_set] (in place when
    the key exists, appended otherwise).  A float [m * 2^e] is only ever
    copied or tested for truth. *)

Inductive json : Type :=
| JNull
| JBool (b : bool)
| JInt (z : Z)
| JFloat (m e : Z)
| JStr (s : string)
| JList (l : list json)
| JDict (d : list (string * json)).

(** ** Exceptions

    [Raise] is a Python exception leaving the function.  The embedding
    also answers [Raise TypeError] on the inputs whose handling by duck
    typing it does not follow (a schema that is a string or a sequence,
    a parameter name that is not a string): nothing is stated about
    them. *)

Inductive exn : Type :=
| TypeError | KeyError | IndexError | AttributeError
| RecursionError | ValidationError | RuntimeError.

Inductive res (A : Type) : Type :=
| Ok (a : A)
| Raise (e : exn).
Arguments Ok {A} a.
Arguments Raise {A} e.

Definition bind {A B : Type} (c : res A) (k : A -> res B) : res B :=
  match c with
  | Ok a => k a
  | Raise e => Raise e
  end.

Notation "x <- c ;; k" := (bind c (fun x => k))
  (at level 61, c at next level, right associativity).
Notation "' pat <- c ;; k" := (bind c (fun x => match x with pat => k end))
  (at level 61, pat pattern, c at next level, right associativity).

(** ** Dictionaries *)

Section Dict.
Context {V : Type}.

Fixpoint dict_get (k : string) (d : list (string * V)) : option V :=
  match d with
  | [] => None
  | (k', v) :: d' => if String.eqb k k' then Some v else dict_get k d'
  end.

Definition dict_mem (k : string) (d : list (string * V)) : bool :=
  match dict_get k d with Some _ => true | None => false end.

Fixpoint dict_set (k : string) (v : V) (d : list (string * V))
  : list (string * V) :=
  match d with
  | [] => [(k, v)]
  | (k', v') :: d' =>
      if String.eqb k k' then (k, v) :: d' else (k', v') :: dict_set k v d'
  end.

(** [d.update(e)] *)
Definition dict_update (d e : list (string * V)) : list (string * V) :=
  fold_left (fun acc kv => dict_set (fst kv) (snd kv) acc) e d.

Definition dict_keys (d : list (string * V)) : list string := map fst d.
End Dict.

(** [d.get(k, default)] *)
Definition dict_get_default (k : string) (default : json)
  (d : list (string * json)) : json :=
  match dict_get k d with Some v => v | None => default end.

(** Truth value of a Python object. *)
Definition truthy (j : json) : bool :=
  match j with
  | JNull => false
  | JBool b => b
  | JInt z => negb (Z.eqb z 0)
  | JFloat m _ => negb (Z.eqb m 0)
  | JStr s => negb (String.eqb s "")
  | JList l => match l with [] => false | _ => true end
  | JDict d => match d with [] => false | _ => true end
  end.

(** ** Strings

    A string is a sequence of characters, one [ascii] each; [upper]
    follows [str.upper] on the letters of ASCII. *)

(** [s.startswith(p)] *)
Definition startswith (p s : string) : bool := String.prefix p s.

(** [s[n:]] *)
Definition drop (n : nat) (s : string) : string :=
  substring n (String.length s - n) s.

(** [s[:n]] *)
Definition take (n : nat) (s : string) : string := substring 0 n s.

(** [sub in s] *)
Fixpoint contains (sub s : string) : bool :=
  if String.prefix sub s then true
  else match s with
       | EmptyString => false
       | String _ s' => contains sub s'
       end.

(** [s.split(sep)] for a separator of one character. *)
Fixpoint split_on (sep : ascii) (s : string) : list string :=
  match s with
  | EmptyString => [""]
  | String c s' =>
      if Ascii.eqb c sep then "" :: split_on sep s'
      else match split_on sep s' with
           | [] => [String c ""]
           | w :: ws => String c w :: ws
           end
  end.

(** [s.replace(old, new)]: every non-overlapping occurrence, left to
    right; with an empty [old] Python inserts [new] around every
    character. *)
Fixpoint replace_from (fuel : nat) (old new s : string) : string :=
  match fuel with
  | O => s
  | S fuel' =>
      if String.prefix old s then
        match old with
        | EmptyString =>
            match s with
            | EmptyString => new
            | String c s' => new ++ String c (replace_from fuel' old new s')
            end
        | _ => new ++ replace_from fuel' old new (drop (String.length old) s)
        end
      else match s with
           | EmptyString => EmptyString
           | String c s' => String c (replace_from fuel' old new s')
           end
  end.

Definition replace (old new s : string) : string :=
  replace_from (S (String.length s)) old new s.

(** [c.upper()] on ASCII letters. *)
Definition upper_ascii (c : ascii) : ascii :=
  let n := nat_of_ascii c in
  if (97 <=? n)%nat && (n <=? 122)%nat then ascii_of_nat (n - 32) else c.

Fixpoint upper (s : string) : string :=
  match s with
  | EmptyString => EmptyString
  | String c s' => String (upper_ascii c) (upper s')
  end.

Definition string_of_Z (z : Z) : string :=
  NilZero.string_of_int (Z.to_int z).

Definition string_in (s : string) (l : list string) : bool :=
  existsb (String.eqb s) l.
Arguments string_in : simpl never.

(** [l[i]] *)
Definition index {A : Type} (l : list A) (i : nat) : res A :=
  match nth_error l i with
  | Some a => Ok a
  | None => Raise IndexError
  end.

(** ** Objects of the document and objects of a build

    [convert_openapi_to_json_schema] mostly allocates new dicts, but its
    [oneOf] branch returns an object of the document itself, and
    [generate_tools_from_openapi] then stores a ["description"] into
    whatever object it got for a parameter.  That store is the only write
    the program makes to an object it did not allocate, and the objects
    it can reach are first [oneOf] alternatives.  A place of the document
    is named by its path from the root ([loc]).  This holds for a
    document that is a tree, where two places are two objects and the
    only object reached from several places is the target of a [$ref],
    named by its place under [components.schemas]; it does not hold
    for a document loaded with YAML aliases, where a write at one place
    shows at every place of the same mapping (module [Shared]).  The
    [store] records the descriptions written to places, most recent
    first.  A result ([out])
    is a value copied from the document and never written ([OVal]), a
    reference to the object of the document at a place together with the
    content it was loaded with ([ORef]), or a dict allocated by the
    build ([ODict]). *)

Inductive seg : Type :=
| Key (k : string)
| Idx (i : nat).

Definition loc : Type := list seg.

Definition seg_eqb (a b : seg) : bool :=
  match a, b with
  | Key k, Key k' => String.eqb k k'
  | Idx i, Idx i' => Nat.eqb i i'
  | _, _ => false
  end.

Fixpoint loc_eqb (a b : loc) : bool :=
  match a, b with
  | [], [] => true
  | x :: a', y :: b' => seg_eqb x y && loc_eqb a' b'
  | _, _ => false
  end.

Definition store : Type := list (loc * json).

Fixpoint store_get (l : loc) (st : store) : option json :=
  match st with
  | [] => None
  | (l', d) :: st' => if loc_eqb l l' then Some d else store_get l st'
  end.

Inductive out : Type :=
| OVal (j : json)
| ORef (l : loc) (j : json)
| ODict (d : list (string * out)).

(** The present content of the object at [l], loaded as [j]. *)
Definition deref (st : store) (l : loc) (j : json) : json :=
  match store_get l st, j with
  | Some d, JDict o => JDict (dict_set "description" d o)
  | _, _ => j
  end.

(** What a result reads as once the build is over. *)
Fixpoint render (st : store) (o : out) : json :=
  match o with
  | OVal j => j
  | ORef l j => deref st l j
  | ODict d =>
      JDict ((fix go (d : list (string * out)) : list (string * json) :=
                match d with
                | [] => []
                | (k, v) :: d' => (k, render st v) :: go d'
                end) d)
  end.

Definition lift_items (d : list (string * json)) : list (string * out) :=
  map (fun kv => (fst kv, OVal (snd kv))) d.

(** The bindings of a result used as a dict ([k in o], [o[k]],
    [o.items()]). *)
Definition out_items (st : store) (o : out) : res (list (string * out)) :=
  match o with
  | ODict d => Ok d
  | OVal (JDict d) => Ok (lift_items d)
  | ORef l j =>
      match deref st l j with
      | JDict d => Ok (lift_items d)
      | _ => Raise TypeError
      end
  | OVal _ => Raise TypeError
  end.

(** A result used as a list. *)
Definition out_list (st : store) (o : out) : res (list json) :=
  match o with
  | OVal (JList l) => Ok l
  | ORef l j =>
      match deref st l j with
      | JList l => Ok l
      | _ => Raise TypeError
      end
  | _ => Raise TypeError
  end.

Definition out_truthy (st : store) (o : out) : bool :=
  match o with
  | OVal j => truthy j
  | ORef l j => truthy (deref st l j)
  | ODict d => match d with [] => false | _ => true end
  end.

(** ** The schema resolver *)

Section Resolver.

(** [list(set(l))] on strings: the elements of [l] once each, in the
    order of the interpreter's hash table.  That order is fixed for
    the life of a process and differs between processes. *)
Variable set_order : list string -> list string.

Fixpoint strings_of (l : list json) : res (list string) :=
  match l with
  | [] => Ok []
  | JStr s :: l' => ss <- strings_of l' ;; Ok (s :: ss)
  | _ :: _ => Raise TypeError
  end.

Definition list_set (l : list json) : res (list json) :=
  ss <- strings_of l ;; Ok (map JStr (set_order ss)).

(** Lines 71-76: the named schema a [$ref] points at, when the
    reference has the form [#/components/schemas/<name>] and the name
    is known. *)
Definition resolve_ref (schema : list (string * json)) (components : json)
  : res (option (string * json)) :=
  match dict_get "$ref" schema with
  | None => Ok None
  | Some (JStr r) =>
      let ref_path := split_on "/" r in
      r0 <- index ref_path 0 ;;
      if negb (String.eqb r0 "#") then Ok None else
      r1 <- index ref_path 1 ;;
      if negb (String.eqb r1 "components") then Ok None else
      r2 <- index ref_path 2 ;;
      if negb (String.eqb r2 "schemas") then Ok None else
      schema_name <- index ref_path 3 ;;
      match components with
      | JDict c =>
          match dict_get_default "schemas" (JDict []) c with
          | JDict schemas =>
              match dict_get schema_name schemas with
              | Some target => Ok (Some (schema_name, target))
              | None => Ok None
              end
          | _ => Raise TypeError
          end
      | _ => Raise AttributeError
      end
  | Some _ => Raise AttributeError
  end.

(** The state of the [allOf] loop (lines 79-81). *)
Record merged : Type := Merged {
  merged_properties : list (string * out);
  merged_required : list json;
  merged_type : option out
}.

(** One turn of the loop of lines 83-90 on a converted sub-schema. *)
Definition merge_step (st : store) (m : merged) (converted : out)
  : res merged :=
  items <- out_items st converted ;;
  props <- match dict_get "properties" items with
           | Some p => e <- out_items st p ;;
                       Ok (dict_update (merged_properties m) e)
           | None => Ok (merged_properties m)
           end ;;
  req <- match dict_get "required" items with
         | Some r => e <- out_list st r ;; Ok (merged_required m ++ e)
         | None => Ok (merged_required m)
         end ;;
  let ty := match dict_get "type" items, merged_type m with
            | Some t, None => Some t
            | Some t, Some t0 => if out_truthy st t0 then Some t0 else Some t
            | None, t0 => t0
            end in
  Ok (Merged props req ty).

Fixpoint allOf_loop (conv : nat -> json -> res out) (st : store)
  (i : nat) (subs : list json) (m : merged) : res merged :=
  match subs with
  | [] => Ok m
  | sub_schema :: subs' =>
      converted <- conv i sub_schema ;;
      m' <- merge_step st m converted ;;
      allOf_loop conv st (S i) subs' m'
  end.

(** Lines 92-98. *)
Definition allOf_result (st : store) (m : merged) : res out :=
  let ty := match merged_type m with
            | Some t => if out_truthy st t then t else OVal (JStr "object")
            | None => OVal (JStr "object")
            end in
  let r1 := [("type", ty)] in
  let r2 := match merged_properties m with
            | [] => r1
            | p => dict_set "properties" (ODict p) r1
            end in
  match merged_required m with
  | [] => Ok (ODict r2)
  | req => s <- list_set req ;;
           Ok (ODict (dict_set "required" (OVal (JList s)) r2))
  end.

(** Lines 106-110. *)
Fixpoint properties_loop (conv : string -> json -> res out)
  (props : list (string * json)) (acc : list (string * out))
  : res (list (string * out)) :=
  match props with
  | [] => Ok acc
  | (prop_name, prop_schema) :: props' =>
      match prop_schema with
      | JDict p =>
          if truthy (dict_get_default "readOnly" (JBool false) p)
          then properties_loop conv props' acc
          else c <- conv prop_name prop_schema ;;
               properties_loop conv props' (dict_set prop_name c acc)
      | _ => Raise AttributeError
      end
  end.

(** Line 113: [[r for r in required if r in properties]]. *)
Fixpoint required_filter (required : list json)
  (properties : list (string * out)) : res (list json) :=
  match required with
  | [] => Ok []
  | r :: required' =>
      keep <- match r with
              | JStr k => Ok (dict_mem k properties)
              | JList _ | JDict _ => Raise TypeError
              | _ => Ok false
              end ;;
      rest <- required_filter required' properties ;;
      Ok (if keep then r :: rest else rest)
  end.

Definition copied_keys : list string :=
  ["description"; "title"; "maxLength"; "minLength"; "maximum";
   "minimum"; "pattern"; "format"; "nullable"; "items"; "enum"].

(** Lines 115-117. *)
Definition copy_keys (schema : list (string * json))
  (result : list (string * out)) : list (string * out) :=
  fold_left (fun acc key =>
               match dict_get key schema with
               | Some v => dict_set key (OVal v) acc
               | None => acc
               end) copied_keys result.

(** [convert_openapi_to_json_schema(schema, components)], for the
    object [schema] found at [here].  [depth] is the number of nested
    calls the interpreter still allows: Python raises [RecursionError]
    where it is exhausted. *)
Fixpoint convert_openapi_to_json_schema (depth : nat) (st : store)
  (here : loc) (schema components : json) : res out :=
  match depth with
  | O => Raise RecursionError
  | S depth' =>
      if negb (truthy schema) then
        Ok (ODict [("type", OVal (JStr "object")); ("properties", ODict [])])
      else
        match schema with
        | JDict s =>
            target <- resolve_ref s components ;;
            match target with
            | Some (schema_name, t) =>
                convert_openapi_to_json_schema depth' st
                  [Key "components"; Key "schemas"; Key schema_name]
                  t components
            | None =>
                match dict_get "allOf" s with
                | Some (JList subs) =>
                    m <- allOf_loop
                           (fun i sub =>
                              convert_openapi_to_json_schema depth' st
                                (here ++ [Key "allOf"; Idx i]) sub components)
                           st 0 subs (Merged [] [] None) ;;
                    allOf_result st m
                | Some _ => Raise TypeError
                | None =>
                    match dict_get "oneOf" s with
                    | Some (JList alts) =>
                        first <- index alts 0 ;;
                        Ok (ORef (here ++ [Key "oneOf"; Idx 0]) first)
                    | Some (JDict _) => Raise KeyError
                    | Some _ => Raise TypeError
                    | None =>
                        let r0 := match dict_get "type" s with
                                  | Some t => [("type", OVal t)]
                                  | None => []
                                  end in
                        r1 <- match dict_get "properties" s with
                              | Some (JDict props) =>
                                  ps <- properties_loop
                                          (fun k p =>
                                             convert_openapi_to_json_schema
                                               depth' st
                                               (here ++ [Key "properties"; Key k])
                                               p components)
                                          props [] ;;
                                  Ok (dict_set "properties" (ODict ps) r0)
                              | Some _ => Raise AttributeError
                              | None => Ok r0
                              end ;;
                        r2 <- match dict_get "required" s with
                              | Some (JList required) =>
                                  let ps := match dict_get "properties" r1 with
                                            | Some (ODict ps) => ps
                                            | _ => []
                                            end in
                                  f <- required_filter required ps ;;
                                  Ok (dict_set "required" (OVal (JList f)) r1)
                              | Some _ => Raise TypeError
                              | None => Ok r1
                              end ;;
                        Ok (ODict (copy_keys s r2))
                    end
                end
            end
        | _ => Raise TypeError
        end
  end.

End Resolver.

(** ** The tool catalog builder *)

Record Tool : Type := mkTool {
  name : string;
  description : string;
  inputSchema : out
}.

Definition HTTP_METHODS : list string :=
  ["GET"; "POST"; "PUT"; "PATCH"; "DELETE"].

Definition CONTENT_TYPES : list string :=
  ["application/json"; "application/x-www-form-urlencoded";
   "multipart/form-data"; "text/plain"].

(** The [input_schema] under construction (lines 135-139): its
    ["properties"] and its ["required"]. *)
Record input_schema : Type := InputSchema {
  in_properties : list (string * out);
  in_required : list string
}.

Definition input_schema_out (s : input_schema) : out :=
  ODict [("type", OVal (JStr "object"));
         ("properties", ODict (in_properties s));
         ("required", OVal (JList (map JStr (in_required s))))].

(** Line 145, [param_schema["description"] = d]: a store into the dict
    the conversion allocated, or into the object of the document it
    returned. *)
Definition set_description (st : store) (param_schema : out) (d : json)
  : res (out * store) :=
  match param_schema with
  | ODict r => Ok (ODict (dict_set "description" (OVal d) r), st)
  | ORef l j =>
      match deref st l j with
      | JDict _ => Ok (ORef l j, (l, d) :: st)
      | _ => Raise TypeError
      end
  | OVal _ => Raise TypeError
  end.

Definition key_of (j : json) : res string :=
  match j with
  | JStr s => Ok s
  | _ => Raise TypeError
  end.

(** [j == s] for a string [s]. *)
Definition json_is_str (j : json) (s : string) : bool :=
  match j with
  | JStr x => String.eqb x s
  | _ => false
  end.

Section Catalog.

Variable set_order : list string -> list string.

Let convert := convert_openapi_to_json_schema set_order.

(** Lines 143-155, for the parameter at index [i] of the operation at
    [op_loc]. *)
Definition add_parameter (depth : nat) (components : json) (op_loc : loc)
  (i : nat) (param : json) (acc : input_schema * store)
  : res (input_schema * store) :=
  let (schema, st) := acc in
  match param with
  | JDict p =>
      match dict_get "name" p with
      | None => Raise KeyError
      | Some param_name =>
          converted <- convert depth st
                         (op_loc ++ [Key "parameters"; Idx i; Key "schema"])
                         (dict_get_default "schema"
                            (JDict [("type", JStr "string")]) p)
                         components ;;
          '(param_schema, st') <-
            set_description st converted
              (dict_get_default "description" (JStr "") p) ;;
          match dict_get "in" p with
          | None => Raise KeyError
          | Some where_ =>
              n <- key_of param_name ;;
              let param_name' :=
                if json_is_str where_ "path" then ("path_" ++ n)%string
                else if json_is_str where_ "query" then ("query_" ++ n)%string
                else n in
              let props := dict_set param_name' param_schema
                             (in_properties schema) in
              let req :=
                if truthy (dict_get_default "required" (JBool false) p)
                then in_required schema ++ [param_name']
                else in_required schema in
              Ok (InputSchema props req, st')
          end
      end
  | _ => Raise TypeError
  end.

Fixpoint parameters_loop (depth : nat) (components : json) (op_loc : loc)
  (i : nat) (params : list json) (acc : input_schema * store)
  : res (input_schema * store) :=
  match params with
  | [] => Ok acc
  | param :: params' =>
      acc' <- add_parameter depth components op_loc i param acc ;;
      parameters_loop depth components op_loc (S i) params' acc'
  end.

(** Lines 161-167: the schema of the first content type present, in
    the order of preference, and that content type. *)
Fixpoint select_body (content : list (string * json)) (types : list string)
  : res (option (string * json)) :=
  match types with
  | [] => Ok None
  | content_type :: types' =>
      match dict_get content_type content with
      | Some (JDict media) =>
          Ok (Some (content_type,
                    dict_get_default "schema" (JDict []) media))
      | Some _ => Raise AttributeError
      | None => select_body content types'
      end
  end.

Fixpoint body_required (fields : list json) (acc : list string)
  : res (list string) :=
  match fields with
  | [] => Ok acc
  | req_field :: fields' =>
      f <- key_of req_field ;;
      body_required fields' (acc ++ [("body_" ++ f)%string])
  end.

(** Lines 157-178. *)
Definition add_request_body (depth : nat) (components : json)
  (op_loc : loc) (req_body : json) (acc : input_schema * store)
  : res (input_schema * store) :=
  let (schema, st) := acc in
  match req_body with
  | JDict rb =>
      match dict_get_default "content" (JDict []) rb with
      | JDict content =>
          sel <- select_body content CONTENT_TYPES ;;
          match sel with
          | None => Ok acc
          | Some (content_type, body_schema) =>
              if negb (truthy body_schema) then Ok acc else
              converted_schema <-
                convert depth st
                  (op_loc ++ [Key "requestBody"; Key "content";
                              Key content_type; Key "schema"])
                  body_schema components ;;
              items <- out_items st converted_schema ;;
              match dict_get "properties" items with
              | None => Ok acc
              | Some ps =>
                  props <- out_items st ps ;;
                  let properties :=
                    fold_left
                      (fun a kv => dict_set ("body_" ++ fst kv)%string (snd kv) a)
                      props (in_properties schema) in
                  required <-
                    match dict_get "required" items with
                    | None => Ok (in_required schema)
                    | Some r =>
                        fields <- out_list st r ;;
                        body_required fields (in_required schema)
                    end ;;
                  Ok (InputSchema properties required, st)
              end
          end
      | _ => Raise TypeError
      end
  | _ => Raise AttributeError
  end.

(** Lines 132-186: the descriptor of one operation. *)
Definition tool_of_operation (depth : nat) (components : json)
  (path method : string) (operation : json) (st : store)
  : res (Tool * store) :=
  match operation with
  | JDict op =>
      let operation_id :=
        dict_get_default "operationId" (JStr (method ++ "_" ++ path)%string) op in
      let description :=
        dict_get_default "description"
          (dict_get_default "summary"
             (JStr (upper method ++ " " ++ path)%string) op) op in
      let op_loc := [Key "paths"; Key path; Key method] in
      acc1 <- match dict_get "parameters" op with
              | None => Ok (InputSchema [] [], st)
              | Some (JList params) =>
                  parameters_loop depth components op_loc 0 params
                    (InputSchema [] [], st)
              | Some _ => Raise TypeError
              end ;;
      acc2 <- match dict_get "requestBody" op with
              | None => Ok acc1
              | Some req_body =>
                  add_request_body depth components op_loc req_body acc1
              end ;;
      d <- match description with
           | JStr d => Ok (take 1024 d)
           | _ => Raise TypeError
           end ;;
      n <- match operation_id with
           | JStr n => Ok n
           | _ => Raise ValidationError
           end ;;
      Ok (mkTool n d (input_schema_out (fst acc2)), snd acc2)
  | _ => Raise AttributeError
  end.

(** The loop of line 128 over one path item. *)
Fixpoint methods_loop (depth : nat) (components : json) (path : string)
  (path_item : list (string * json)) (acc : list Tool * store)
  : res (list Tool * store) :=
  match path_item with
  | [] => Ok acc
  | (method, operation) :: path_item' =>
      if negb (string_in (upper method) HTTP_METHODS)
      then methods_loop depth components path path_item' acc
      else
        '(tool, st') <- tool_of_operation depth components path method
                          operation (snd acc) ;;
        methods_loop depth components path path_item'
          (fst acc ++ [tool], st')
  end.

(** The loop of line 127. *)
Fixpoint paths_loop (depth : nat) (components : json)
  (paths : list (string * json)) (acc : list Tool * store)
  : res (list Tool * store) :=
  match paths with
  | [] => Ok acc
  | (path, path_item) :: paths' =>
      match path_item with
      | JDict item =>
          acc' <- methods_loop depth components path item acc ;;
          paths_loop depth components paths' acc'
      | _ => Raise AttributeError
      end
  end.

(** [generate_tools_from_openapi(spec)], run with the descriptions
    [st] already written to the document; it answers the tools and the
    descriptions written by then. *)
Definition generate_tools_from_openapi (depth : nat) (spec : json)
  (st : store) : res (list Tool * store) :=
  match spec with
  | JDict sp =>
      match dict_get_default "paths" (JDict []) sp with
      | JDict paths =>
          paths_loop depth (dict_get_default "components" (JDict []) sp)
            paths ([], st)
      | _ => Raise AttributeError
      end
  | _ => Raise AttributeError
  end.

(** A tool as a reader of the catalog sees it:
    [{"name", "description", "inputSchema"}] of [get_tools_list]. *)
Definition listed (st : store) (t : Tool) : string * string * json :=
  (name t, description t, render st (inputSchema t)).

End Catalog.

(** ** Credentials *)

Definition b64_alphabet : string :=
  "ABCDEFGHIJKLMNOPQRSTUVWXYZabcdefghijklmnopqrstuvwxyz0123456789+/".

Definition b64_char (n : nat) : ascii :=
  match String.get n b64_alphabet with
  | Some c => c
  | None => "="%char
  end.

(** [base64.b64encode] on the bytes of a string. *)
Fixpoint b64encode (s : string) : string :=
  match s with
  | EmptyString => EmptyString
  | String a EmptyString =>
      let x := nat_of_ascii a in
      String (b64_char (x / 4))
        (String (b64_char ((x mod 4) * 16)) "==")
  | String a (String b EmptyString) =>
      let x := nat_of_ascii a in
      let y := nat_of_ascii b in
      String (b64_char (x / 4))
        (String (b64_char ((x mod 4) * 16 + y / 16))
           (String (b64_char ((y mod 16) * 4)) "="))
  | String a (String b (String c rest)) =>
      let x := nat_of_ascii a in
      let y := nat_of_ascii b in
      let z := nat_of_ascii c in
      String (b64_char (x / 4))
        (String (b64_char ((x mod 4) * 16 + y / 16))
           (String (b64_char ((y mod 16) * 4 + z / 64))
              (String (b64_char (z mod 64)) (b64encode rest))))
  end.

(** The two variables of the environment [get_auth_header] reads;
    [None] is a variable that is not set. *)
Record environ : Type := Environ {
  API_USERNAME : option string;
  API_PASSWORD : option string
}.

Definition getenv (v : option string) (default : string) : string :=
  match v with
  | Some s => s
  | None => default
  end.

Definition get_auth_header (env : environ) : string :=
  let api_username := getenv (API_USERNAME env) "" in
  let api_password := getenv (API_PASSWORD env) "" in
  if negb (String.eqb api_username "") && negb (String.eqb api_password "")
  then b64encode (api_username ++ ":" ++ api_password)%string
  else "".

(** ** The dispatcher *)

Definition API_BASE_URL : string := "https://your-WYGIWYH.com".

Record TextContent : Type := mkTextContent {
  type_ : string;
  text : string
}.

(** An outbound call of the HTTP client: [client.<method>(url,
    headers=, params=, json=)]; [req_json] is [None] where no [json=] is
    passed. *)
Record Request : Type := mkRequest {
  req_method : string;
  req_url : string;
  req_headers : list (string * string);
  req_params : list (string * json);
  req_json : option (list (string * json))
}.

(** What the dispatcher reads of a response; [resp_json] is [None]
    where [response.json()] raises. *)
Record Response : Type := mkResponse {
  status_code : Z;
  resp_content_type : option string;
  resp_text : string;
  resp_json : option json
}.

(** The client answers, or raises an exception of the given type name
    and message. *)
Inductive outcome : Type :=
| Responded (r : Response)
| Failed (type_name message : string).

(** httpx: [raise_for_status] returns on a 2xx status and raises
    [HTTPStatusError] on any other. *)
Definition is_success (status : Z) : bool :=
  (200 <=? status)%Z && (status <=? 299)%Z.

(** Lines 234-240. *)
Definition split_step
  (acc : list (string * json) * list (string * json) * list (string * json))
  (kv : string * json)
  : list (string * json) * list (string * json) * list (string * json) :=
  let '(path_params, query_params, body_data) := acc in
  let (key, value) := kv in
  if startswith "path_" key
  then (dict_set (drop 5 key) value path_params, query_params, body_data)
  else if startswith "query_" key
  then (path_params, dict_set (drop 6 key) value query_params, body_data)
  else if startswith "body_" key
  then (path_params, query_params, dict_set (drop 5 key) value body_data)
  else acc.

Definition split_arguments (arguments : list (string * json))
  : list (string * json) * list (string * json) * list (string * json) :=
  fold_left split_step arguments ([], [], []).

(** Lines 213-220: the scan of one path item. *)
Fixpoint find_in_item (tool : string) (api_path : string)
  (path_item : list (string * json))
  : res (option (string * string * json)) :=
  match path_item with
  | [] => Ok None
  | (http_method, op) :: path_item' =>
      if negb (string_in (upper http_method) HTTP_METHODS)
      then find_in_item tool api_path path_item'
      else match op with
           | JDict o =>
               if json_is_str (dict_get_default "operationId" JNull o) tool
               then Ok (Some (api_path, upper http_method, op))
               else find_in_item tool api_path path_item'
           | _ => Raise AttributeError
           end
  end.

(** Lines 212-222.  [found] holds [path], [method] and [operation]; the
    scan stops at the first path item after which [path] is true. *)
Fixpoint find_operation (tool : string) (paths : list (string * json))
  (found : option (string * string * json))
  : res (option (string * string * json)) :=
  match paths with
  | [] => Ok found
  | (api_path, path_item) :: paths' =>
      match path_item with
      | JDict item =>
          r <- find_in_item tool api_path item ;;
          let found' := match r with Some f => Some f | None => found end in
          match found' with
          | Some (p, _, _) =>
              if negb (String.eqb p "") then Ok found'
              else find_operation tool paths' found'
          | None => find_operation tool paths' found'
          end
      | _ => Raise AttributeError
      end
  end.

Definition MISSING_CREDENTIALS : string :=
  "Error: API_USERNAME and API_PASSWORD environment variables must be set to make API calls".

Definition TOOL_NOT_FOUND (tool : string) : string :=
  ("Error: Tool '" ++ tool ++ "' not found in API specification")%string.

Definition NO_CONTENT : json :=
  JDict [("status", JStr "success");
         ("message", JStr "Resource deleted or no content returned")].

Section Dispatcher.

(** The HTTP client and the library functions of the dispatcher:
    [str(value)], [json.dumps(value, indent=2, ensure_ascii=b)] and
    the first group of [re.search('<title>(.*?)</title>', text,
    re.IGNORECASE)]. *)
Variable send : Request -> outcome.
Variable py_str : json -> string.
Variable json_dumps : bool -> json -> string.
Variable html_title : string -> option string.

(** Lines 243-244. *)
Definition substitute (path : string) (path_params : list (string * json))
  : string :=
  fold_left
    (fun url kv =>
       replace ("{" ++ fst kv ++ "}")%string (py_str (snd kv)) url)
    path_params path.

(** Lines 255-278: the call made for the method, or [None] for a
    method the chain of tests does not know. *)
Definition build_request (method full_url : string)
  (auth_header : string) (query_params body_data : list (string * json))
  : option Request :=
  let headers := [("Authorization", ("Basic " ++ auth_header)%string);
                  ("Accept", "application/json")] in
  let with_body :=
    if truthy (JDict body_data)
    then mkRequest method full_url
           (dict_set "Content-Type" "application/json" headers)
           query_params (Some body_data)
    else mkRequest method full_url headers query_params None in
  if String.eqb method "GET"
  then Some (mkRequest method full_url headers query_params None)
  else if String.eqb method "POST" then Some with_body
  else if String.eqb method "PUT" then Some with_body
  else if String.eqb method "PATCH" then Some with_body
  else if String.eqb method "DELETE"
  then Some (mkRequest method full_url headers query_params None)
  else None.

(** Lines 282-302. *)
Definition success_text (response : Response) : string :=
  let result :=
    if (status_code response =? 204)%Z then NO_CONTENT
    else match resp_json response with
         | Some j => j
         | None =>
             let content_type := getenv (resp_content_type response) "" in
             if contains "text/html" content_type
             then JDict [("status", JStr "success");
                         ("content_type", JStr content_type);
                         ("message", JStr "Response received (HTML content)");
                         ("text_preview", JStr (take 500 (resp_text response)))]
             else JDict [("response", JStr (resp_text response))]
         end in
  json_dumps false result.

(** Lines 304-326. *)
Definition http_error_text (response : Response) : string :=
  let status := string_of_Z (status_code response) in
  let error_detail :=
    match resp_json response with
    | Some error_json => json_dumps true error_json
    | None =>
        let content_type := getenv (resp_content_type response) "" in
        if contains "text/html" content_type
        then
          let d := ("HTML Error Page (status " ++ status ++ ")")%string in
          if negb (String.eqb (resp_text response) "")
          then match html_title (resp_text response) with
               | Some t => (d ++ String "010" "Title: " ++ t)%string
               | None => d
               end
          else d
        else take 500 (resp_text response)
    end in
  ("HTTP Error " ++ status ++ ":" ++ String "010" error_detail)%string.

(** [call_tool(name, arguments)] on the loaded document: the content
    returned and the calls made on the network, in order. *)
Definition call_tool (env : environ) (openapi_spec : json)
  (tool : string) (arguments : list (string * json))
  : res (list TextContent * list Request) :=
  let auth_header := get_auth_header env in
  if String.eqb auth_header ""
  then Ok ([mkTextContent "text" MISSING_CREDENTIALS], [])
  else
    match openapi_spec with
    | JDict sp =>
        match dict_get_default "paths" (JDict []) sp with
        | JDict paths =>
            found <- find_operation tool paths None ;;
            match found with
            | Some (String c p as path, method, operation) =>
                let '(path_params, query_params, body_data) :=
                  split_arguments arguments in
                let url := substitute path path_params in
                let full_url := (API_BASE_URL ++ url)%string in
                match build_request method full_url auth_header
                        query_params body_data with
                | None =>
                    Ok ([mkTextContent "text"
                           ("Error: Unsupported HTTP method: " ++ method)%string],
                        [])
                | Some request =>
                    match send request with
                    | Responded response =>
                        if is_success (status_code response)
                        then Ok ([mkTextContent "text" (success_text response)],
                                 [request])
                        else Ok ([mkTextContent "text"
                                    (http_error_text response)],
                                 [request])
                    | Failed type_name message =>
                        Ok ([mkTextContent "text"
                               ("Error: " ++ type_name ++ ": " ++ message)%string],
                            [request])
                    end
                end
            | _ => Ok ([mkTextContent "text" (TOOL_NOT_FOUND tool)], [])
            end
        | _ => Raise AttributeError
        end
    | _ => Raise AttributeError
    end.

End Dispatcher.

(** ** The direct call of the HTTP transport *)

Section Internal.

Variable send : Request -> outcome.
Variable py_str : json -> string.
Variable json_dumps : bool -> json -> string.
Variable html_title : string -> option string.

(** [call_tool_internal(name, arguments)] (lines 49-62): the text of
    the first item of what [call_tool] returns, or an error where it
    returns nothing. *)
Definition call_tool_internal (env : environ) (openapi_spec : json)
  (tool : string) (arguments : list (string * json))
  : res (list (string * json) * list Request) :=
  '(result, trace) <-
    call_tool send py_str json_dumps html_title env openapi_spec tool
      arguments ;;
  match result with
  | first_item :: _ => Ok ([("text", JStr (text first_item))], trace)
  | [] => Ok ([("error", JStr "No response from tool")], trace)
  end.

End Internal.

(** ** The HTTP transport ([mcp_sse_server.py]) *)

(** Lines 22-25: the token of the environment, or a generated one where
    the variable is unset or empty. *)
Definition effective_token (MCP_TOKEN : option string) (generated : string)
  : string :=
  if String.eqb (getenv MCP_TOKEN "") "" then generated
  else getenv MCP_TOKEN "".

(** [check_bearer_token(request)] (lines 32-41) on the value of the
    [Authorization] header, [None] where the request has none. *)
Definition check_bearer_token (MCP_TOKEN : string)
  (authorization : option string) : bool :=
  let auth_header := getenv authorization "" in
  if negb (startswith "Bearer " auth_header) then false
  else match index (split_on " " auth_header) 1 with
       | Ok token => String.eqb token MCP_TOKEN
       | Raise _ => false
       end.

(** The content of a response: none, a string, or a value serialised
    by [JSONResponse]. *)
Inductive content : Type :=
| NoContent
| Raw (s : string)
| Json (j : json).

Record HttpResponse : Type := mkHttpResponse {
  http_status : Z;
  http_content : content;
  http_headers : list (string * string)
}.

(** The double quote, character 34. *)
Definition dquote : string := String (ascii_of_nat 34) "".

Definition UNAUTHORIZED : HttpResponse :=
  mkHttpResponse 401
    (Raw ("{" ++ dquote ++ "error" ++ dquote ++ ": "
          ++ dquote ++ "Unauthorized" ++ dquote ++ "}")%string)
    [("WWW-Authenticate",
      ("Bearer realm=" ++ dquote ++ "MCP Server" ++ dquote)%string)].

Definition INITIALIZE_RESULT : json :=
  JDict [("protocolVersion", JStr "2024-11-05");
         ("capabilities", JDict [("tools", JDict [])]);
         ("serverInfo", JDict [("name", JStr "WYGIWYH MCP Server");
                               ("version", JStr "1.0.0")])].

Definition rpc_result (request_id result : json) : HttpResponse :=
  mkHttpResponse 200
    (Json (JDict [("jsonrpc", JStr "2.0"); ("id", request_id);
                  ("result", result)])) [].

Definition rpc_error (status : Z) (request_id : json) (code : Z)
  (message : string) : HttpResponse :=
  mkHttpResponse status
    (Json (JDict [("jsonrpc", JStr "2.0"); ("id", request_id);
                  ("error", JDict [("code", JInt code);
                                   ("message", JStr message)])])) [].

(** [d.get(k)] on a value that has to be a dict. *)
Definition get_attr (k : string) (default : json) (j : json) : res json :=
  match j with
  | JDict d => Ok (dict_get_default k default d)
  | _ => Raise AttributeError
  end.

Section Transport.

(** The state the handlers of the server module work on, these
    handlers, and the library functions of the route: [str(value)],
    [json.dumps(value)] and the message of an exception. *)
Variable S : Type.
Variable get_tools_list : S -> res json * S.
Variable call_tool_direct : json -> json -> S -> res json * S.
Variable py_str : json -> string.
Variable json_dumps : json -> string.
Variable exn_message : exn -> string.
Variable decode_message : string.

(** Lines 178-192: the answer to an exception; [body] is what
    [request.json()] gives when it is asked again. *)
Definition internal_error (body : option json) (message : string)
  : HttpResponse :=
  let error_request_id :=
    match body with
    | Some (JDict d) => dict_get_default "id" JNull d
    | _ => JNull
    end in
  rpc_error 500 error_request_id (-32603)
    ("Internal error: " ++ message)%string.

(** Lines 97-171, the body of the [try]: the response, or the exception
    that leaves it, and the state of the handlers. *)
Definition route (body : json) (s : S) : res HttpResponse * S :=
  match get_attr "method" JNull body with
  | Raise e => (Raise e, s)
  | Ok method =>
      match body with
      | JDict b =>
          let params := dict_get_default "params" (JDict []) b in
          let request_id := dict_get_default "id" JNull b in
          match request_id with
          | JNull => (Ok (mkHttpResponse 200 NoContent []), s)
          | _ =>
              if json_is_str method "initialize"
              then (Ok (rpc_result request_id INITIALIZE_RESULT), s)
              else if json_is_str method "tools/list"
              then
                match get_tools_list s with
                | (Ok tools_list, s') =>
                    (Ok (rpc_result request_id
                           (JDict [("tools", tools_list)])), s')
                | (Raise e, s') => (Raise e, s')
                end
              else if json_is_str method "tools/call"
              then
                match get_attr "name" JNull params with
                | Raise e => (Raise e, s)
                | Ok tool_name =>
                    let tool_args :=
                      match params with
                      | JDict p => dict_get_default "arguments" (JDict []) p
                      | _ => JNull
                      end in
                    match call_tool_direct tool_name tool_args s with
                    | (Ok result, s') =>
                        (Ok (rpc_result request_id
                               (JDict [("content",
                                        JList [JDict [("type", JStr "text");
                                                      ("text",
                                                       JStr (json_dumps result))]])])),
                         s')
                    | (Raise e, s') => (Raise e, s')
                    end
                end
              else
                (Ok (rpc_error 400 request_id (-32601)
                       ("Method not found: " ++ py_str method)%string), s)
          end
      | _ => (Raise AttributeError, s)
      end
  end.

(** [handle_root_post(request)] (lines 86-192) on the [Authorization]
    header and on what [request.json()] gives, [None] where it raises. *)
Definition handle_root_post (MCP_TOKEN : string)
  (authorization : option string) (body : option json) (s : S)
  : HttpResponse * S :=
  if negb (check_bearer_token MCP_TOKEN authorization)
  then (UNAUTHORIZED, s)
  else
    match body with
    | None => (internal_error None decode_message, s)
    | Some b =>
        match route b s with
        | (Ok response, s') => (response, s')
        | (Raise e, s') => (internal_error body (exn_message e), s')
        end
    end.

End Transport.

(** ** Documents with shared mappings

    [yaml.safe_load] gives one dict for a YAML anchor and all its
    aliases, so a mapping of the document can stand at several places.
    Here the mappings of the document live in a heap and a value refers
    to one by its address ([NObj]); sequences and scalars are never
    written and stay values.  [NLit] is a dict the build allocates for a
    default ([{"type": "string"}], [{}]): no place of the document
    holds it.  The conversion and the build are those of the sections
    above, read through the heap, and the store of line 145 is a write
    to the heap. *)

Module Shared.

Inductive node : Type :=
| NNull
| NBool (b : bool)
| NInt (z : Z)
| NFloat (m e : Z)
| NStr (s : string)
| NList (l : list node)
| NObj (a : nat)
| NLit (d : list (string * node)).

Definition heap : Type := list (nat * list (string * node)).

(** The mapping at an address; an address the heap does not bind holds
    the empty mapping. *)
Fixpoint lookup (a : nat) (h : heap) : list (string * node) :=
  match h with
  | [] => []
  | (a', d) :: h' => if Nat.eqb a a' then d else lookup a h'
  end.

Fixpoint heap_set (a : nat) (d : list (string * node)) (h : heap) : heap :=
  match h with
  | [] => [(a, d)]
  | (a', d') :: h' =>
      if Nat.eqb a a' then (a, d) :: h' else (a', d') :: heap_set a d h'
  end.

(** The bindings of a value that is a dict. *)
Definition fields_of (h : heap) (n : node) : option (list (string * node)) :=
  match n with
  | NObj a => Some (lookup a h)
  | NLit d => Some d
  | _ => None
  end.

Definition truthy (h : heap) (n : node) : bool :=
  match n with
  | NNull => false
  | NBool b => b
  | NInt z => negb (Z.eqb z 0)
  | NFloat m _ => negb (Z.eqb m 0)
  | NStr s => negb (String.eqb s "")
  | NList l => match l with [] => false | _ => true end
  | NObj a => match lookup a h with [] => false | _ => true end
  | NLit d => match d with [] => false | _ => true end
  end.

Definition get_default (k : string) (default : node)
  (d : list (string * node)) : node :=
  match dict_get k d with Some v => v | None => default end.

Definition is_str (n : node) (s : string) : bool :=
  match n with
  | NStr x => String.eqb x s
  | _ => false
  end.

(** A result: a value of the document (a reference where it is a
    mapping) or a dict allocated by the build. *)
Inductive sout : Type :=
| SVal (n : node)
| SDict (d : list (string * sout)).

Definition lift (d : list (string * node)) : list (string * sout) :=
  map (fun kv => (fst kv, SVal (snd kv))) d.

Definition items (h : heap) (o : sout) : res (list (string * sout)) :=
  match o with
  | SDict d => Ok d
  | SVal n =>
      match fields_of h n with
      | Some d => Ok (lift d)
      | None => Raise TypeError
      end
  end.

Definition as_list (o : sout) : res (list node) :=
  match o with
  | SVal (NList l) => Ok l
  | _ => Raise TypeError
  end.

Definition sout_truthy (h : heap) (o : sout) : bool :=
  match o with
  | SVal n => truthy h n
  | SDict d => match d with [] => false | _ => true end
  end.

Section Resolver.

Variable set_order : list string -> list string.

Fixpoint strings_of (l : list node) : res (list string) :=
  match l with
  | [] => Ok []
  | NStr s :: l' => ss <- strings_of l' ;; Ok (s :: ss)
  | _ :: _ => Raise TypeError
  end.

Definition list_set (l : list node) : res (list node) :=
  ss <- strings_of l ;; Ok (map NStr (set_order ss)).

(** Lines 71-76. *)
Definition resolve_ref (h : heap) (schema : list (string * node))
  (components : node) : res (option node) :=
  match dict_get "$ref" schema with
  | None => Ok None
  | Some (NStr r) =>
      let ref_path := split_on "/" r in
      r0 <- index ref_path 0 ;;
      if negb (String.eqb r0 "#") then Ok None else
      r1 <- index ref_path 1 ;;
      if negb (String.eqb r1 "components") then Ok None else
      r2 <- index ref_path 2 ;;
      if negb (String.eqb r2 "schemas") then Ok None else
      schema_name <- index ref_path 3 ;;
      match fields_of h components with
      | Some c =>
          match fields_of h (get_default "schemas" (NLit []) c) with
          | Some schemas => Ok (dict_get schema_name schemas)
          | None => Raise TypeError
          end
      | None => Raise AttributeError
      end
  | Some _ => Raise AttributeError
  end.

Record merged : Type := Merged {
  merged_properties : list (string * sout);
  merged_required : list node;
  merged_type : option sout
}.

(** Lines 85-90. *)
Definition merge_step (h : heap) (m : merged) (converted : sout)
  : res merged :=
  its <- items h converted ;;
  props <- match dict_get "properties" its with
           | Some p => e <- items h p ;;
                       Ok (dict_update (merged_properties m) e)
           | None => Ok (merged_properties m)
           end ;;
  req <- match dict_get "required" its with
         | Some r => e <- as_list r ;; Ok (merged_required m ++ e)
         | None => Ok (merged_required m)
         end ;;
  let ty := match dict_get "type" its, merged_type m with
            | Some t, None => Some t
            | Some t, Some t0 => if sout_truthy h t0 then Some t0 else Some t
            | None, t0 => t0
            end in
  Ok (Merged props req ty).

Fixpoint allOf_loop (conv : node -> res sout) (h : heap)
  (subs : list node) (m : merged) : res merged :=
  match subs with
  | [] => Ok m
  | sub_schema :: subs' =>
      converted <- conv sub_schema ;;
      m' <- merge_step h m converted ;;
      allOf_loop conv h subs' m'
  end.

(** Lines 92-98. *)
Definition allOf_result (h : heap) (m : merged) : res sout :=
  let ty := match merged_type m with
            | Some t => if sout_truthy h t then t else SVal (NStr "object")
            | None => SVal (NStr "object")
            end in
  let r1 := [("type", ty)] in
  let r2 := match merged_properties m with
            | [] => r1
            | p => dict_set "properties" (SDict p) r1
            end in
  match merged_required m with
  | [] => Ok (SDict r2)
  | req => s <- list_set req ;;
           Ok (SDict (dict_set "required" (SVal (NList s)) r2))
  end.

(** Lines 106-110. *)
Fixpoint properties_loop (conv : node -> res sout) (h : heap)
  (props : list (string * node)) (acc : list (string * sout))
  : res (list (string * sout)) :=
  match props with
  | [] => Ok acc
  | (prop_name, prop_schema) :: props' =>
      match fields_of h prop_schema with
      | Some p =>
          if truthy h (get_default "readOnly" (NBool false) p)
          then properties_loop conv h props' acc
          else c <- conv prop_schema ;;
               properties_loop conv h props' (dict_set prop_name c acc)
      | None => Raise AttributeError
      end
  end.

(** Line 113. *)
Fixpoint required_filter (required : list node)
  (properties : list (string * sout)) : res (list node) :=
  match required with
  | [] => Ok []
  | r :: required' =>
      keep <- match r with
              | NStr k => Ok (dict_mem k properties)
              | NList _ | NObj _ | NLit _ => Raise TypeError
              | _ => Ok false
              end ;;
      rest <- required_filter required' properties ;;
      Ok (if keep then r :: rest else rest)
  end.

(** Lines 115-117. *)
Definition copy_keys (schema : list (string * node))
  (result : list (string * sout)) : list (string * sout) :=
  fold_left (fun acc key =>
               match dict_get key schema with
               | Some v => dict_set key (SVal v) acc
               | None => acc
               end) copied_keys result.

(** [convert_openapi_to_json_schema(schema, components)] with the
    document in the heap [h]. *)
Fixpoint convert_openapi_to_json_schema (depth : nat) (h : heap)
  (schema components : node) : res sout :=
  match depth with
  | O => Raise RecursionError
  | S depth' =>
      if negb (truthy h schema) then
        Ok (SDict [("type", SVal (NStr "object")); ("properties", SDict [])])
      else
        match fields_of h schema with
        | Some s =>
            target <- resolve_ref h s components ;;
            match target with
            | Some t =>
                convert_openapi_to_json_schema depth' h t components
            | None =>
                match dict_get "allOf" s with
                | Some (NList subs) =>
                    m <- allOf_loop
                           (fun sub =>
                              convert_openapi_to_json_schema depth' h sub
                                components)
                           h subs (Merged [] [] None) ;;
                    allOf_result h m
                | Some _ => Raise TypeError
                | None =>
                    match dict_get "oneOf" s with
                    | Some (NList alts) =>
                        first <- index alts 0 ;;
                        Ok (SVal first)
                    | Some (NObj _) | Some (NLit _) => Raise KeyError
                    | Some _ => Raise TypeError
                    | None =>
                        let r0 := match dict_get "type" s with
                                  | Some t => [("type", SVal t)]
                                  | None => []
                                  end in
                        r1 <- match dict_get "properties" s with
                              | Some pn =>
                                  match fields_of h pn with
                                  | Some props =>
                                      ps <- properties_loop
                                              (fun p =>
                                                 convert_openapi_to_json_schema
                                                   depth' h p components)
                                              h props [] ;;
                                      Ok (dict_set "properties" (SDict ps) r0)
                                  | None => Raise AttributeError
                                  end
                              | None => Ok r0
                              end ;;
                        r2 <- match dict_get "required" s with
                              | Some (NList required) =>
                                  let ps := match dict_get "properties" r1 with
                                            | Some (SDict ps) => ps
                                            | _ => []
                                            end in
                                  f <- required_filter required ps ;;
                                  Ok (dict_set "required" (SVal (NList f)) r1)
                              | Some _ => Raise TypeError
                              | None => Ok r1
                              end ;;
                        Ok (SDict (copy_keys s r2))
                    end
                end
            end
        | None => Raise TypeError
        end
  end.

End Resolver.

Record Tool : Type := mkTool {
  name : string;
  description : string;
  inputSchema : sout
}.

Record input_schema : Type := InputSchema {
  in_properties : list (string * sout);
  in_required : list string
}.

Definition input_schema_out (s : input_schema) : sout :=
  SDict [("type", SVal (NStr "object"));
         ("properties", SDict (in_properties s));
         ("required", SVal (NList (map NStr (in_required s))))].

(** Line 145, [param_schema["description"] = d]: into the dict the
    conversion allocated, or into the mapping of the document it
    returned, which every place that holds this mapping then sees. *)
Definition set_description (h : heap) (param_schema : sout) (d : node)
  : res (sout * heap) :=
  match param_schema with
  | SDict r => Ok (SDict (dict_set "description" (SVal d) r), h)
  | SVal (NObj a) =>
      Ok (param_schema, heap_set a (dict_set "description" d (lookup a h)) h)
  | SVal (NLit l) => Ok (SVal (NLit (dict_set "description" d l)), h)
  | SVal _ => Raise TypeError
  end.

Definition key_of (n : node) : res string :=
  match n with
  | NStr s => Ok s
  | _ => Raise TypeError
  end.

Section Catalog.

Variable set_order : list string -> list string.

(** Lines 143-155. *)
Definition add_parameter (depth : nat) (components : node) (param : node)
  (acc : input_schema * heap) : res (input_schema * heap) :=
  let (schema, h) := acc in
  match fields_of h param with
  | None => Raise TypeError
  | Some p =>
      match dict_get "name" p with
      | None => Raise KeyError
      | Some param_name =>
          converted <- convert_openapi_to_json_schema set_order depth h
                         (get_default "schema"
                            (NLit [("type", NStr "string")]) p)
                         components ;;
          '(param_schema, h') <-
            set_description h converted (get_default "description" (NStr "") p) ;;
          match fields_of h' param with
          | None => Raise TypeError
          | Some p' =>
              match dict_get "in" p' with
              | None => Raise KeyError
              | Some where_ =>
                  n <- key_of param_name ;;
                  let param_name' :=
                    if is_str where_ "path" then ("path_" ++ n)%string
                    else if is_str where_ "query" then ("query_" ++ n)%string
                    else n in
                  let props := dict_set param_name' param_schema
                                 (in_properties schema) in
                  let req :=
                    if truthy h' (get_default "required" (NBool false) p')
                    then in_required schema ++ [param_name']
                    else in_required schema in
                  Ok (InputSchema props req, h')
              end
          end
      end
  end.

Fixpoint parameters_loop (depth : nat) (components : node)
  (params : list node) (acc : input_schema * heap)
  : res (input_schema * heap) :=
  match params with
  | [] => Ok acc
  | param :: params' =>
      acc' <- add_parameter depth components param acc ;;
      parameters_loop depth components params' acc'
  end.

(** Lines 161-167. *)
Fixpoint select_body (h : heap) (content : list (string * node))
  (types : list string) : res (option node) :=
  match types with
  | [] => Ok None
  | content_type :: types' =>
      match dict_get content_type content with
      | Some media =>
          match fields_of h media with
          | Some m => Ok (Some (get_default "schema" (NLit []) m))
          | None => Raise AttributeError
          end
      | None => select_body h content types'
      end
  end.

Fixpoint body_required (fields : list node) (acc : list string)
  : res (list string) :=
  match fields with
  | [] => Ok acc
  | req_field :: fields' =>
      f <- key_of req_field ;;
      body_required fields' (acc ++ [("body_" ++ f)%string])
  end.

(** Lines 157-178. *)
Definition add_request_body (depth : nat) (components : node)
  (req_body : node) (acc : input_schema * heap)
  : res (input_schema * heap) :=
  let (schema, h) := acc in
  match fields_of h req_body with
  | None => Raise AttributeError
  | Some rb =>
      match fields_of h (get_default "content" (NLit []) rb) with
      | None => Raise TypeError
      | Some content =>
          sel <- select_body h content CONTENT_TYPES ;;
          match sel with
          | None => Ok acc
          | Some body_schema =>
              if negb (truthy h body_schema) then Ok acc else
              converted_schema <-
                convert_openapi_to_json_schema set_order depth h body_schema
                  components ;;
              its <- items h converted_schema ;;
              match dict_get "properties" its with
              | None => Ok acc
              | Some ps =>
                  props <- items h ps ;;
                  let properties :=
                    fold_left
                      (fun a kv => dict_set ("body_" ++ fst kv)%string (snd kv) a)
                      props (in_properties schema) in
                  required <-
                    match dict_get "required" its with
                    | None => Ok (in_required schema)
                    | Some r =>
                        fields <- as_list r ;;
                        body_required fields (in_required schema)
                    end ;;
                  Ok (InputSchema properties required, h)
              end
          end
      end
  end.

(** Lines 132-186.  The [operationId] and the description are read at
    lines 132-133, before the parameters are gone through. *)
Definition tool_of_operation (depth : nat) (components : node)
  (path method : string) (operation : node) (h : heap)
  : res (Tool * heap) :=
  match fields_of h operation with
  | None => Raise AttributeError
  | Some op =>
      let operation_id :=
        get_default "operationId" (NStr (method ++ "_" ++ path)%string) op in
      let description :=
        get_default "description"
          (get_default "summary"
             (NStr (upper method ++ " " ++ path)%string) op) op in
      acc1 <- match dict_get "parameters" op with
              | None => Ok (InputSchema [] [], h)
              | Some (NList params) =>
                  parameters_loop depth components params
                    (InputSchema [] [], h)
              | Some _ => Raise TypeError
              end ;;
      acc2 <- match fields_of (snd acc1) operation with
              | None => Raise AttributeError
              | Some op' =>
                  match dict_get "requestBody" op' with
                  | None => Ok acc1
                  | Some req_body =>
                      add_request_body depth components req_body acc1
                  end
              end ;;
      d <- match description with
           | NStr d => Ok (take 1024 d)
           | _ => Raise TypeError
           end ;;
      n <- match operation_id with
           | NStr n => Ok n
           | _ => Raise ValidationError
           end ;;
      Ok (mkTool n d (input_schema_out (fst acc2)), snd acc2)
  end.

(** The loop of line 128 over the path item [path_item], [todo] turns
    from its end.  A dict iterator gives the entries in order, with
    the values the dict has by then, and raises [RuntimeError] once
    the dict has another size than when the loop began ([size]). *)
Fixpoint methods_loop (depth : nat) (components : node) (path : string)
  (path_item : node) (size todo : nat) (acc : list Tool * heap)
  : res (list Tool * heap) :=
  match fields_of (snd acc) path_item with
  | None => Raise AttributeError
  | Some item =>
      if negb (Nat.eqb (List.length item) size) then Raise RuntimeError
      else
        match todo with
        | O => Ok acc
        | S todo' =>
            match nth_error item (size - todo) with
            | None => Ok acc
            | Some (method, operation) =>
                if negb (string_in (upper method) HTTP_METHODS)
                then methods_loop depth components path path_item size todo'
                       acc
                else
                  '(tool, h') <- tool_of_operation depth components path
                                   method operation (snd acc) ;;
                  methods_loop depth components path path_item size todo'
                    (fst acc ++ [tool], h')
            end
        end
  end.

(** The loop of line 127, in the same way. *)
Fixpoint paths_loop (depth : nat) (components : node) (paths : node)
  (size todo : nat) (acc : list Tool * heap) : res (list Tool * heap) :=
  match fields_of (snd acc) paths with
  | None => Raise AttributeError
  | Some ps =>
      if negb (Nat.eqb (List.length ps) size) then Raise RuntimeError
      else
        match todo with
        | O => Ok acc
        | S todo' =>
            match nth_error ps (size - todo) with
            | None => Ok acc
            | Some (path, path_item) =>
                match fields_of (snd acc) path_item with
                | None => Raise AttributeError
                | Some item =>
                    acc' <- methods_loop depth components path path_item
                              (List.length item) (List.length item) acc ;;
                    paths_loop depth components paths size todo' acc'
                end
            end
        end
  end.

(** [generate_tools_from_openapi(spec)] on the document rooted at
    [spec] in the heap [h]: the tools, and the heap as the build leaves
    it. *)
Definition generate_tools_from_openapi (depth : nat) (spec : node)
  (h : heap) : res (list Tool * heap) :=
  match fields_of h spec with
  | None => Raise AttributeError
  | Some sp =>
      let paths := get_default "paths" (NLit []) sp in
      let components := get_default "components" (NLit []) sp in
      match fields_of h paths with
      | None => Raise AttributeError
      | Some ps =>
          paths_loop depth components paths (List.length ps)
            (List.length ps) ([], h)
      end
  end.

End Catalog.

(** What a value of the document reads as: the mappings it refers to
    written out, to the depth [fuel] and [JNull] below it. *)
Fixpoint expand (fuel : nat) (h : heap) (n : node) : json :=
  match fuel with
  | O => JNull
  | S fuel' =>
      match n with
      | NNull => JNull
      | NBool b => JBool b
      | NInt z => JInt z
      | NFloat m e => JFloat m e
      | NStr s => JStr s
      | NList l => JList (map (expand fuel' h) l)
      | NObj a =>
          JDict (map (fun kv => (fst kv, expand fuel' h (snd kv)))
                   (lookup a h))
      | NLit d =>
          JDict (map (fun kv => (fst kv, expand fuel' h (snd kv))) d)
      end
  end.

Fixpoint render (fuel : nat) (h : heap) (o : sout) : json :=
  match o with
  | SVal n => expand fuel h n
  | SDict d =>
      JDict ((fix go (d : list (string * sout)) : list (string * json) :=
                match d with
                | [] => []
                | (k, v) :: d' => (k, render fuel h v) :: go d'
                end) d)
  end.

(** A tool as a reader of the catalog sees it. *)
Definition listed (fuel : nat) (h : heap) (t : Tool)
  : string * string * json :=
  (name t, description t, render fuel h (inputSchema t)).

(** The loading of a document without aliases: every mapping gets an
    address of its own, counted from [next]. *)
Fixpoint load (j : json) (next : nat) (h : heap) : node * nat * heap :=
  match j with
  | JNull => (NNull, next, h)
  | JBool b => (NBool b, next, h)
  | JInt z => (NInt z, next, h)
  | JFloat m e => (NFloat m e, next, h)
  | JStr s => (NStr s, next, h)
  | JList l =>
      let '(ns, next', h') :=
        (fix go (l : list json) (next : nat) (h : heap)
           : list node * nat * heap :=
           match l with
           | [] => ([], next, h)
           | x :: l' =>
               let '(n, next1, h1) := load x next h in
               let '(ns, next2, h2) := go l' next1 h1 in
               (n :: ns, next2, h2)
           end) l next h in
      (NList ns, next', h')
  | JDict d =>
      let '(fs, next', h') :=
        (fix go (d : list (string * json)) (next : nat) (h : heap)
           : list (string * node) * nat * heap :=
           match d with
           | [] => ([], next, h)
           | (k, x) :: d' =>
               let '(n, next1, h1) := load x next h in
               let '(fs, next2, h2) := go d' next1 h1 in
               ((k, n) :: fs, next2, h2)
           end) d (S next) h in
      (NObj next, next', (next, fs) :: h')
  end.

End Shared.

(** ** Vocabulary of the properties *)

(** The operations of a path item and of the document: the entries the
    loops of [generate_tools_from_openapi] and [call_tool] stop at, in
    the order of the document. *)
Definition operations_of_item (path : string) (item : list (string * json))
  : list (string * string * json) :=
  map (fun mo => (path, fst mo, snd mo))
    (filter (fun mo => string_in (upper (fst mo)) HTTP_METHODS) item).

Definition operations (paths : list (string * json))
  : list (string * string * json) :=
  flat_map (fun pi => match snd pi with
                      | JDict item => operations_of_item (fst pi) item
                      | _ => []
                      end) paths.

Definition is_dict (j : json) : bool :=
  match j with
  | JDict _ => true
  | _ => false
  end.

(** Every path item is a mapping and so is every operation. *)
Definition paths_ok (paths : list (string * json)) : bool :=
  forallb (fun pi => is_dict (snd pi)) paths
  && forallb (fun pmo => is_dict (snd pmo)) (operations paths).

(** [operation.get("operationId")] *)
Definition operationId (operation : json) : option json :=
  match operation with
  | JDict op => dict_get "operationId" op
  | _ => None
  end.

(** No operation carries [tool] as its [operationId]. *)
Definition no_operation_named (tool : string) (paths : list (string * json))
  : bool :=
  forallb (fun pmo => match operationId (snd pmo) with
                      | Some j => negb (json_is_str j tool)
                      | None => true
                      end) (operations paths).

(** The name the catalog lists an operation under (line 132). *)
Definition listed_name (pmo : string * string * json) : json :=
  let '(path, method, operation) := pmo in
  match operationId operation with
  | Some j => j
  | None => JStr (method ++ "_" ++ path)%string
  end.

(** The name of a tool, as a value of the document. *)
Definition tool_label (t : Tool) : json := JStr (name t).

(** The credentials are configured: both variables set and not empty. *)
Definition configured (env : environ) : Prop :=
  (exists u, API_USERNAME env = Some u /\ u <> "")
  /\ (exists p, API_PASSWORD env = Some p /\ p <> "").

(** The keys of the three buckets under their prefixes again. *)
Definition renamespace
  (buckets : list (string * json) * list (string * json) * list (string * json))
  : list string :=
  let '(path_params, query_params, body_data) := buckets in
  map (fun k => ("path_" ++ k)%string) (dict_keys path_params)
  ++ map (fun k => ("query_" ++ k)%string) (dict_keys query_params)
  ++ map (fun k => ("body_" ++ k)%string) (dict_keys body_data).

Definition has_known_prefix (key : string) : bool :=
  startswith "path_" key || startswith "query_" key || startswith "body_" key.

(** The value of a header of a call. *)
Definition header (h : string) (request : Request) : option string :=
  dict_get h (req_headers request).

(** What the [allOf] merge reads of a converted sub-schema: its
    properties, its required list and its type. *)
Definition sub_properties (st : store) (c : out) : list (string * out) :=
  match out_items st c with
  | Ok items =>
      match dict_get "properties" items with
      | Some p => match out_items st p with Ok e => e | Raise _ => [] end
      | None => []
      end
  | Raise _ => []
  end.

Definition sub_required (st : store) (c : out) : list json :=
  match out_items st c with
  | Ok items =>
      match dict_get "required" items with
      | Some r => match out_list st r with Ok l => l | Raise _ => [] end
      | None => []
      end
  | Raise _ => []
  end.

Definition sub_type (st : store) (c : out) : list out :=
  match out_items st c with
  | Ok items => match dict_get "type" items with Some t => [t] | None => [] end
  | Raise _ => []
  end.

(** The value a key has after its bindings [e] are written in order:
    that of the last one.  With the unique keys of a Python dict it is
    the value of the only one ([written_unique]). *)
Definition written {V : Type} (k : string) (e : list (string * V)) : option V :=
  dict_get k (rev e).

(** The union of mappings in which a later one wins a name. *)
Fixpoint last_binding (k : string) (ps : list (list (string * out)))
  : option out :=
  match ps with
  | [] => None
  | p :: ps' =>
      match last_binding k ps' with
      | Some v => Some v
      | None => written k p
      end
  end.

(** The first type that is not empty, ["object"] when there is none. *)
Definition first_type (st : store) (cs : list out) : out :=
  match find (out_truthy st) (flat_map (sub_type st) cs) with
  | Some t => t
  | None => OVal (JStr "object")
  end.

(** Line 92, [merged_type or "object"]. *)
Definition or_object (st : store) (t : option out) : out :=
  match t with
  | Some t => if out_truthy st t then t else OVal (JStr "object")
  | None => OVal (JStr "object")
  end.

(** The conversions of the sub-schemas of an [allOf] list, in order. *)
Fixpoint convert_all (conv : nat -> json -> res out) (i : nat)
  (subs : list json) : res (list out) :=
  match subs with
  | [] => Ok []
  | sub :: subs' =>
      c <- conv i sub ;;
      cs <- convert_all conv (S i) subs' ;;
      Ok (c :: cs)
  end.

(** The properties and the required list of a result; a result without
    the key has none. *)
Definition result_properties (rd : list (string * out)) : list (string * out) :=
  match dict_get "properties" rd with
  | Some (ODict p) => p
  | _ => []
  end.

Definition result_required (rd : list (string * out)) : list json :=
  match dict_get "required" rd with
  | Some (OVal (JList l)) => l
  | _ => []
  end.

(** A result that is not a reference into the document: what is read
    of it does not depend on the store. *)
Definition plain (o : out) : Prop :=
  match o with
  | ORef _ _ => False
  | _ => True
  end.

Definition plain_opt (o : option out) : Prop :=
  match o with
  | Some t => plain t
  | None => True
  end.

(** The keys the build reads of a converted schema. *)
Definition read_key (k : string) : Prop :=
  k = "properties" \/ k = "required" \/ k = "type".

(** Two views of an object that agree on the keys the build reads. *)
Definition agree (i1 i2 : list (string * out)) : Prop :=
  forall k, read_key k ->
            dict_get k i1 = dict_get k i2
            /\ forall v, dict_get k i1 = Some v -> plain v.

(** A result under whose read keys no reference hides. *)
Definition shaped (o : out) : Prop :=
  match o with
  | ODict rd => forall k v, read_key k -> dict_get k rd = Some v -> plain v
  | _ => True
  end.

(** The part of [merge_step] that follows the reading of the items. *)
Definition merge_items (st : store) (m : merged) (items : list (string * out))
  : res merged :=
  props <- match dict_get "properties" items with
           | Some p => e <- out_items st p ;;
                       Ok (dict_update (merged_properties m) e)
           | None => Ok (merged_properties m)
           end ;;
  req <- match dict_get "required" items with
         | Some r => e <- out_list st r ;; Ok (merged_required m ++ e)
         | None => Ok (merged_required m)
         end ;;
  let ty := match dict_get "type" items, merged_type m with
            | Some t, None => Some t
            | Some t, Some t0 => if out_truthy st t0 then Some t0 else Some t
            | None, t0 => t0
            end in
  Ok (Merged props req ty).

(** The result of a step run from the store [w], as it comes out when
    [st] had been written before [w]. *)
Definition extend {A : Type} (st : store) (x : res (A * store))
  : res (A * store) :=
  match x with
  | Ok (a, w) => Ok (a, w ++ st)
  | Raise e => Raise e
  end.

(** The operation carries [tool] as its [operationId]. *)
Definition id_is (tool : string) (pmo : string * string * json) : bool :=
  match operationId (snd pmo) with
  | Some j => json_is_str j tool
  | None => false
  end.

(** An operation the lookup of the dispatcher can end on: it carries
    [tool] as its [operationId] and its path is not the empty string. *)
Definition operation_named (tool : string) (pmo : string * string * json)
  : bool :=
  negb (String.eqb (fst (fst pmo)) "")
  && match operationId (snd pmo) with
     | Some j => json_is_str j tool
     | None => false
     end.

Definition has_operation (tool : string) (paths : list (string * json))
  : bool :=
  existsb (operation_named tool) (operations paths).

(** The variables [path], [method], [operation] of the lookup while
    [path] is still false. *)
Definition path_unset (found : option (string * string * json)) : Prop :=
  match found with
  | Some (p, _, _) => p = ""
  | None => True
  end.

(** The character [c] does not occur in [s]. *)
Fixpoint free_of (c : ascii) (s : string) : bool :=
  match s with
  | EmptyString => true
  | String c' s' => negb (Ascii.eqb c c') && free_of c s'
  end.

Definition newline : string := String (ascii_of_nat 10) "".

(** The text before the first space of [s], all of [s] where it has
    none: [s.split(" ")[0]]. *)
Definition first_field (s : string) : string :=
  hd "" (split_on " " s).

(** The properties and the required names of the input schema of a
    tool. *)
Definition tool_properties (t : Tool) : list (string * out) :=
  match inputSchema t with
  | ODict d => result_properties d
  | _ => []
  end.

Definition tool_required (t : Tool) : list json :=
  match inputSchema t with
  | ODict d => result_required d
  | _ => []
  end.

(** The key of the input schema under which a declared parameter goes
    (lines 143-150). *)
Definition parameter_key (p : list (string * json)) : option string :=
  match dict_get "name" p, dict_get "in" p with
  | Some (JStr n), Some where_ =>
      Some (if json_is_str where_ "path" then ("path_" ++ n)%string
            else if json_is_str where_ "query" then ("query_" ++ n)%string
            else n)
  | _, _ => None
  end.

(** The bound of line 182 on the description of a tool. *)
Definition description_ok (t : Tool) : Prop :=
  (String.length (description t) <= 1024)%nat.

(** The keys a dict allocated by the conversion can have. *)
Definition RESULT_KEYS : list string :=
  "type" :: "properties" :: "required" :: copied_keys.

(** ** Sample documents and collaborators *)

Module Sample.

Definition send_204 (_ : Request) : outcome :=
  Responded (mkResponse 204 None "" None).

Definition py_str (j : json) : string :=
  match j with
  | JStr s => s
  | JInt z => string_of_Z z
  | _ => "?"
  end.

(** A one-line stand-in for [json.dumps]. *)
Definition json_dumps (_ : bool) (j : json) : string :=
  match j with
  | JDict d =>
      String.concat "; "
        (map (fun kv => (fst kv ++ ": " ++ py_str (snd kv))%string) d)
  | _ => py_str j
  end.

Definition html_title (_ : string) : option string := None.

Definition set_order (l : list string) : list string :=
  nodup string_dec l.

Definition no_credentials : environ := Environ None None.

Definition credentials : environ := Environ (Some "user") (Some "pass").

Definition id_parameter : json :=
  JDict [("name", JStr "id"); ("in", JStr "path");
         ("required", JBool true);
         ("schema", JDict [("type", JStr "integer")])].

Definition entry_body : json :=
  JDict [("content",
          JDict [("application/json",
                  JDict [("schema",
                          JDict [("$ref",
                                  JStr "#/components/schemas/Entry")])])])].

(** [GET], [PUT] and [DELETE /entries/{id}], each with an
    [operationId], and [POST /entries] without one. *)
Definition entries_paths : list (string * json) :=
  [("/entries/{id}",
    JDict
      [("get",
        JDict [("operationId", JStr "entries_retrieve");
               ("parameters", JList [id_parameter])]);
       ("put",
        JDict [("operationId", JStr "entries_update");
               ("parameters", JList [id_parameter]);
               ("requestBody", entry_body)]);
       ("delete",
        JDict [("operationId", JStr "entries_destroy");
               ("parameters", JList [id_parameter])])]);
   ("/entries",
    JDict
      [("post",
        JDict [("summary", JStr "Create an entry");
               ("requestBody", entry_body)])])].

Definition entry_schema : list (string * json) :=
  [("type", JStr "object");
   ("properties",
    JDict [("id", JDict [("type", JStr "integer");
                         ("readOnly", JBool true)]);
           ("name", JDict [("type", JStr "string")]);
           ("amount", JDict [("type", JStr "number")])]);
   ("required", JList [JStr "id"; JStr "name"])].

Definition entries_fields : list (string * json) :=
  [("paths", JDict entries_paths);
   ("components",
    JDict [("schemas", JDict [("Entry", JDict entry_schema)])])].

Definition entries : json := JDict entries_fields.

(** A document in which an operation carries, as its [operationId],
    the name the catalog gives to the [POST /entries] that has none. *)
Definition clash_paths : list (string * json) :=
  [("/entries",
    JDict [("post", JDict [("summary", JStr "Create an entry")])]);
   ("/other",
    JDict [("get", JDict [("operationId", JStr "post_/entries")])])].

Definition clash_fields : list (string * json) :=
  [("paths", JDict clash_paths)].

Definition clash : json := JDict clash_fields.

Definition basic_auth : string := "Basic dXNlcjpwYXNz".

(** The calls the sample dispatches make. *)
Definition destroy_request : Request :=
  mkRequest "DELETE" "https://your-WYGIWYH.com/entries/42"
    [("Authorization", basic_auth); ("Accept", "application/json")]
    [] None.

Definition update_request : Request :=
  mkRequest "PUT" "https://your-WYGIWYH.com/entries/42"
    [("Authorization", basic_auth); ("Accept", "application/json");
     ("Content-Type", "application/json")]
    [] (Some [("name", JStr "rent")]).

Definition other_request : Request :=
  mkRequest "GET" "https://your-WYGIWYH.com/other"
    [("Authorization", basic_auth); ("Accept", "application/json")]
    [] None.

(** A fragment with both [allOf] and [oneOf]. *)
Definition all_and_one : list (string * json) :=
  [("allOf", JList [JDict [("type", JStr "string")]]);
   ("oneOf", JList [JDict [("type", JStr "integer")];
                    JDict [("type", JStr "number")]])].

(** A fragment with [oneOf] alone. *)
Definition int_or_number : list (string * json) :=
  [("oneOf", JList [JDict [("type", JStr "integer")];
                    JDict [("type", JStr "number")]])].

(** A fragment whose first alternative has the read-only [id]. *)
Definition one_of_entry : list (string * json) :=
  [("oneOf", JList [JDict entry_schema; JDict [("type", JStr "string")]])].

Definition no_components : json := JDict [].

(** An [allOf] of the entry and of a fragment that gives [name] again
    and adds [note]. *)
Definition entry_and_note : list (string * json) :=
  [("allOf",
    JList [JDict entry_schema;
           JDict [("properties",
                   JDict [("name", JDict [("type", JStr "string");
                                          ("maxLength", JInt 40)]);
                          ("note", JDict [("type", JStr "string")])]);
                  ("required", JList [JStr "name"; JStr "note"])]])].

(** Two operations whose parameters share, through [$ref], a schema
    with [oneOf]: both builds store the parameter's description into
    the same first alternative. *)
Definition shared_parameter (d : string) : json :=
  JDict [("name", JStr "q"); ("in", JStr "query");
         ("description", JStr d);
         ("schema", JDict [("$ref", JStr "#/components/schemas/U")])].

Definition shared_paths : list (string * json) :=
  [("/a",
    JDict [("get",
            JDict [("operationId", JStr "a_list");
                   ("parameters", JList [shared_parameter "first"])])]);
   ("/b",
    JDict [("get",
            JDict [("operationId", JStr "b_list");
                   ("parameters", JList [shared_parameter "second"])])])].

Definition shared_fields : list (string * json) :=
  [("paths", JDict shared_paths);
   ("components",
    JDict [("schemas",
            JDict [("U",
                    JDict [("oneOf",
                            JList [JDict [("type", JStr "integer")];
                                   JDict [("type", JStr "string")]])])])])].

Definition shared : json := JDict shared_fields.

(** A document loaded from YAML in which [components.schemas.Any]
    carries the anchor [&any], an empty mapping, the parameter [p] has
    [schema: *any] and the parameter [q] has [schema: {oneOf: [*any]}]:
    the three places hold one mapping, at address 3. *)
Definition any_heap : Shared.heap :=
  [(0, [("components", Shared.NObj 1); ("paths", Shared.NObj 4)]);
   (1, [("schemas", Shared.NObj 2)]);
   (2, [("Any", Shared.NObj 3)]);
   (3, []);
   (4, [("/things", Shared.NObj 5)]);
   (5, [("get", Shared.NObj 6)]);
   (6, [("operationId", Shared.NStr "things_list");
        ("parameters", Shared.NList [Shared.NObj 7; Shared.NObj 8])]);
   (7, [("name", Shared.NStr "p"); ("in", Shared.NStr "query");
        ("description", Shared.NStr "first");
        ("schema", Shared.NObj 3)]);
   (8, [("name", Shared.NStr "q"); ("in", Shared.NStr "query");
        ("description", Shared.NStr "second");
        ("schema", Shared.NObj 9)]);
   (9, [("oneOf", Shared.NList [Shared.NObj 3])])].

Definition any_root : Shared.node := Shared.NObj 0.

(** A document whose path item is, by an alias, the only [oneOf]
    alternative of a parameter of its operation. *)
Definition looping_heap : Shared.heap :=
  [(0, [("paths", Shared.NObj 1)]);
   (1, [("/things", Shared.NObj 2)]);
   (2, [("get", Shared.NObj 3)]);
   (3, [("operationId", Shared.NStr "things_list");
        ("parameters", Shared.NList [Shared.NObj 4])]);
   (4, [("name", Shared.NStr "p"); ("in", Shared.NStr "query");
        ("schema", Shared.NObj 5)]);
   (5, [("oneOf", Shared.NList [Shared.NObj 2])])].

(** An operation whose description has 1100 characters. *)
Fixpoint xs (n : nat) : string :=
  match n with
  | O => EmptyString
  | S n' => String "x" (xs n')
  end.

Definition wordy : json :=
  JDict [("paths",
          JDict [("/w",
                  JDict [("get",
                          JDict [("operationId", JStr "w_list");
                                 ("description", JStr (xs 1100))])])])].

(** A document whose only operation is filed under the empty path. *)
Definition root_paths : list (string * json) :=
  [("", JDict [("get", JDict [("operationId", JStr "root")])])].

Definition root_fields : list (string * json) :=
  [("paths", JDict root_paths)].

(** Handlers that count their calls. *)
Definition counting_tools_list (n : nat) : res json * nat :=
  (Ok (JList []), S n).

Definition counting_call_tool (_ _ : json) (n : nat) : res json * nat :=
  (Ok (JDict [("text", JStr "done")]), S n).

Definition failing_tools_list (n : nat) : res json * nat :=
  (Raise KeyError, S n).

Definition compact_dumps (_ : json) : string := "{}".

Definition exn_message (_ : exn) : string := "failure".

(** A schema that refers to itself. *)
Definition node_schema : list (string * json) :=
  [("$ref", JStr "#/components/schemas/Node")].

Definition node_components : json :=
  JDict [("schemas", JDict [("Node", JDict node_schema)])].

End Sample.

(** * Properties *)

(** ** Strings and dictionaries *)

Lemma prefix_app (p s : string) :
  String.prefix p s = true -> exists t, s = (p ++ t)%string.
Proof.
  revert s; induction p as [|c p IH]; intros s H.
  - exists s; reflexivity.
  - destruct s as [|c' s]; simpl in H; [discriminate|].
    destruct (ascii_dec c c') as [->|]; [|discriminate H].
    destruct (IH _ H) as [t ->]. exists t; reflexivity.
Qed.

Lemma substring_all (s : string) : substring 0 (String.length s) s = s.
Proof. induction s; simpl; congruence. Qed.

Lemma drop_app (p t : string) : drop (String.length p) (p ++ t) = t.
Proof.
  unfold drop. induction p as [|c p IH]; simpl.
  - rewrite Nat.sub_0_r. apply substring_all.
  - exact IH.
Qed.

Lemma startswith_drop (p key : string) :
  startswith p key = true -> (p ++ drop (String.length p) key)%string = key.
Proof.
  intros H. destruct (prefix_app _ _ H) as [t ->]. now rewrite drop_app.
Qed.

Lemma startswith_app (p t : string) : startswith p (p ++ t) = true.
Proof.
  unfold startswith. induction p as [|c p IH]; simpl.
  - now destruct t.
  - destruct (ascii_dec c c); [exact IH|congruence].
Qed.

Section DictFacts.
Context {V : Type}.
Implicit Types (d : list (string * V)) (k : string) (v : V).

Lemma dict_get_set_same k v d : dict_get k (dict_set k v d) = Some v.
Proof.
  induction d as [|[k' v'] d IH]; simpl.
  - now rewrite String.eqb_refl.
  - destruct (String.eqb k k') eqn:E; simpl; rewrite ?String.eqb_refl, ?E; auto.
Qed.

Lemma dict_get_set_other k k' v d :
  k <> k' -> dict_get k (dict_set k' v d) = dict_get k d.
Proof.
  intros N. induction d as [|[k0 v0] d IH]; simpl.
  - destruct (String.eqb_spec k k'); congruence.
  - destruct (String.eqb_spec k' k0) as [->|]; simpl.
    + destruct (String.eqb_spec k k0); congruence.
    + destruct (String.eqb_spec k k0); congruence.
Qed.

Lemma dict_keys_set k k' v d :
  In k (dict_keys (dict_set k' v d)) <-> k = k' \/ In k (dict_keys d).
Proof.
  unfold dict_keys. induction d as [|[k0 v0] d IH]; simpl.
  - intuition.
  - destruct (String.eqb_spec k' k0) as [->|]; simpl; intuition.
Qed.

Lemma dict_set_nonempty k v d : dict_set k v d <> [].
Proof.
  destruct d as [|[k' v'] d]; simpl; [discriminate|].
  destruct (String.eqb k k'); discriminate.
Qed.
End DictFacts.

(** ** Credentials *)

Lemma b64encode_nonempty (s : string) : s <> "" -> b64encode s <> "".
Proof.
  destruct s as [|a [|b [|c r]]]; simpl; intros H; congruence.
Qed.

Lemma app_nonempty_l (a b : string) : a <> "" -> (a ++ b)%string <> "".
Proof. destruct a; simpl; congruence. Qed.

Lemma get_auth_header_configured (env : environ) :
  configured env -> String.eqb (get_auth_header env) "" = false.
Proof.
  intros [[u [Hu Nu]] [p [Hp Np]]]. unfold get_auth_header.
  rewrite Hu, Hp; simpl.
  apply String.eqb_neq in Nu, Np. rewrite Nu, Np; simpl.
  apply String.eqb_neq, b64encode_nonempty, app_nonempty_l.
  now apply String.eqb_neq.
Qed.

Lemma get_auth_header_missing (env : environ) :
  API_USERNAME env = None \/ API_USERNAME env = Some ""
  \/ API_PASSWORD env = None \/ API_PASSWORD env = Some "" ->
  get_auth_header env = "".
Proof.
  unfold get_auth_header.
  intros [H | [H | [H | H]]]; rewrite H; simpl;
    rewrite ?andb_false_r; reflexivity.
Qed.

(** ** The lookup of the dispatcher *)

Lemma find_in_item_none (tool path : string) (item : list (string * json)) :
  forallb (fun pmo => is_dict (snd pmo)) (operations_of_item path item) = true ->
  forallb (fun pmo => match operationId (snd pmo) with
                      | Some j => negb (json_is_str j tool)
                      | None => true
                      end) (operations_of_item path item) = true ->
  find_in_item tool path item = Ok None.
Proof.
  unfold operations_of_item.
  induction item as [|[m op] item IH]; simpl; intros D N; [reflexivity|].
  destruct (string_in (upper m) HTTP_METHODS); simpl in *; [|auto].
  apply andb_prop in D as [D1 D2]. apply andb_prop in N as [N1 N2].
  destruct op; try discriminate. simpl in N1.
  unfold dict_get_default. destruct (dict_get "operationId" d).
  - apply negb_true_iff in N1. rewrite N1. auto.
  - simpl. auto.
Qed.

Lemma find_operation_none (tool : string) (paths : list (string * json)) :
  paths_ok paths = true ->
  no_operation_named tool paths = true ->
  find_operation tool paths None = Ok None.
Proof.
  unfold paths_ok, no_operation_named, operations.
  induction paths as [|[p item] paths IH]; simpl; intros W N; [reflexivity|].
  apply andb_prop in W as [W1 W2]. apply andb_prop in W1 as [W0 W1].
  destruct item; try discriminate. simpl in W2, N.
  rewrite forallb_app in W2, N.
  apply andb_prop in W2 as [W2 W3]. apply andb_prop in N as [N1 N2].
  rewrite (find_in_item_none _ _ _ W2 N1). simpl.
  apply IH; [now rewrite W1, W3 | exact N2].
Qed.

(** A dispatch that finds no operation answers the tool-not-found text
    and calls nothing, once the credentials are configured. *)
Lemma call_tool_not_found send py_str json_dumps html_title
  (env : environ) (sp paths : list (string * json)) (tool : string)
  (arguments : list (string * json)) :
  configured env ->
  dict_get_default "paths" (JDict []) sp = JDict paths ->
  paths_ok paths = true ->
  no_operation_named tool paths = true ->
  call_tool send py_str json_dumps html_title env (JDict sp) tool arguments
  = Ok ([mkTextContent "text" (TOOL_NOT_FOUND tool)], []).
Proof.
  intros C P W N. unfold call_tool.
  rewrite (get_auth_header_configured _ C), P.
  now rewrite (find_operation_none _ _ W N).
Qed.

(** A dispatch that made one call on the network: the call is the one
    built for the method of the operation from the split arguments, and
    the content is read off the client's answer to it. *)
Lemma call_tool_sent send py_str json_dumps html_title
  (env : environ) (openapi_spec : json) (tool : string)
  (arguments : list (string * json))
  (content : list TextContent) (request : Request) :
  call_tool send py_str json_dumps html_title env openapi_spec tool arguments
  = Ok (content, [request]) ->
  (exists method full_url,
      build_request method full_url (get_auth_header env)
        (snd (fst (split_arguments arguments)))
        (snd (split_arguments arguments)) = Some request)
  /\ content =
     [mkTextContent "text"
        match send request with
        | Responded response =>
            if is_success (status_code response)
            then success_text json_dumps response
            else http_error_text json_dumps html_title response
        | Failed type_name message =>
            ("Error: " ++ type_name ++ ": " ++ message)%string
        end].
Proof.
  unfold call_tool.
  destruct (String.eqb (get_auth_header env) ""); [discriminate|].
  destruct openapi_spec; try discriminate.
  destruct (dict_get_default "paths" (JDict []) d); try discriminate.
  destruct (find_operation tool d0 None) as [[[[[|c p] m] op]|]|]; simpl;
    try discriminate.
  destruct (split_arguments arguments) as [[pp qp] bd]; simpl.
  destruct (build_request _ _ _ _ _) as [rq|] eqn:B; [|discriminate].
  intros H.
  assert (E : rq = request)
    by (destruct (send rq) as [r|]; [destruct (is_success _)|]; congruence).
  subst rq. split; [eauto|].
  destruct (send request) as [r|]; [destruct (is_success _)|]; congruence.
Qed.

Lemma build_request_cases (method full_url auth : string)
  (query_params body_data : list (string * json)) (request : Request) :
  build_request method full_url auth query_params body_data = Some request ->
  req_method request = method
  /\ ((method = "POST" \/ method = "PUT" \/ method = "PATCH") /\
      ((body_data <> [] /\ req_json request = Some body_data
        /\ header "Content-Type" request = Some "application/json")
       \/ (body_data = [] /\ req_json request = None
           /\ header "Content-Type" request = None))
      \/ (method = "GET" \/ method = "DELETE") /\
         req_json request = None /\ header "Content-Type" request = None).
Proof.
  unfold build_request, header.
  destruct (String.eqb_spec method "GET") as [->|_];
    [intros H; inversion H; subst; simpl; intuition|].
  destruct (String.eqb_spec method "POST") as [->|_];
    [intros H; inversion H; subst; destruct body_data; simpl;
     intuition congruence|].
  destruct (String.eqb_spec method "PUT") as [->|_];
    [intros H; inversion H; subst; destruct body_data; simpl;
     intuition congruence|].
  destruct (String.eqb_spec method "PATCH") as [->|_];
    [intros H; inversion H; subst; destruct body_data; simpl;
     intuition congruence|].
  destruct (String.eqb_spec method "DELETE") as [->|_];
    [intros H; inversion H; subst; simpl; intuition|].
  discriminate.
Qed.

(** ** The dispatcher *)

(** C1.  Without a configured pair of downstream credentials (one of
    the two variables unset or empty), a dispatch answers the
    missing-credentials error whatever the tool name and the arguments,
    and makes no call on the network. *)
Theorem C1_missing_credentials send py_str json_dumps html_title
  (env : environ) (openapi_spec : json) (tool : string)
  (arguments : list (string * json)) :
  API_USERNAME env = None \/ API_USERNAME env = Some ""
  \/ API_PASSWORD env = None \/ API_PASSWORD env = Some "" ->
  call_tool send py_str json_dumps html_title env openapi_spec tool arguments
  = Ok ([mkTextContent "text" MISSING_CREDENTIALS], []).
Proof.
  intros H. unfold call_tool. now rewrite (get_auth_header_missing _ H).
Qed.

Lemma C1_missing_credentials_witness :
  API_USERNAME Sample.no_credentials = None
  /\ call_tool Sample.send_204 Sample.py_str Sample.json_dumps
       Sample.html_title Sample.no_credentials Sample.entries
       "entries_retrieve" [("path_id", JInt 42)]
     = Ok ([mkTextContent "text" MISSING_CREDENTIALS], []).
Proof.
  split; [reflexivity|].
  apply C1_missing_credentials. left; reflexivity.
Defined.

(** A dispatch that called the network found an operation on a path
    that is not empty and made the call built for it. *)
Lemma call_tool_request send py_str json_dumps html_title
  (env : environ) (openapi_spec : json) (tool : string)
  (arguments : list (string * json))
  (content : list TextContent) (request : Request) :
  call_tool send py_str json_dumps html_title env openapi_spec tool arguments
  = Ok (content, [request]) ->
  exists sp paths path method operation,
    openapi_spec = JDict sp
    /\ dict_get_default "paths" (JDict []) sp = JDict paths
    /\ find_operation tool paths None = Ok (Some (path, method, operation))
    /\ path <> ""
    /\ build_request method
         (API_BASE_URL
          ++ substitute py_str path (fst (fst (split_arguments arguments))))
         (get_auth_header env)
         (snd (fst (split_arguments arguments)))
         (snd (split_arguments arguments)) = Some request.
Proof.
  unfold call_tool.
  destruct (String.eqb (get_auth_header env) ""); [discriminate|].
  destruct openapi_spec as [| | | | | |sp]; try discriminate.
  destruct (dict_get_default "paths" (JDict []) sp)
    as [| | | | | |paths] eqn:P; try discriminate.
  destruct (find_operation tool paths None) as [[[[[|c p] m] op]|]|] eqn:F;
    cbn [bind]; try discriminate.
  destruct (split_arguments arguments) as [[pp qp] bd]; cbn [fst snd].
  destruct (build_request m _ (get_auth_header env) qp bd) as [rq|] eqn:B;
    [|discriminate].
  intros H.
  assert (E : rq = request)
    by (destruct (send rq) as [r|]; [destruct (is_success _)|]; congruence).
  subst rq. exists sp, paths, (String c p), m, op.
  split; [reflexivity|]. split; [exact P|]. split; [exact F|].
  split; [discriminate | exact B].
Qed.

(** What the lookup ends on is an operation of the document that
    carries the name, and the method it answers is the key of that
    operation in its path item, in upper case. *)
Lemma find_in_item_sound (tool path : string) (item : list (string * json))
  (p m : string) (op : json) :
  find_in_item tool path item = Ok (Some (p, m, op)) ->
  p = path
  /\ exists http_method,
       m = upper http_method
       /\ In (path, http_method, op) (operations_of_item path item)
       /\ id_is tool (path, http_method, op) = true.
Proof.
  unfold operations_of_item.
  induction item as [|[hm o] item IH]; cbn [find_in_item filter fst snd];
    [discriminate|].
  destruct (string_in (upper hm) HTTP_METHODS) eqn:M; cbn [negb map].
  - destruct o as [| | | | | |o]; try discriminate.
    destruct (json_is_str (dict_get_default "operationId" JNull o) tool)
      eqn:E.
    + intros H. inversion H; subst; clear H. split; [reflexivity|].
      exists hm. split; [reflexivity|]. split; [now left|].
      unfold id_is, operationId. cbn [snd].
      unfold dict_get_default in E.
      destruct (dict_get "operationId" o); [exact E | discriminate E].
    + intros H. destruct (IH H) as [-> [hm' [-> [I J]]]].
      split; [reflexivity|]. exists hm'. split; [reflexivity|].
      split; [now right | exact J].
  - exact IH.
Qed.

Lemma find_operation_sound (tool : string) (paths : list (string * json)) :
  forall found p m op,
    find_operation tool paths found = Ok (Some (p, m, op)) ->
    found = Some (p, m, op)
    \/ exists http_method,
         m = upper http_method
         /\ In (p, http_method, op) (operations paths)
         /\ id_is tool (p, http_method, op) = true.
Proof.
  unfold operations.
  induction paths as [|[path item] paths IH];
    cbn [find_operation flat_map fst snd]; intros found p m op.
  - intros H. left. congruence.
  - destruct item as [| | | | | |item]; try discriminate.
    destruct (find_in_item tool path item) as [[[[p1 m1] op1]|]|] eqn:F;
      cbn [bind]; try discriminate.
    + apply find_in_item_sound in F as [-> [hm [-> [I J]]]].
      assert (K : forall r,
                 r = Some (p, m, op) ->
                 r = Some (path, upper hm, op1) ->
                 exists http_method,
                   m = upper http_method
                   /\ In (p, http_method, op)
                        (operations_of_item path item
                         ++ flat_map
                              (fun pi => match snd pi with
                                         | JDict item =>
                                             operations_of_item (fst pi) item
                                         | _ => []
                                         end) paths)
                   /\ id_is tool (p, http_method, op) = true).
      { intros r E1 E2. rewrite E1 in E2. inversion E2; subst.
        exists hm. split; [reflexivity|]. split; [|exact J].
        apply in_or_app. now left. }
      destruct (negb (String.eqb path "")).
      * intros H. right. apply (K (Some (p, m, op)) eq_refl). congruence.
      * intros H. apply IH in H as [H|[hm' [-> [I' J']]]].
        -- right. now apply (K _ H).
        -- right. exists hm'. split; [reflexivity|]. split; [|exact J'].
           apply in_or_app. now right.
    + assert (R : forall H : find_operation tool paths found
                             = Ok (Some (p, m, op)),
                 found = Some (p, m, op)
                 \/ exists http_method,
                      m = upper http_method
                      /\ In (p, http_method, op)
                           (operations_of_item path item
                            ++ flat_map
                                 (fun pi => match snd pi with
                                            | JDict item =>
                                                operations_of_item (fst pi) item
                                            | _ => []
                                            end) paths)
                      /\ id_is tool (p, http_method, op) = true).
      { intros H. apply IH in H as [H|[hm' [-> [I' J']]]]; [now left|].
        right. exists hm'. split; [reflexivity|]. split; [|exact J'].
        apply in_or_app. now right. }
      destruct found as [[[p0 m0] op0]|]; [|exact R].
      destruct (negb (String.eqb p0 "")); [|exact R].
      intros H. left. congruence.
Qed.

(** C2, as the code has it.  A dispatch that calls the network has
    found an operation of the document that carries the name, and the
    call goes out under the method of that operation.  When that method
    is POST, PUT or PATCH the call carries the body fields as its JSON
    body, with a JSON [Content-Type], when there are any, and no body
    and no [Content-Type] when there are none; when it is GET or DELETE
    the call never carries a body or a [Content-Type]. *)
Theorem C2_body_by_method send py_str json_dumps html_title
  (env : environ) (openapi_spec : json) (tool : string)
  (arguments : list (string * json))
  (content : list TextContent) (request : Request) :
  call_tool send py_str json_dumps html_title env openapi_spec tool arguments
  = Ok (content, [request]) ->
  exists sp paths path http_method operation,
    openapi_spec = JDict sp
    /\ dict_get_default "paths" (JDict []) sp = JDict paths
    /\ find_operation tool paths None
       = Ok (Some (path, upper http_method, operation))
    /\ In (path, http_method, operation) (operations paths)
    /\ id_is tool (path, http_method, operation) = true
    /\ req_method request = upper http_method
    /\ let body_data := snd (split_arguments arguments) in
       let method := upper http_method in
       ((method = "POST" \/ method = "PUT" \/ method = "PATCH") /\
        ((body_data <> [] /\ req_json request = Some body_data
          /\ header "Content-Type" request = Some "application/json")
         \/ (body_data = [] /\ req_json request = None
             /\ header "Content-Type" request = None)))
       \/ ((method = "GET" \/ method = "DELETE") /\
           req_json request = None /\ header "Content-Type" request = None).
Proof.
  intros H.
  apply call_tool_request in H
    as [sp [paths [path [m [op [E [P [F [_ B]]]]]]]]].
  destruct (find_operation_sound _ _ _ _ _ _ F)
    as [N|[hm [-> [I J]]]]; [discriminate N|].
  apply build_request_cases in B as [M B].
  exists sp, paths, path, hm, op. repeat (split; [assumption|]).
  exact B.
Qed.

Lemma C2_body_by_method_witness :
  call_tool Sample.send_204 Sample.py_str Sample.json_dumps
    Sample.html_title Sample.credentials Sample.entries
    "entries_update" [("path_id", JInt 42); ("body_name", JStr "rent")]
  = Ok ([mkTextContent "text" (Sample.json_dumps false NO_CONTENT)],
        [Sample.update_request])
  /\ req_method Sample.update_request = "PUT"
  /\ req_json Sample.update_request = Some [("name", JStr "rent")]
  /\ header "Content-Type" Sample.update_request = Some "application/json".
Proof.
  assert (H : call_tool Sample.send_204 Sample.py_str Sample.json_dumps
                Sample.html_title Sample.credentials Sample.entries
                "entries_update"
                [("path_id", JInt 42); ("body_name", JStr "rent")]
              = Ok ([mkTextContent "text" (Sample.json_dumps false NO_CONTENT)],
                    [Sample.update_request]))
    by (vm_compute; reflexivity).
  split; [exact H|].
  destruct (C2_body_by_method _ _ _ _ _ _ _ _ _ _ H)
    as [sp [paths [path [hm [op [_ [_ [_ [_ [_ [M B]]]]]]]]]]].
  split; [reflexivity|].
  cbv zeta in B. rewrite <- M in B.
  destruct B as [[_ [[_ [J C]] | [E _]]] | [[G | G] _]].
  - split; [exact J | exact C].
  - discriminate E.
  - discriminate G.
  - discriminate G.
Defined.

(** C2, as stated, fails on a DELETE operation: the body fields are not
    empty and the call carries no body. *)
Lemma C2_counterexample :
  snd (split_arguments [("path_id", JInt 42); ("body_note", JStr "x")])
  = [("note", JStr "x")]
  /\ call_tool Sample.send_204 Sample.py_str Sample.json_dumps
       Sample.html_title Sample.credentials Sample.entries
       "entries_destroy" [("path_id", JInt 42); ("body_note", JStr "x")]
     = Ok ([mkTextContent "text" (Sample.json_dumps false NO_CONTENT)],
           [Sample.destroy_request])
  /\ req_json Sample.destroy_request = None
  /\ header "Content-Type" Sample.destroy_request = None.
Proof. vm_compute. repeat split; reflexivity. Qed.

(** C7, as the code has it.  With the credentials configured, a
    dispatch under a name that is the [operationId] of no operation
    answers the tool-not-found error and calls nothing. *)
Theorem C7_not_found_when_configured send py_str json_dumps html_title
  (env : environ) (sp paths : list (string * json)) (tool : string)
  (arguments : list (string * json)) :
  configured env ->
  dict_get_default "paths" (JDict []) sp = JDict paths ->
  paths_ok paths = true ->
  no_operation_named tool paths = true ->
  call_tool send py_str json_dumps html_title env (JDict sp) tool arguments
  = Ok ([mkTextContent "text" (TOOL_NOT_FOUND tool)], []).
Proof. apply call_tool_not_found. Qed.

Lemma C7_not_found_when_configured_witness :
  call_tool Sample.send_204 Sample.py_str Sample.json_dumps
    Sample.html_title Sample.credentials Sample.entries "missing" []
  = Ok ([mkTextContent "text" (TOOL_NOT_FOUND "missing")], []).
Proof.
  apply (C7_not_found_when_configured _ _ _ _ _ Sample.entries_fields
           Sample.entries_paths).
  - split; [exists "user" | exists "pass"]; split;
      [reflexivity | discriminate | reflexivity | discriminate].
  - reflexivity.
  - vm_compute; reflexivity.
  - vm_compute; reflexivity.
Defined.

(** C7, as stated, fails without credentials: the name is that of no
    operation and the answer is the missing-credentials error, the
    check of the credentials coming before the lookup. *)
Lemma C7_counterexample :
  no_operation_named "missing" Sample.entries_paths = true
  /\ call_tool Sample.send_204 Sample.py_str Sample.json_dumps
       Sample.html_title Sample.no_credentials Sample.entries "missing" []
     = Ok ([mkTextContent "text" MISSING_CREDENTIALS], [])
  /\ MISSING_CREDENTIALS <> TOOL_NOT_FOUND "missing".
Proof.
  split; [vm_compute; reflexivity|].
  split; [vm_compute; reflexivity | discriminate].
Qed.

(** C8.  A dispatch whose call on the network is answered with status
    204 returns the payload [{"status": "success", "message": "Resource
    deleted or no content returned"}], serialised, and nothing else. *)
Theorem C8_no_content send py_str json_dumps html_title
  (env : environ) (openapi_spec : json) (tool : string)
  (arguments : list (string * json))
  (content : list TextContent) (request : Request) (response : Response) :
  call_tool send py_str json_dumps html_title env openapi_spec tool arguments
  = Ok (content, [request]) ->
  send request = Responded response ->
  status_code response = 204%Z ->
  content = [mkTextContent "text" (json_dumps false NO_CONTENT)].
Proof.
  intros H S C. apply call_tool_sent in H as [_ ->].
  rewrite S. unfold is_success, success_text. rewrite C. reflexivity.
Qed.

Lemma C8_no_content_witness :
  call_tool Sample.send_204 Sample.py_str Sample.json_dumps
    Sample.html_title Sample.credentials Sample.entries
    "entries_destroy" [("path_id", JInt 42)]
  = Ok ([mkTextContent "text"
           "status: success; message: Resource deleted or no content returned"],
        [Sample.destroy_request])
  /\ [mkTextContent "text"
        "status: success; message: Resource deleted or no content returned"]
     = [mkTextContent "text" (Sample.json_dumps false NO_CONTENT)].
Proof.
  assert (H : call_tool Sample.send_204 Sample.py_str Sample.json_dumps
                Sample.html_title Sample.credentials Sample.entries
                "entries_destroy" [("path_id", JInt 42)]
              = Ok ([mkTextContent "text"
                       "status: success; message: Resource deleted or no content returned"],
                    [Sample.destroy_request]))
    by (vm_compute; reflexivity).
  split; [exact H|].
  apply (C8_no_content _ _ _ _ _ _ _ _ _ _
           (mkResponse 204 None "" None) H); reflexivity.
Defined.

(** ** The argument splitter *)

Lemma in_map_keys_set (f : string -> string) (a : string) (v : json)
  (d : list (string * json)) (k : string) :
  In k (map f (dict_keys (dict_set a v d)))
  <-> k = f a \/ In k (map f (dict_keys d)).
Proof.
  rewrite !in_map_iff. split.
  - intros [x [<- H]]. apply dict_keys_set in H as [->|H]; eauto.
  - intros [->|[x [<- H]]].
    + exists a. split; [reflexivity|]. apply dict_keys_set; auto.
    + exists x. split; [reflexivity|]. apply dict_keys_set; auto.
Qed.

Lemma renamespace_step acc (key : string) (value : json) (k : string) :
  In k (renamespace (split_step acc (key, value)))
  <-> In k (renamespace acc) \/ (k = key /\ has_known_prefix key = true).
Proof.
  destruct acc as [[pp qp] bd]. unfold split_step, has_known_prefix.
  destruct (startswith "path_" key) eqn:P.
  - apply (startswith_drop "path_") in P.
      change (String.length "path_") with 5 in P.
    unfold renamespace. rewrite !in_app_iff, in_map_keys_set; cbv beta; rewrite P.
    simpl. intuition.
  - destruct (startswith "query_" key) eqn:Q.
    + apply (startswith_drop "query_") in Q.
      change (String.length "query_") with 6 in Q.
      unfold renamespace. rewrite !in_app_iff, in_map_keys_set; cbv beta; rewrite Q.
      simpl. intuition.
    + destruct (startswith "body_" key) eqn:B.
      * apply (startswith_drop "body_") in B.
      change (String.length "body_") with 5 in B.
        unfold renamespace. rewrite !in_app_iff, in_map_keys_set; cbv beta; rewrite B.
        simpl. intuition.
      * simpl. intuition discriminate.
Qed.

Lemma renamespace_fold (arguments : list (string * json)) acc (k : string) :
  In k (renamespace (fold_left split_step arguments acc))
  <-> In k (renamespace acc)
      \/ (In k (dict_keys arguments) /\ has_known_prefix k = true).
Proof.
  revert acc. induction arguments as [|[key value] arguments IH];
    intros acc; simpl.
  - intuition.
  - rewrite IH, renamespace_step. intuition; subst; auto.
Qed.

(** C6, as the code has it.  Splitting a flat argument mapping and
    putting the prefix of its bucket back on every key gives exactly
    the original keys that begin with [path_], [query_] or [body_]; the
    other keys are dropped by the split. *)
Theorem C6_split_renamespace (arguments : list (string * json)) (k : string) :
  In k (renamespace (split_arguments arguments))
  <-> In k (dict_keys arguments) /\ has_known_prefix k = true.
Proof.
  unfold split_arguments. rewrite renamespace_fold. simpl. intuition.
Qed.

(** C6, as stated, fails on a key without a known prefix: it is a key
    of the arguments and of no bucket. *)
Lemma C6_counterexample :
  dict_keys [("path_id", JInt 42); ("limit", JInt 10)] = ["path_id"; "limit"]
  /\ renamespace (split_arguments [("path_id", JInt 42); ("limit", JInt 10)])
     = ["path_id"].
Proof. split; reflexivity. Qed.

(** ** The schema resolver *)

Lemma resolve_ref_set_other (s : list (string * json)) (k : string)
  (v components : json) :
  k <> "$ref" ->
  resolve_ref (dict_set k v s) components = resolve_ref s components.
Proof.
  intros N. unfold resolve_ref.
  rewrite dict_get_set_other by congruence. reflexivity.
Qed.

Lemma dict_get_nonempty {V : Type} (k : string) (d : list (string * V)) (v : V) :
  dict_get k d = Some v -> d <> [].
Proof. destruct d; simpl; congruence. Qed.

Lemma truthy_dict (d : list (string * json)) :
  d <> [] -> truthy (JDict d) = true.
Proof. destruct d; simpl; congruence. Qed.

(** C9.  On a fragment with a [oneOf] list the second and later
    alternatives never influence the result; and where the resolution
    takes the [oneOf] branch (the fragment has no [$ref] that resolves
    and no [allOf], the two cases that come before it) the result is
    the first alternative, the object of the document itself. *)
Theorem C9_oneOf_first_alternative set_order (depth : nat) (st : store)
  (here : loc) (s : list (string * json)) (components first : json)
  (rest : list json) :
  dict_get "oneOf" s = Some (JList (first :: rest)) ->
  (forall rest',
      convert_openapi_to_json_schema set_order (S depth) st here
        (JDict (dict_set "oneOf" (JList (first :: rest')) s)) components
      = convert_openapi_to_json_schema set_order (S depth) st here
          (JDict s) components)
  /\ (resolve_ref s components = Ok None ->
      dict_get "allOf" s = None ->
      convert_openapi_to_json_schema set_order (S depth) st here
        (JDict s) components
      = Ok (ORef (here ++ [Key "oneOf"; Idx 0]) first)).
Proof.
  intros H. split.
  - intros rest'. cbn [convert_openapi_to_json_schema].
    rewrite (truthy_dict _ (dict_set_nonempty _ _ _)).
    rewrite (truthy_dict _ (dict_get_nonempty _ _ _ H)).
    cbn [negb]. rewrite resolve_ref_set_other by discriminate.
    destruct (resolve_ref s components) as [[[n t]|]|]; cbn [bind];
      try reflexivity.
    rewrite dict_get_set_other by discriminate.
    destruct (dict_get "allOf" s); [reflexivity|].
    now rewrite dict_get_set_same, H.
  - intros R A. cbn [convert_openapi_to_json_schema].
    rewrite (truthy_dict _ (dict_get_nonempty _ _ _ H)).
    cbn [negb]. rewrite R. cbn [bind]. now rewrite A, H.
Qed.

Lemma C9_oneOf_first_alternative_witness :
  dict_get "oneOf" Sample.int_or_number
  = Some (JList [JDict [("type", JStr "integer")];
                 JDict [("type", JStr "number")]])
  /\ convert_openapi_to_json_schema Sample.set_order 5 [] []
       (JDict Sample.int_or_number) Sample.no_components
     = Ok (ORef [Key "oneOf"; Idx 0] (JDict [("type", JStr "integer")])).
Proof.
  split; [reflexivity|].
  apply (C9_oneOf_first_alternative Sample.set_order 4 [] []
           Sample.int_or_number Sample.no_components
           (JDict [("type", JStr "integer")])
           [JDict [("type", JStr "number")]]); reflexivity.
Defined.

(** The order of the branches: on a fragment that has both [allOf] and
    [oneOf] the result is the merge of the [allOf] list. *)
Example allOf_precedes_oneOf :
  dict_get "oneOf" Sample.all_and_one
  = Some (JList [JDict [("type", JStr "integer")];
                 JDict [("type", JStr "number")]])
  /\ (x <- convert_openapi_to_json_schema Sample.set_order 5 [] []
             (JDict Sample.all_and_one) Sample.no_components ;;
      Ok (render [] x))
     = Ok (JDict [("type", JStr "string")]).
Proof. split; reflexivity. Qed.

(** C3 at a fragment whose first [oneOf] alternative has a read-only
    property: the alternative is returned as it stands, with the
    read-only [id] among its properties and in its required list. *)
Lemma C3_oneOf_keeps_read_only :
  dict_get "readOnly"
    match dict_get "properties" Sample.entry_schema with
    | Some (JDict ps) => match dict_get "id" ps with
                         | Some (JDict i) => i
                         | _ => []
                         end
    | _ => []
    end = Some (JBool true)
  /\ (x <- convert_openapi_to_json_schema Sample.set_order 5 [] []
             (JDict Sample.one_of_entry) Sample.no_components ;;
      Ok (render [] x))
     = Ok (JDict
             [("type", JStr "object");
              ("properties",
               JDict [("id", JDict [("type", JStr "integer");
                                    ("readOnly", JBool true)]);
                      ("name", JDict [("type", JStr "string")]);
                      ("amount", JDict [("type", JStr "number")])]);
              ("required", JList [JStr "id"; JStr "name"])]).
Proof. split; reflexivity. Qed.

(** *** The merge of [allOf] *)

Lemma dict_update_snoc {V : Type} (d e : list (string * V)) (kv : string * V) :
  dict_update d (e ++ [kv]) = dict_set (fst kv) (snd kv) (dict_update d e).
Proof. unfold dict_update. now rewrite fold_left_app. Qed.

Lemma dict_get_update {V : Type} (k : string) (d e : list (string * V)) :
  dict_get k (dict_update d e)
  = match written k e with
    | Some v => Some v
    | None => dict_get k d
    end.
Proof.
  unfold written. induction e as [|[k' v'] e IH] using rev_ind.
  - reflexivity.
  - rewrite dict_update_snoc, rev_app_distr. simpl.
    destruct (String.eqb_spec k k') as [->|N].
    + apply dict_get_set_same.
    + rewrite dict_get_set_other by exact N. exact IH.
Qed.

Lemma dict_get_app_none {V : Type} (k : string) (a b : list (string * V)) :
  dict_get k a = None -> dict_get k (a ++ b) = dict_get k b.
Proof.
  induction a as [|[k' v] a IH]; simpl; [reflexivity|].
  destruct (String.eqb k k'); [discriminate | exact IH].
Qed.

Lemma dict_get_not_key {V : Type} (k : string) (d : list (string * V)) :
  ~ In k (dict_keys d) -> dict_get k d = None.
Proof.
  unfold dict_keys. induction d as [|[k' v] d IH]; simpl; [reflexivity|].
  intros N. destruct (String.eqb_spec k k') as [->|_]; [tauto|].
  apply IH. tauto.
Qed.

Lemma dict_get_app_some {V : Type} (k : string) (a b : list (string * V)) (v : V) :
  dict_get k a = Some v -> dict_get k (a ++ b) = Some v.
Proof.
  induction a as [|[k' v'] a IH]; simpl; [discriminate|].
  destruct (String.eqb k k'); [auto | exact IH].
Qed.

(** With unique keys the last binding of a key is its only one. *)
Lemma written_unique {V : Type} (k : string) (e : list (string * V)) :
  NoDup (dict_keys e) -> written k e = dict_get k e.
Proof.
  unfold written, dict_keys.
  induction e as [|[k' v] e IH]; simpl; intros N; [reflexivity|].
  inversion N as [|x l N1 N2]; subst.
  destruct (String.eqb_spec k k') as [->|D].
  - rewrite dict_get_app_none; [simpl; now rewrite String.eqb_refl|].
    apply dict_get_not_key. unfold dict_keys.
    rewrite map_rev. now rewrite <- in_rev.
  - destruct (dict_get k (rev e)) eqn:E.
    + rewrite (dict_get_app_some _ _ _ _ E). rewrite <- IH by exact N2.
      reflexivity.
    + rewrite dict_get_app_none by exact E. simpl.
      destruct (String.eqb_spec k k'); [contradiction|].
      rewrite <- IH by exact N2. reflexivity.
Qed.

Lemma merge_step_ok (st : store) (m m' : merged) (c : out) :
  merge_step st m c = Ok m' ->
  merged_properties m'
  = dict_update (merged_properties m) (sub_properties st c)
  /\ merged_required m' = merged_required m ++ sub_required st c
  /\ merged_type m'
     = match sub_type st c, merged_type m with
       | t :: _, None => Some t
       | t :: _, Some t0 => if out_truthy st t0 then Some t0 else Some t
       | [], t0 => t0
       end.
Proof.
  unfold merge_step, sub_properties, sub_required, sub_type.
  destruct (out_items st c) as [items|]; cbn [bind]; [|discriminate].
  destruct (dict_get "properties" items) as [p|].
  - destruct (out_items st p) as [e|]; cbn [bind]; [|discriminate].
    destruct (dict_get "required" items) as [r|].
    + destruct (out_list st r) as [l|]; cbn [bind]; [|discriminate].
      intros H; inversion H; subst; clear H; cbn.
      repeat split. destruct (dict_get "type" items); reflexivity.
    + cbn [bind]. intros H; inversion H; subst; clear H; cbn.
      rewrite app_nil_r.
      repeat split. destruct (dict_get "type" items); reflexivity.
  - cbn [bind]. destruct (dict_get "required" items) as [r|].
    + destruct (out_list st r) as [l|]; cbn [bind]; [|discriminate].
      intros H; inversion H; subst; clear H; cbn.
      repeat split. destruct (dict_get "type" items); reflexivity.
    + cbn [bind]. intros H; inversion H; subst; clear H; cbn.
      rewrite app_nil_r.
      repeat split. destruct (dict_get "type" items); reflexivity.
Qed.

Lemma first_type_cons (st : store) (c : out) (cs : list out) :
  first_type st (c :: cs)
  = match find (out_truthy st) (sub_type st c) with
    | Some t => t
    | None => first_type st cs
    end.
Proof.
  unfold first_type. simpl.
  induction (sub_type st c) as [|t ts IH]; simpl; [reflexivity|].
  destruct (out_truthy st t); [reflexivity | exact IH].
Qed.

Lemma sub_type_short (st : store) (c : out) :
  sub_type st c = [] \/ exists t, sub_type st c = [t].
Proof.
  unfold sub_type. destruct (out_items st c) as [items|]; [|auto].
  destruct (dict_get "type" items); eauto.
Qed.

Lemma allOf_loop_ok (conv : nat -> json -> res out) (st : store)
  (subs : list json) :
  forall (i : nat) (m m' : merged),
    allOf_loop conv st i subs m = Ok m' ->
    exists cs,
      convert_all conv i subs = Ok cs
      /\ (forall k,
             dict_get k (merged_properties m')
             = match last_binding k (map (sub_properties st) cs) with
               | Some v => Some v
               | None => dict_get k (merged_properties m)
               end)
      /\ merged_required m'
         = merged_required m ++ flat_map (sub_required st) cs
      /\ or_object st (merged_type m')
         = match merged_type m with
           | Some t0 => if out_truthy st t0 then t0 else first_type st cs
           | None => first_type st cs
           end.
Proof.
  induction subs as [|sub subs IH]; intros i m m' H; simpl in H.
  - inversion H; subst. exists []. simpl. rewrite app_nil_r.
    repeat split.
  - destruct (conv i sub) as [c|] eqn:C; cbn [bind] in H; [|discriminate].
    destruct (merge_step st m c) as [m1|] eqn:M; cbn [bind] in H;
      [|discriminate].
    destruct (IH _ _ _ H) as [cs [A [P [R T]]]].
    apply merge_step_ok in M as [MP [MR MT]].
    exists (c :: cs). simpl. rewrite C, A. cbn [bind].
    split; [reflexivity|]. split; [|split].
    + intros k. rewrite P, MP, dict_get_update.
      destruct (last_binding k (map (sub_properties st) cs)); reflexivity.
    + rewrite R, MR. now rewrite app_assoc.
    + rewrite T, MT, first_type_cons.
      destruct (sub_type_short st c) as [E|[t E]]; rewrite E; simpl.
      * reflexivity.
      * destruct (merged_type m) as [t0|].
        -- destruct (out_truthy st t0) eqn:T0; [now rewrite T0|].
           destruct (out_truthy st t); reflexivity.
        -- destruct (out_truthy st t); reflexivity.
Qed.

Lemma strings_of_ok (l : list json) (ss : list string) :
  strings_of l = Ok ss -> l = map JStr ss.
Proof.
  revert ss. induction l as [|j l IH]; simpl; intros ss H.
  - inversion H. reflexivity.
  - destruct j; try discriminate.
    destruct (strings_of l) as [ss'|]; cbn [bind] in H; [|discriminate].
    inversion H; subst. simpl. f_equal. now apply IH.
Qed.

Section SetOrder.
Variable set_order : list string -> list string.
Hypothesis set_order_spec :
  forall l, Permutation (nodup string_dec l) (set_order l).

Lemma set_order_NoDup (l : list string) : NoDup (set_order l).
Proof.
  eapply Permutation_NoDup; [apply set_order_spec | apply NoDup_nodup].
Qed.

Lemma set_order_In (l : list string) (x : string) :
  In x (set_order l) <-> In x l.
Proof.
  split; intros H.
  - apply (nodup_In string_dec).
    eapply Permutation_in; [apply Permutation_sym, set_order_spec | exact H].
  - eapply Permutation_in; [apply set_order_spec|]. now apply nodup_In.
Qed.

Lemma list_set_ok (l s : list json) :
  list_set set_order l = Ok s ->
  NoDup s /\ forall x, In x s <-> In x l.
Proof.
  unfold list_set.
  destruct (strings_of l) as [ss|] eqn:E; cbn [bind]; [|discriminate].
  intros H; inversion H; subst; clear H.
  apply strings_of_ok in E. subst l. split.
  - apply Finite.Injective_map_NoDup; [|apply set_order_NoDup].
    intros a b Hab; now inversion Hab.
  - intros x. rewrite !in_map_iff.
    split; intros [y [<- Hy]]; exists y; (split; [reflexivity|]);
      now apply set_order_In.
Qed.

Lemma allOf_result_ok (st : store) (m : merged) (r : out) :
  allOf_result set_order st m = Ok r ->
  exists rd,
    r = ODict rd
    /\ dict_get "type" rd = Some (or_object st (merged_type m))
    /\ (forall k, dict_get k (result_properties rd)
                  = dict_get k (merged_properties m))
    /\ NoDup (result_required rd)
    /\ (forall x, In x (result_required rd) <-> In x (merged_required m)).
Proof.
  unfold allOf_result. fold (or_object st (merged_type m)).
  set (ty := or_object st (merged_type m)).
  set (r2 := match merged_properties m with
             | [] => [("type", ty)]
             | _ :: _ => dict_set "properties" (ODict (merged_properties m))
                           [("type", ty)]
             end).
  assert (T : dict_get "type" r2 = Some ty)
    by (subst r2; destruct (merged_properties m); reflexivity).
  assert (P : result_properties r2 = merged_properties m)
    by (subst r2; destruct (merged_properties m); reflexivity).
  assert (Q : dict_get "required" r2 = None)
    by (subst r2; destruct (merged_properties m); reflexivity).
  replace (match merged_properties m with
           | [] => [("type", ty)]
           | p :: l => dict_set "properties" (ODict (p :: l)) [("type", ty)]
           end) with r2
    by (subst r2; destruct (merged_properties m); reflexivity).
  clearbody r2 ty.
  destruct (merged_required m) as [|x0 req] eqn:R.
  - intros H; inversion H; subst; clear H. exists r2.
    unfold result_required. rewrite Q, P.
    split; [reflexivity|]. split; [exact T|]. split; [reflexivity|].
    split; [constructor | tauto].
  - destruct (list_set set_order (x0 :: req)) as [s|] eqn:L; cbn [bind];
      [|discriminate].
    intros H; inversion H; subst; clear H.
    apply list_set_ok in L as [N I].
    exists (dict_set "required" (OVal (JList s)) r2).
    unfold result_required. rewrite dict_get_set_same.
    split; [reflexivity|].
    split; [now rewrite dict_get_set_other by discriminate|].
    split; [|split; [exact N | exact I]].
    intros k. unfold result_properties in *.
    rewrite dict_get_set_other by discriminate. now rewrite P.
Qed.

End SetOrder.

(** C4.  On a fragment with an [allOf] list (and no [$ref] that is
    resolved first), every sub-schema is resolved, in order, and the
    result merges them: a name has in the merged properties the value
    of the last sub-schema that gives it one (the union, a later
    sub-schema winning a collision); the merged required list has no
    duplicate and holds exactly the names required by some sub-schema;
    the merged type is the first non-empty type of a sub-schema, and
    ["object"] when there is none. *)
Theorem C4_allOf_merge (set_order : list string -> list string)
  (depth : nat) (st : store) (here : loc) (s : list (string * json))
  (components : json) (subs : list json) (r : out) :
  (forall l, Permutation (nodup string_dec l) (set_order l)) ->
  resolve_ref s components = Ok None ->
  dict_get "allOf" s = Some (JList subs) ->
  convert_openapi_to_json_schema set_order (S depth) st here (JDict s)
    components = Ok r ->
  exists cs rd,
    convert_all
      (fun i sub =>
         convert_openapi_to_json_schema set_order depth st
           (here ++ [Key "allOf"; Idx i]) sub components) 0 subs = Ok cs
    /\ r = ODict rd
    /\ (forall k, dict_get k (result_properties rd)
                  = last_binding k (map (sub_properties st) cs))
    /\ NoDup (result_required rd)
    /\ (forall x, In x (result_required rd)
                  <-> exists c, In c cs /\ In x (sub_required st c))
    /\ dict_get "type" rd = Some (first_type st cs).
Proof.
  intros HS R A. cbn [convert_openapi_to_json_schema].
  rewrite (truthy_dict _ (dict_get_nonempty _ _ _ A)). cbn [negb].
  rewrite R. cbn [bind]. rewrite A.
  destruct (allOf_loop _ st 0 subs (Merged [] [] None)) as [m|] eqn:L;
    cbn [bind]; [|discriminate].
  intros H.
  apply allOf_loop_ok in L as [cs [C [P [Q T]]]].
  apply (allOf_result_ok _ HS) in H as [rd [-> [Ty [Pr [N I]]]]].
  exists cs, rd. split; [exact C|]. split; [reflexivity|].
  split; [|split; [exact N|split]].
  - intros k. rewrite Pr, P. simpl.
    destruct (last_binding k (map (sub_properties st) cs)); reflexivity.
  - intros x. rewrite I, Q. simpl. rewrite in_flat_map. reflexivity.
  - rewrite Ty, T. reflexivity.
Qed.

Lemma C4_allOf_merge_witness :
  exists cs rd,
    convert_all
      (fun i sub =>
         convert_openapi_to_json_schema Sample.set_order 4 []
           ([] ++ [Key "allOf"; Idx i]) sub Sample.no_components) 0
      [JDict Sample.entry_schema;
       JDict [("properties",
               JDict [("name", JDict [("type", JStr "string");
                                      ("maxLength", JInt 40)]);
                      ("note", JDict [("type", JStr "string")])]);
              ("required", JList [JStr "name"; JStr "note"])]] = Ok cs
    /\ ODict [("type", OVal (JStr "object"));
              ("properties",
               ODict [("name", ODict [("type", OVal (JStr "string"));
                                      ("maxLength", OVal (JInt 40))]);
                      ("amount", ODict [("type", OVal (JStr "number"))]);
                      ("note", ODict [("type", OVal (JStr "string"))])]);
              ("required", OVal (JList [JStr "name"; JStr "note"]))]
       = ODict rd
    /\ (forall k, dict_get k (result_properties rd)
                  = last_binding k (map (sub_properties []) cs))
    /\ NoDup (result_required rd)
    /\ (forall x, In x (result_required rd)
                  <-> exists c, In c cs /\ In x (sub_required [] c))
    /\ dict_get "type" rd = Some (first_type [] cs).
Proof.
  apply (C4_allOf_merge Sample.set_order 4 [] [] Sample.entry_and_note
           Sample.no_components).
  - intros l. apply Permutation_refl.
  - reflexivity.
  - reflexivity.
  - vm_compute. reflexivity.
Defined.

(** ** The names of the catalog *)

Section CatalogNames.
Variable set_order : list string -> list string.

Lemma tool_of_operation_name (depth : nat) (components : json)
  (path method : string) (operation : json) (st st' : store) (t : Tool) :
  tool_of_operation set_order depth components path method operation st
  = Ok (t, st') ->
  tool_label t = listed_name (path, method, operation).
Proof.
  unfold tool_of_operation, listed_name, operationId, tool_label.
  destruct operation as [| | | | | |op]; try discriminate.
  destruct (match dict_get "parameters" op with
            | Some (JList params) => _
            | Some _ => _
            | None => _
            end) as [acc1|]; cbn [bind]; [|discriminate].
  destruct (match dict_get "requestBody" op with
            | Some req_body => _
            | None => _
            end) as [acc2|]; cbn [bind]; [|discriminate].
  destruct (match dict_get_default "description" _ op with
            | JStr d => _
            | _ => _
            end) as [d|]; cbn [bind]; [|discriminate].
  unfold dict_get_default at 1.
  destruct (dict_get "operationId" op) as [j|].
  - destruct j; cbn [bind]; try discriminate.
    intros H; inversion H; subst; reflexivity.
  - cbn [bind]. intros H; inversion H; subst; reflexivity.
Qed.

Lemma methods_loop_names (depth : nat) (components : json) (path : string)
  (item : list (string * json)) :
  forall (acc : list Tool * store) (tools : list Tool) (st' : store),
    methods_loop set_order depth components path item acc = Ok (tools, st') ->
    map tool_label tools
    = map tool_label (fst acc)
      ++ map listed_name (operations_of_item path item).
Proof.
  unfold operations_of_item.
  induction item as [|[method operation] item IH]; intros acc tools st' H;
    simpl in H.
  - inversion H; subst. simpl. now rewrite app_nil_r.
  - simpl.
    destruct (string_in (upper method) HTTP_METHODS); simpl in H.
    + destruct (tool_of_operation _ _ _ _ _ _ _) as [[t st1]|] eqn:T;
        cbn [bind] in H; [|discriminate].
      rewrite (IH _ _ _ H). simpl. rewrite map_app, <- app_assoc. simpl.
      now rewrite (tool_of_operation_name _ _ _ _ _ _ _ _ T).
    + exact (IH _ _ _ H).
Qed.

Lemma paths_loop_names (depth : nat) (components : json)
  (paths : list (string * json)) :
  forall (acc : list Tool * store) (tools : list Tool) (st' : store),
    paths_loop set_order depth components paths acc = Ok (tools, st') ->
    map tool_label tools
    = map tool_label (fst acc) ++ map listed_name (operations paths).
Proof.
  unfold operations.
  induction paths as [|[path path_item] paths IH]; intros acc tools st' H;
    simpl in H.
  - inversion H; subst. simpl. now rewrite app_nil_r.
  - destruct path_item as [| | | | | |item]; try discriminate.
    destruct (methods_loop _ _ _ _ _ _) as [[tools1 st1]|] eqn:M;
      cbn [bind] in H; [|discriminate].
    rewrite (IH _ _ _ H). simpl.
    rewrite (methods_loop_names _ _ _ _ _ _ _ M).
    now rewrite map_app, app_assoc.
Qed.

(** The catalog lists the operations of the document, one tool each, in
    the order of the document, under their [operationId] or the
    fallback name. *)
Lemma generate_tools_names (depth : nat) (sp paths : list (string * json))
  (st st' : store) (tools : list Tool) :
  dict_get_default "paths" (JDict []) sp = JDict paths ->
  generate_tools_from_openapi set_order depth (JDict sp) st
  = Ok (tools, st') ->
  map tool_label tools = map listed_name (operations paths).
Proof.
  unfold generate_tools_from_openapi. intros -> H.
  now rewrite (paths_loop_names _ _ _ _ _ _ H).
Qed.

End CatalogNames.

(** C10, as the code has it.  An operation without [operationId] is
    listed by the catalog under ["<method>_<path>"]; with the
    credentials configured, a dispatch under that name answers the
    tool-not-found error unless some operation carries that very name
    as its [operationId], the lookup comparing [operationId]s only. *)
Theorem C10_fallback_name_not_callable set_order send py_str json_dumps
  html_title (depth : nat) (env : environ) (sp paths : list (string * json))
  (st st' : store) (tools : list Tool) (path method : string)
  (op : list (string * json)) (arguments : list (string * json)) :
  dict_get_default "paths" (JDict []) sp = JDict paths ->
  In (path, method, JDict op) (operations paths) ->
  dict_get "operationId" op = None ->
  (generate_tools_from_openapi set_order depth (JDict sp) st
   = Ok (tools, st') ->
   In (method ++ "_" ++ path)%string (map name tools))
  /\ (configured env ->
      paths_ok paths = true ->
      no_operation_named (method ++ "_" ++ path)%string paths = true ->
      call_tool send py_str json_dumps html_title env (JDict sp)
        (method ++ "_" ++ path)%string arguments
      = Ok ([mkTextContent "text"
               (TOOL_NOT_FOUND (method ++ "_" ++ path)%string)], [])).
Proof.
  intros P I N. split.
  - intros G. apply (generate_tools_names _ _ _ _ _ _ _ P) in G.
    apply (in_map listed_name) in I. rewrite <- G in I.
    simpl in I. rewrite N in I.
    apply in_map_iff in I as [t [E T]]. unfold tool_label in E.
    inversion E as [E']. apply in_map_iff. exists t. split; auto.
  - intros C W O. now apply call_tool_not_found with (paths := paths).
Qed.

Lemma C10_fallback_name_not_callable_witness :
  In "post_/entries"
    (map name
       match generate_tools_from_openapi Sample.set_order 5 Sample.entries []
       with
       | Ok (tools, _) => tools
       | Raise _ => []
       end)
  /\ call_tool Sample.send_204 Sample.py_str Sample.json_dumps
       Sample.html_title Sample.credentials Sample.entries
       "post_/entries" [("body_name", JStr "rent")]
     = Ok ([mkTextContent "text" (TOOL_NOT_FOUND "post_/entries")], []).
Proof.
  destruct (generate_tools_from_openapi Sample.set_order 5 Sample.entries [])
    as [[tools st']|e] eqn:G; [|vm_compute in G; discriminate G].
  destruct (C10_fallback_name_not_callable Sample.set_order Sample.send_204
              Sample.py_str Sample.json_dumps Sample.html_title 5
              Sample.credentials Sample.entries_fields Sample.entries_paths
              [] st' tools "/entries" "post"
              [("summary", JStr "Create an entry");
               ("requestBody", Sample.entry_body)]
              [("body_name", JStr "rent")])
    as [L D].
  - reflexivity.
  - vm_compute. right; right; right; left. reflexivity.
  - reflexivity.
  - split.
    + exact (L G).
    + apply D.
      * split; [exists "user" | exists "pass"]; split;
          [reflexivity | discriminate | reflexivity | discriminate].
      * vm_compute; reflexivity.
      * vm_compute; reflexivity.
Defined.

(** C10, as stated, fails in two ways: without credentials the listed
    name is answered the missing-credentials error, and where another
    operation carries the listed name as its [operationId] the dispatch
    finds that operation and calls it. *)
Lemma C10_counterexample :
  (call_tool Sample.send_204 Sample.py_str Sample.json_dumps
     Sample.html_title Sample.no_credentials Sample.entries
     "post_/entries" []
   = Ok ([mkTextContent "text" MISSING_CREDENTIALS], []))
  /\ (x <- generate_tools_from_openapi Sample.set_order 5 Sample.clash [] ;;
      Ok (map name (fst x)))
     = Ok ["post_/entries"; "post_/entries"]
  /\ call_tool Sample.send_204 Sample.py_str Sample.json_dumps
       Sample.html_title Sample.credentials Sample.clash
       "post_/entries" []
     = Ok ([mkTextContent "text" (Sample.json_dumps false NO_CONTENT)],
           [Sample.other_request]).
Proof. repeat split; vm_compute; reflexivity. Qed.

(** ** What a build reads does not depend on the store *)

Lemma plain_items (st1 st2 : store) (o : out) :
  plain o -> out_items st1 o = out_items st2 o.
Proof. destruct o; simpl; tauto. Qed.

Lemma plain_list (st1 st2 : store) (o : out) :
  plain o -> out_list st1 o = out_list st2 o.
Proof. destruct o; simpl; tauto. Qed.

Lemma plain_truthy (st1 st2 : store) (o : out) :
  plain o -> out_truthy st1 o = out_truthy st2 o.
Proof. destruct o; simpl; tauto. Qed.

Lemma lift_items_get (k : string) (d : list (string * json)) :
  dict_get k (lift_items d)
  = match dict_get k d with Some v => Some (OVal v) | None => None end.
Proof.
  unfold lift_items. induction d as [|[k' v] d IH]; simpl; [reflexivity|].
  destruct (String.eqb k k'); [reflexivity | exact IH].
Qed.

Lemma read_key_not_description (k : string) :
  read_key k -> k <> "description".
Proof. intros [-> | [-> | ->]]; discriminate. Qed.

Lemma agree_refl_lift (d : list (string * json)) :
  agree (lift_items d) (lift_items d).
Proof.
  intros k _. split; [reflexivity|].
  intros v. rewrite lift_items_get.
  destruct (dict_get k d); intros H; inversion H; exact I.
Qed.

Lemma agree_lift (d1 d2 : list (string * json)) :
  (forall k, read_key k -> dict_get k d1 = dict_get k d2) ->
  agree (lift_items d1) (lift_items d2).
Proof.
  intros E k R. rewrite !lift_items_get, (E k R). split; [reflexivity|].
  intros v. destruct (dict_get k d2); intros H; inversion H; exact I.
Qed.

(** The object at a place is a dict whatever was written to it, or not
    one whatever was written to it, and the writes only touch its
    ["description"]. *)
Lemma deref_cases (st : store) (l : loc) (j : json) :
  (exists o o', j = JDict o /\ deref st l j = JDict o'
                /\ forall k, k <> "description" -> dict_get k o' = dict_get k o)
  \/ ((forall o, j <> JDict o) /\ deref st l j = j).
Proof.
  unfold deref. destruct j; try (right; split; [congruence|];
                                 destruct (store_get l st); reflexivity).
  left. exists d. destruct (store_get l st) as [v|].
  - exists (dict_set "description" v d). repeat split.
    intros k N. now apply dict_get_set_other.
  - exists d. repeat split.
Qed.

Lemma items_agree (st1 st2 : store) (c : out) :
  shaped c ->
  (exists e, out_items st1 c = Raise e /\ out_items st2 c = Raise e)
  \/ (exists i1 i2, out_items st1 c = Ok i1 /\ out_items st2 c = Ok i2
                    /\ agree i1 i2).
Proof.
  destruct c as [j|l j|rd]; simpl; intros S.
  - destruct j; try (left; eexists; split; reflexivity).
    right. exists (lift_items d), (lift_items d).
    split; [reflexivity|]. split; [reflexivity|]. apply agree_refl_lift.
  - destruct (deref_cases st1 l j) as [[o [o1 [-> [E1 G1]]]]|[N1 E1]].
    + destruct (deref_cases st2 l (JDict o))
        as [[o' [o2 [E [E2 G2]]]]|[N2 _]]; [|now destruct (N2 o)].
      inversion E; subst o'. rewrite E1, E2.
      right. exists (lift_items o1), (lift_items o2).
      split; [reflexivity|]. split; [reflexivity|]. apply agree_lift.
      intros k R. apply read_key_not_description in R.
      now rewrite G1, G2.
    + destruct (deref_cases st2 l j) as [[o [o2 [-> _]]]|[_ E2]];
        [now destruct (N1 o)|].
      rewrite E1, E2. left.
      destruct j; try (eexists; split; reflexivity). now destruct (N1 d).
  - right. exists rd, rd.
    split; [reflexivity|]. split; [reflexivity|].
    intros k R. split; [reflexivity|]. intros v. now apply S.
Qed.

Lemma merge_step_items (st : store) (m : merged) (c : out) :
  merge_step st m c = (items <- out_items st c ;; merge_items st m items).
Proof. reflexivity. Qed.

Lemma merge_items_store (st1 st2 : store) (m : merged)
  (i1 i2 : list (string * out)) :
  agree i1 i2 -> plain_opt (merged_type m) ->
  merge_items st1 m i1 = merge_items st2 m i2.
Proof.
  intros A P. unfold merge_items.
  destruct (A "properties") as [E1 P1]; [left; reflexivity|].
  destruct (A "required") as [E2 P2]; [right; left; reflexivity|].
  destruct (A "type") as [E3 P3]; [right; right; reflexivity|].
  rewrite <- E1, <- E2, <- E3.
  destruct (dict_get "properties" i1) as [p|];
    [rewrite (plain_items st1 st2 p) by auto|];
    (destruct (dict_get "required" i1) as [r|];
     [rewrite (plain_list st1 st2 r) by auto|]);
    (destruct (merged_type m) as [t0|];
     [rewrite (plain_truthy st1 st2 t0) by exact P|]); reflexivity.
Qed.

Lemma merge_step_store (st1 st2 : store) (m : merged) (c : out) :
  shaped c -> plain_opt (merged_type m) ->
  merge_step st1 m c = merge_step st2 m c.
Proof.
  intros S P. rewrite !merge_step_items.
  destruct (items_agree st1 st2 c S) as [[e [-> ->]]|[i1 [i2 [-> [-> A]]]]];
    [reflexivity|].
  cbn [bind]. now apply merge_items_store.
Qed.

Lemma merge_step_type_plain (st : store) (m m' : merged) (c : out) :
  shaped c -> plain_opt (merged_type m) ->
  merge_step st m c = Ok m' -> plain_opt (merged_type m').
Proof.
  intros S P. rewrite merge_step_items.
  destruct (items_agree st st c S) as [[e [-> _]]|[i1 [i2 [-> [_ A]]]]];
    [discriminate|].
  cbn [bind]. unfold merge_items.
  destruct (A "type") as [_ P3]; [right; right; reflexivity|].
  destruct (match dict_get "properties" i1 with
            | Some p => _
            | None => _
            end); cbn [bind]; [|discriminate].
  destruct (match dict_get "required" i1 with
            | Some r => _
            | None => _
            end); cbn [bind]; [|discriminate].
  intros H; inversion H; subst; clear H. simpl.
  destruct (dict_get "type" i1) as [t|]; [|exact P].
  destruct (merged_type m) as [t0|]; [|simpl; auto].
  destruct (out_truthy st t0); simpl; auto.
Qed.

Lemma allOf_loop_type_plain (conv : nat -> json -> res out) (st : store)
  (subs : list json) :
  (forall i sub c, conv i sub = Ok c -> shaped c) ->
  forall (i : nat) (m m' : merged),
    plain_opt (merged_type m) ->
    allOf_loop conv st i subs m = Ok m' -> plain_opt (merged_type m').
Proof.
  intros S. induction subs as [|sub subs IH]; intros i m m' P H; simpl in H.
  - inversion H; subst; exact P.
  - destruct (conv i sub) as [c|] eqn:C; cbn [bind] in H; [|discriminate].
    destruct (merge_step st m c) as [m1|] eqn:M; cbn [bind] in H;
      [|discriminate].
    apply (IH _ _ _ (merge_step_type_plain _ _ _ _ (S _ _ _ C) P M) H).
Qed.

Lemma allOf_loop_store (conv1 conv2 : nat -> json -> res out)
  (st1 st2 : store) (subs : list json) :
  (forall i sub, conv1 i sub = conv2 i sub) ->
  (forall i sub c, conv1 i sub = Ok c -> shaped c) ->
  forall (i : nat) (m : merged),
    plain_opt (merged_type m) ->
    allOf_loop conv1 st1 i subs m = allOf_loop conv2 st2 i subs m.
Proof.
  intros E S. induction subs as [|sub subs IH]; intros i m P; simpl.
  - reflexivity.
  - rewrite <- E. destruct (conv1 i sub) as [c|] eqn:C; cbn [bind];
      [|reflexivity].
    rewrite <- (merge_step_store st1 st2 m c (S _ _ _ C) P).
    destruct (merge_step st1 m c) as [m1|] eqn:M; cbn [bind]; [|reflexivity].
    apply IH. exact (merge_step_type_plain _ _ _ _ (S _ _ _ C) P M).
Qed.

Lemma allOf_result_store set_order (st1 st2 : store) (m : merged) :
  plain_opt (merged_type m) ->
  allOf_result set_order st1 m = allOf_result set_order st2 m.
Proof.
  intros P. unfold allOf_result.
  destruct (merged_type m) as [t|]; [|reflexivity].
  now rewrite (plain_truthy st1 st2 t P).
Qed.

Lemma read_key_cases (P : string -> Prop) :
  P "properties" -> P "required" -> P "type" -> forall k, read_key k -> P k.
Proof. intros A B C k [-> | [-> | ->]]; assumption. Qed.

Lemma allOf_result_shaped set_order (st : store) (m : merged) (r : out) :
  plain_opt (merged_type m) ->
  allOf_result set_order st m = Ok r -> shaped r.
Proof.
  intros P. unfold allOf_result.
  set (ty := match merged_type m with
             | Some t => if out_truthy st t then t else OVal (JStr "object")
             | None => OVal (JStr "object")
             end).
  assert (T : plain ty).
  { subst ty. destruct (merged_type m) as [t|]; [|exact I].
    destruct (out_truthy st t); [exact P | exact I]. }
  clearbody ty.
  destruct (merged_properties m) as [|p0 ps];
    (destruct (merged_required m) as [|x0 req];
     [intros H; inversion H; subst; clear H
     |destruct (list_set set_order (x0 :: req)) as [s|]; cbn [bind];
      [intros H; inversion H; subst; clear H | discriminate]]);
    simpl; intros k v R; revert v; pattern k; revert k R;
    apply read_key_cases; simpl; intros v H; inversion H; subst;
    solve [exact I | exact T].
Qed.

Lemma fold_copy_get (schema : list (string * json)) (keys : list string)
  (k : string) :
  ~ In k keys ->
  forall result : list (string * out),
    dict_get k
      (fold_left (fun acc key =>
                    match dict_get key schema with
                    | Some v => dict_set key (OVal v) acc
                    | None => acc
                    end) keys result)
    = dict_get k result.
Proof.
  induction keys as [|key keys IH]; intros N result; simpl; [reflexivity|].
  rewrite IH by (simpl in N; tauto).
  destruct (dict_get key schema); [|reflexivity].
  apply dict_get_set_other. simpl in N. intros ->. tauto.
Qed.

Lemma copy_keys_read (schema : list (string * json))
  (result : list (string * out)) (k : string) :
  read_key k -> dict_get k (copy_keys schema result) = dict_get k result.
Proof.
  intros R. unfold copy_keys. apply fold_copy_get.
  destruct R as [-> | [-> | ->]]; unfold copied_keys; simpl;
    intuition discriminate.
Qed.

Lemma properties_loop_ext (conv1 conv2 : string -> json -> res out)
  (props : list (string * json)) :
  (forall k p, conv1 k p = conv2 k p) ->
  forall acc, properties_loop conv1 props acc = properties_loop conv2 props acc.
Proof.
  intros E. induction props as [|[k p] props IH]; intros acc; simpl;
    [reflexivity|].
  destruct p; try reflexivity.
  destruct (truthy _); [apply IH|].
  rewrite E. destruct (conv2 k (JDict d)); cbn [bind]; [apply IH|reflexivity].
Qed.

Lemma shaped_set (k : string) (v : out) (r : list (string * out)) :
  shaped (ODict r) -> plain v -> shaped (ODict (dict_set k v r)).
Proof.
  simpl. intros S P k' v' R H.
  destruct (String.eqb_spec k' k) as [->|N].
  - rewrite dict_get_set_same in H. now inversion H; subst.
  - rewrite dict_get_set_other in H by exact N. eauto.
Qed.

Lemma shaped_nil : shaped (ODict []).
Proof. simpl. intros k v _ H. discriminate H. Qed.

Section ConvertStore.
Variable set_order : list string -> list string.

Lemma convert_shaped (depth : nat) :
  forall (st : store) (here : loc) (schema components : json) (r : out),
    convert_openapi_to_json_schema set_order depth st here schema components
    = Ok r ->
    shaped r.
Proof.
  induction depth as [|d IH]; intros st here schema components r;
    cbn [convert_openapi_to_json_schema]; [discriminate|].
  destruct (truthy schema); cbn [negb].
  - destruct schema as [| | | | | |s]; try discriminate.
    destruct (resolve_ref s components) as [[[n t]|]|]; cbn [bind];
      [apply IH| |discriminate].
    destruct (dict_get "allOf" s) as [a|].
    { destruct a as [| | | | |subs|]; try discriminate.
      destruct (allOf_loop _ st 0 subs (Merged [] [] None)) as [m|] eqn:L;
        cbn [bind]; [|discriminate].
      apply allOf_result_shaped.
      refine (allOf_loop_type_plain _ st subs _ 0 (Merged [] [] None) m I L).
      intros i sub c. apply IH. }
    destruct (dict_get "oneOf" s) as [o|].
    { destruct o as [| | | | |alts|]; try discriminate.
      destruct (index alts 0); cbn [bind]; [|discriminate].
      intros H; inversion H; exact I. }
    set (r0 := match dict_get "type" s with
               | Some t => [("type", OVal t)]
               | None => []
               end).
    assert (S0 : shaped (ODict r0)).
    { subst r0. destruct (dict_get "type" s);
        [apply (shaped_set "type" _ []); [apply shaped_nil | exact I]
        |apply shaped_nil]. }
    clearbody r0.
    destruct (dict_get "properties" s) as [p|].
    + destruct p as [| | | | | |props]; try discriminate.
      destruct (properties_loop _ props []) as [ps|]; cbn [bind];
        [|discriminate].
      assert (S1 : shaped (ODict (dict_set "properties" (ODict ps) r0)))
        by (apply shaped_set; [exact S0 | exact I]).
      destruct (dict_get "required" s) as [q|].
      * destruct q as [| | | | |required|]; try discriminate.
        destruct (required_filter required _) as [f|]; cbn [bind];
          [|discriminate].
        intros H; inversion H; subst; clear H. simpl.
        intros k v R. rewrite copy_keys_read by exact R.
        apply (shaped_set "required" (OVal (JList f)) _ S1 I k v R).
      * cbn [bind]. intros H; inversion H; subst; clear H. simpl.
        intros k v R. rewrite copy_keys_read by exact R. now apply S1.
    + cbn [bind]. destruct (dict_get "required" s) as [q|].
      * destruct q as [| | | | |required|]; try discriminate.
        destruct (required_filter required _) as [f|]; cbn [bind];
          [|discriminate].
        intros H; inversion H; subst; clear H. simpl.
        intros k v R. rewrite copy_keys_read by exact R.
        apply (shaped_set "required" (OVal (JList f)) _ S0 I k v R).
      * cbn [bind]. intros H; inversion H; subst; clear H. simpl.
        intros k v R. rewrite copy_keys_read by exact R. now apply S0.
  - intros H; inversion H; subst; clear H.
    apply (shaped_set "properties" (ODict []) [("type", OVal (JStr "object"))]).
    + apply (shaped_set "type" _ []); [apply shaped_nil | exact I].
    + exact I.
Qed.

(** A conversion gives the same result whatever has been written to
    the document so far. *)
Lemma convert_store (depth : nat) :
  forall (st1 st2 : store) (here : loc) (schema components : json),
    convert_openapi_to_json_schema set_order depth st1 here schema components
    = convert_openapi_to_json_schema set_order depth st2 here schema
        components.
Proof.
  induction depth as [|d IH]; intros st1 st2 here schema components;
    cbn [convert_openapi_to_json_schema]; [reflexivity|].
  destruct (negb (truthy schema)); [reflexivity|].
  destruct schema as [| | | | | |s]; try reflexivity.
  destruct (resolve_ref s components) as [[[n t]|]|]; cbn [bind];
    [apply IH| |reflexivity].
  destruct (dict_get "allOf" s) as [a|].
  { destruct a as [| | | | |subs|]; try reflexivity.
    rewrite (allOf_loop_store
               (fun i sub =>
                  convert_openapi_to_json_schema set_order d st1
                    (here ++ [Key "allOf"; Idx i]) sub components)
               (fun i sub =>
                  convert_openapi_to_json_schema set_order d st2
                    (here ++ [Key "allOf"; Idx i]) sub components)
               st1 st2 subs).
    - destruct (allOf_loop _ st2 0 subs (Merged [] [] None)) as [m|] eqn:L;
        cbn [bind]; [|reflexivity].
      apply allOf_result_store.
      refine (allOf_loop_type_plain _ st2 subs _ 0 (Merged [] [] None) m I L).
      intros i sub c. apply convert_shaped.
    - intros i sub. apply IH.
    - intros i sub c. apply convert_shaped.
    - exact I. }
  destruct (dict_get "oneOf" s); [reflexivity|].
  destruct (dict_get "properties" s) as [p|]; [|reflexivity].
  destruct p as [| | | | | |props]; try reflexivity.
  rewrite (properties_loop_ext
             (fun k p =>
                convert_openapi_to_json_schema set_order d st1
                  (here ++ [Key "properties"; Key k]) p components)
             (fun k p =>
                convert_openapi_to_json_schema set_order d st2
                  (here ++ [Key "properties"; Key k]) p components));
    [reflexivity|].
  intros k p. apply IH.
Qed.

End ConvertStore.

(** ** A build after earlier writes *)

Lemma extend_extend {A : Type} (st w : store) (x : res (A * store)) :
  extend st (extend w x) = extend (w ++ st) x.
Proof. destruct x as [[a w']|]; simpl; [now rewrite app_assoc|reflexivity]. Qed.

Lemma set_description_extend (w st : store) (c : out) (d : json) :
  set_description (w ++ st) c d = extend st (set_description w c d).
Proof.
  destruct c as [j|l j|r]; simpl; try reflexivity.
  destruct (deref_cases (w ++ st) l j) as [[o [o1 [-> [E1 _]]]]|[N1 E1]].
  - destruct (deref_cases w l (JDict o)) as [[o' [o2 [_ [E2 _]]]]|[N2 _]];
      [|now destruct (N2 o)].
    now rewrite E1, E2.
  - destruct (deref_cases w l j) as [[o [o2 [-> _]]]|[_ E2]];
      [now destruct (N1 o)|].
    rewrite E1, E2. destruct j; reflexivity.
Qed.

Section BuildStore.
Variable set_order : list string -> list string.

Lemma add_parameter_extend (depth : nat) (components : json) (op_loc : loc)
  (i : nat) (param : json) (schema : input_schema) (w st : store) :
  add_parameter set_order depth components op_loc i param (schema, w ++ st)
  = extend st
      (add_parameter set_order depth components op_loc i param (schema, w)).
Proof.
  unfold add_parameter.
  destruct param as [| | | | | |p]; try reflexivity.
  destruct (dict_get "name" p) as [param_name|]; [|reflexivity].
  rewrite (convert_store set_order depth (w ++ st) w).
  destruct (convert_openapi_to_json_schema set_order depth w _ _ components)
    as [converted|]; cbn [bind]; [|reflexivity].
  rewrite set_description_extend.
  destruct (set_description w converted _) as [[param_schema w']|];
    cbn [extend bind]; [|reflexivity].
  destruct (dict_get "in" p) as [where_|]; [|reflexivity].
  destruct (key_of param_name); reflexivity.
Qed.

Lemma parameters_loop_extend (depth : nat) (components : json) (op_loc : loc)
  (params : list json) (st : store) :
  forall (i : nat) (schema : input_schema) (w : store),
    parameters_loop set_order depth components op_loc i params
      (schema, w ++ st)
    = extend st
        (parameters_loop set_order depth components op_loc i params
           (schema, w)).
Proof.
  induction params as [|param params IH]; intros i schema w;
    cbn [parameters_loop]; [reflexivity|].
  rewrite add_parameter_extend.
  destruct (add_parameter set_order depth components op_loc i param
              (schema, w)) as [[schema1 w1]|]; cbn [extend bind];
    [apply IH | reflexivity].
Qed.

Lemma add_request_body_extend (depth : nat) (components : json)
  (op_loc : loc) (req_body : json) (schema : input_schema) (w st : store) :
  add_request_body set_order depth components op_loc req_body
    (schema, w ++ st)
  = extend st
      (add_request_body set_order depth components op_loc req_body
         (schema, w)).
Proof.
  unfold add_request_body.
  destruct req_body as [| | | | | |rb]; try reflexivity.
  destruct (dict_get_default "content" (JDict []) rb)
    as [| | | | | |content]; try reflexivity.
  destruct (select_body content CONTENT_TYPES) as [[[ct body_schema]|]|];
    cbn [bind]; try reflexivity.
  destruct (negb (truthy body_schema)); [reflexivity|].
  rewrite (convert_store set_order depth (w ++ st) w).
  destruct (convert_openapi_to_json_schema set_order depth w _ body_schema
              components) as [converted|] eqn:C; cbn [bind]; [|reflexivity].
  apply convert_shaped in C.
  destruct (items_agree (w ++ st) w converted C)
    as [[e [-> ->]]|[i1 [i2 [-> [-> A]]]]]; [reflexivity|].
  cbn [bind].
  destruct (A "properties") as [E1 P1]; [left; reflexivity|].
  destruct (A "required") as [E2 P2]; [right; left; reflexivity|].
  rewrite <- E1, <- E2.
  destruct (dict_get "properties" i1) as [ps|]; [|reflexivity].
  rewrite (plain_items (w ++ st) w ps) by auto.
  destruct (out_items w ps) as [props|]; cbn [bind]; [|reflexivity].
  destruct (dict_get "required" i1) as [r|]; cbn [bind]; [|reflexivity].
  rewrite (plain_list (w ++ st) w r) by auto.
  destruct (out_list w r) as [fields|]; cbn [bind]; [|reflexivity].
  destruct (body_required fields (in_required schema)); reflexivity.
Qed.

Lemma tool_tail_extend (depth : nat) (components : json)
  (path method : string) (op : list (string * json))
  (schema1 : input_schema) (w1 st : store) :
  (acc2 <- match dict_get "requestBody" op with
           | Some req_body =>
               add_request_body set_order depth components
                 [Key "paths"; Key path; Key method] req_body
                 (schema1, w1 ++ st)
           | None => Ok (schema1, w1 ++ st)
           end ;;
   d <- match dict_get_default "description"
                (dict_get_default "summary"
                   (JStr (upper method ++ " " ++ path)%string) op) op with
        | JStr d => Ok (take 1024 d)
        | _ => Raise TypeError
        end ;;
   n <- match dict_get_default "operationId"
                (JStr (method ++ "_" ++ path)%string) op with
        | JStr n => Ok n
        | _ => Raise ValidationError
        end ;;
   Ok (mkTool n d (input_schema_out (fst acc2)), snd acc2))
  = extend st
      (acc2 <- match dict_get "requestBody" op with
               | Some req_body =>
                   add_request_body set_order depth components
                     [Key "paths"; Key path; Key method] req_body
                     (schema1, w1)
               | None => Ok (schema1, w1)
               end ;;
       d <- match dict_get_default "description"
                    (dict_get_default "summary"
                       (JStr (upper method ++ " " ++ path)%string) op) op with
            | JStr d => Ok (take 1024 d)
            | _ => Raise TypeError
            end ;;
       n <- match dict_get_default "operationId"
                    (JStr (method ++ "_" ++ path)%string) op with
            | JStr n => Ok n
            | _ => Raise ValidationError
            end ;;
       Ok (mkTool n d (input_schema_out (fst acc2)), snd acc2)).
Proof.
  destruct (dict_get "requestBody" op) as [rb|].
  - rewrite add_request_body_extend.
    destruct (add_request_body set_order depth components _ rb (schema1, w1))
      as [[schema2 w2]|]; cbn [extend bind]; [|reflexivity].
    destruct (dict_get_default "description" _ op); try reflexivity.
    cbn [bind].
    destruct (dict_get_default "operationId" _ op); reflexivity.
  - cbn [bind].
    destruct (dict_get_default "description" _ op); try reflexivity.
    cbn [bind].
    destruct (dict_get_default "operationId" _ op); reflexivity.
Qed.

Lemma tool_of_operation_extend (depth : nat) (components : json)
  (path method : string) (operation : json) (w st : store) :
  tool_of_operation set_order depth components path method operation
    (w ++ st)
  = extend st
      (tool_of_operation set_order depth components path method operation w).
Proof.
  unfold tool_of_operation.
  destruct operation as [| | | | | |op]; try reflexivity.
  cbv zeta.
  destruct (dict_get "parameters" op) as [ps|].
  - destruct ps as [| | | | |params|]; try reflexivity.
    rewrite parameters_loop_extend.
    destruct (parameters_loop set_order depth components _ 0 params
                (InputSchema [] [], w)) as [[schema1 w1]|];
      cbn [extend bind]; [|reflexivity].
    apply tool_tail_extend.
  - cbn [bind]. apply (tool_tail_extend _ _ _ _ _ (InputSchema [] []) w st).
Qed.

Lemma methods_loop_extend (depth : nat) (components : json) (path : string)
  (item : list (string * json)) (st : store) :
  forall (tools : list Tool) (w : store),
    methods_loop set_order depth components path item (tools, w ++ st)
    = extend st
        (methods_loop set_order depth components path item (tools, w)).
Proof.
  induction item as [|[method operation] item IH]; intros tools w;
    cbn [methods_loop fst snd]; [reflexivity|].
  destruct (negb (string_in (upper method) HTTP_METHODS)); [apply IH|].
  rewrite tool_of_operation_extend.
  destruct (tool_of_operation set_order depth components path method
              operation w) as [[t w1]|]; cbn [extend bind];
    [apply IH | reflexivity].
Qed.

Lemma paths_loop_extend (depth : nat) (components : json)
  (paths : list (string * json)) (st : store) :
  forall (tools : list Tool) (w : store),
    paths_loop set_order depth components paths (tools, w ++ st)
    = extend st (paths_loop set_order depth components paths (tools, w)).
Proof.
  induction paths as [|[path path_item] paths IH]; intros tools w;
    cbn [paths_loop]; [reflexivity|].
  destruct path_item as [| | | | | |item]; try reflexivity.
  rewrite methods_loop_extend.
  destruct (methods_loop set_order depth components path item (tools, w))
    as [[tools1 w1]|]; cbn [extend bind]; [apply IH | reflexivity].
Qed.

(** A build run after the writes [st] lists the tools of a build run on
    the document as loaded and adds the same writes. *)
Lemma generate_tools_extend (depth : nat) (spec : json) (st : store) :
  generate_tools_from_openapi set_order depth spec st
  = extend st (generate_tools_from_openapi set_order depth spec []).
Proof.
  unfold generate_tools_from_openapi.
  destruct spec as [| | | | | |sp]; try reflexivity.
  destruct (dict_get_default "paths" (JDict []) sp)
    as [| | | | | |paths]; try reflexivity.
  apply (paths_loop_extend depth _ paths st [] []).
Qed.

End BuildStore.

(** ** Two builds in a row *)

Lemma store_get_app (l : loc) (a b : store) :
  store_get l (a ++ b)
  = match store_get l a with
    | Some d => Some d
    | None => store_get l b
    end.
Proof.
  induction a as [|[l' d] a IH]; simpl; [reflexivity|].
  destruct (loc_eqb l l'); [reflexivity | exact IH].
Qed.

Lemma store_get_twice (l : loc) (w st : store) :
  store_get l (w ++ w ++ st) = store_get l (w ++ st).
Proof.
  rewrite (store_get_app l w (w ++ st)), (store_get_app l w st).
  destruct (store_get l w); reflexivity.
Qed.

Lemma render_ext (st1 st2 : store) :
  (forall l, store_get l st1 = store_get l st2) ->
  forall o, render st1 o = render st2 o.
Proof.
  intros E. fix IH 1. intros [j|l j|d]; simpl.
  - reflexivity.
  - unfold deref. now rewrite E.
  - f_equal. induction d as [|[k v] d IHd]; [reflexivity|].
    f_equal; [f_equal; apply IH | exact IHd].
Qed.

Lemma listed_name_id (pmo : string * string * json) (j : json) :
  operationId (snd pmo) = Some j -> listed_name pmo = j.
Proof. destruct pmo as [[p m] o]. simpl. now intros ->. Qed.

Lemma listed_names_ids (ops : list (string * string * json)) :
  (forall pmo, In pmo ops -> operationId (snd pmo) <> None) ->
  map Some (map listed_name ops)
  = map (fun pmo => operationId (snd pmo)) ops.
Proof.
  induction ops as [|pmo ops IH]; intros H; simpl; [reflexivity|].
  rewrite IH by (intros x Hx; apply H; now right). f_equal.
  destruct (operationId (snd pmo)) as [j|] eqn:E.
  - now rewrite (listed_name_id _ _ E).
  - exfalso. apply (H pmo); [now left | exact E].
Qed.

(** A document loaded as a tree, no mapping of which stands at two
    places: when each of its operations carries an [operationId] of its
    own, a build of the catalog that returns lists as many tools as
    there are operations and exactly one under each [operationId]; and
    the next build of the same document returns too, its tools reading
    the same as those of the first: same names, descriptions and input
    schemas, in the same order.  A document with a shared mapping is
    another matter: see [Shared] and the builds of [Sample.any_heap]. *)
Theorem tree_catalog_unique_and_repeatable set_order (depth : nat)
  (sp paths : list (string * json)) (st st1 : store) (tools : list Tool) :
  dict_get_default "paths" (JDict []) sp = JDict paths ->
  (forall pmo, In pmo (operations paths) -> operationId (snd pmo) <> None) ->
  NoDup (map (fun pmo => operationId (snd pmo)) (operations paths)) ->
  generate_tools_from_openapi set_order depth (JDict sp) st
  = Ok (tools, st1) ->
  length tools = length (operations paths)
  /\ (forall pmo, In pmo (operations paths) ->
        exists id, operationId (snd pmo) = Some (JStr id)
                   /\ count_occ string_dec (map name tools) id = 1)
  /\ exists tools2 st2,
       generate_tools_from_openapi set_order depth (JDict sp) st1
       = Ok (tools2, st2)
       /\ map (listed st2) tools2 = map (listed st1) tools.
Proof.
  intros P A U G.
  pose proof (generate_tools_names _ _ _ _ _ _ _ P G) as N.
  split; [|split].
  - apply (f_equal (@length json)) in N. now rewrite !length_map in N.
  - assert (D : NoDup (map name tools)).
    { apply (NoDup_map_inv JStr). rewrite map_map.
      change (NoDup (map tool_label tools)). rewrite N.
      apply (NoDup_map_inv Some). now rewrite listed_names_ids. }
    intros pmo I.
    destruct (operationId (snd pmo)) as [j|] eqn:E;
      [|now destruct (A pmo I)].
    apply (in_map listed_name) in I. rewrite <- N in I.
    rewrite (listed_name_id _ _ E) in I.
    apply in_map_iff in I as [t [Et It]]. unfold tool_label in Et.
    exists (name t). split; [now rewrite <- Et|].
    apply NoDup_count_occ'; [exact D | now apply in_map].
  - rewrite generate_tools_extend in G.
    destruct (generate_tools_from_openapi set_order depth (JDict sp) [])
      as [[tools0 w]|] eqn:G0; [|discriminate].
    simpl in G. inversion G; subst; clear G.
    exists tools, (w ++ w ++ st). split.
    + rewrite generate_tools_extend, G0. reflexivity.
    + apply map_ext. intros t. unfold listed. f_equal.
      apply render_ext. intros l. apply store_get_twice.
Qed.

Lemma tree_catalog_unique_and_repeatable_witness :
  exists tools st1,
    generate_tools_from_openapi Sample.set_order 5 Sample.shared []
    = Ok (tools, st1)
    /\ length tools = 2
    /\ (exists id, operationId (JDict [("operationId", JStr "a_list");
                                       ("parameters",
                                        JList [Sample.shared_parameter "first"])])
                   = Some (JStr id)
                   /\ count_occ string_dec (map name tools) id = 1)
    /\ exists tools2 st2,
         generate_tools_from_openapi Sample.set_order 5 Sample.shared st1
         = Ok (tools2, st2)
         /\ map (listed st2) tools2 = map (listed st1) tools.
Proof.
  destruct (generate_tools_from_openapi Sample.set_order 5 Sample.shared [])
    as [[tools st1]|e] eqn:G; [|vm_compute in G; discriminate G].
  exists tools, st1. split; [reflexivity|].
  destruct (tree_catalog_unique_and_repeatable Sample.set_order 5
              Sample.shared_fields Sample.shared_paths [] st1 tools)
    as [L [O R]].
  - reflexivity.
  - intros pmo H. vm_compute in H.
    destruct H as [<-|[<-|[]]]; discriminate.
  - vm_compute. repeat constructor; simpl; intuition discriminate.
  - exact G.
  - split; [exact L|]. split; [|exact R].
    apply (O ("/a", "get",
              JDict [("operationId", JStr "a_list");
                     ("parameters", JList [Sample.shared_parameter "first"])])).
    left. reflexivity.
Defined.

(** The two parameters of [Sample.shared] store their descriptions into
    one object: once the build is over both tools show the second. *)
Example shared_alternative_reads_last :
  (x <- generate_tools_from_openapi Sample.set_order 5 Sample.shared [] ;;
   Ok (map (fun t => snd (listed (snd x) t)) (fst x)))
  = Ok [JDict [("type", JStr "object");
               ("properties",
                JDict [("query_q",
                        JDict [("type", JStr "integer");
                               ("description", JStr "second")])]);
               ("required", JList [])];
        JDict [("type", JStr "object");
               ("properties",
                JDict [("query_q",
                        JDict [("type", JStr "integer");
                               ("description", JStr "second")])]);
               ("required", JList [])]].
Proof. vm_compute. reflexivity. Qed.

(** ** Two builds of a document with a shared mapping *)

(** On the documents of the samples, loaded without aliases, the build
    through the heap lists what the build on the tree lists. *)
Example loaded_entries_same_catalog :
  let '(root, _, h) := Shared.load Sample.entries 0 [] in
  exists l,
    l <> []
    /\ (x <- Shared.generate_tools_from_openapi Sample.set_order 5 root h ;;
        Ok (map (Shared.listed 20 (snd x)) (fst x))) = Ok l
    /\ (x <- generate_tools_from_openapi Sample.set_order 5 Sample.entries [] ;;
        Ok (map (listed (snd x)) (fst x))) = Ok l.
Proof.
  vm_compute. eexists. split; [|split; reflexivity]. discriminate.
Qed.

Example loaded_shared_same_catalog :
  let '(root, _, h) := Shared.load Sample.shared 0 [] in
  exists l,
    l <> []
    /\ (x <- Shared.generate_tools_from_openapi Sample.set_order 5 root h ;;
        Ok (map (Shared.listed 20 (snd x)) (fst x))) = Ok l
    /\ (x <- generate_tools_from_openapi Sample.set_order 5 Sample.shared [] ;;
        Ok (map (listed (snd x)) (fst x))) = Ok l.
Proof.
  vm_compute. eexists. split; [|split; reflexivity]. discriminate.
Qed.

(** A write of line 145 that adds a key to the path item being gone
    through ends the build with [RuntimeError]. *)
Example looping_build_raises :
  Shared.generate_tools_from_openapi Sample.set_order 5 (Shared.NObj 0)
    Sample.looping_heap = Raise RuntimeError.
Proof. vm_compute. reflexivity. Qed.

(** C5, refuted where the document holds one mapping at several places:
    in [Sample.any_heap] every operation has an [operationId] of its
    own, the first build lists the parameter [p] with the schema of an
    empty fragment and stores the description of [q] into the shared
    mapping, and the second build, from the same document, lists [p]
    with neither ["type"] nor ["properties"]. *)
Theorem C5_shared_mapping_builds_differ :
  exists tools1 h1 tools2 h2,
    Shared.generate_tools_from_openapi Sample.set_order 5 Sample.any_root
      Sample.any_heap = Ok (tools1, h1)
    /\ Shared.generate_tools_from_openapi Sample.set_order 5 Sample.any_root
         h1 = Ok (tools2, h2)
    /\ map (Shared.listed 5 h1) tools1
       = [("things_list", "GET /things",
           JDict [("type", JStr "object");
                  ("properties",
                   JDict [("query_p",
                           JDict [("type", JStr "object");
                                  ("properties", JDict []);
                                  ("description", JStr "first")]);
                          ("query_q",
                           JDict [("description", JStr "second")])]);
                  ("required", JList [])])]
    /\ map (Shared.listed 5 h2) tools2
       = [("things_list", "GET /things",
           JDict [("type", JStr "object");
                  ("properties",
                   JDict [("query_p",
                           JDict [("description", JStr "first")]);
                          ("query_q",
                           JDict [("description", JStr "second")])]);
                  ("required", JList [])])].
Proof.
  do 4 eexists. split; [vm_compute; reflexivity|].
  split; [vm_compute; reflexivity|].
  split; vm_compute; reflexivity.
Qed.

(** ** Read-only properties in the branch that copies properties *)

Lemma properties_loop_skips (conv : string -> json -> res out) (p : string)
  (props : list (string * json)) :
  (forall q, In (p, q) props ->
             exists d, q = JDict d
                       /\ truthy (dict_get_default "readOnly" (JBool false) d)
                          = true) ->
  forall acc ps,
    dict_get p acc = None ->
    properties_loop conv props acc = Ok ps ->
    dict_get p ps = None.
Proof.
  induction props as [|[k q] props IH]; intros R acc ps A H; simpl in H.
  - now inversion H; subst.
  - assert (R' : forall q, In (p, q) props ->
                           exists d, q = JDict d
                                     /\ truthy (dict_get_default "readOnly"
                                                  (JBool false) d) = true)
      by (intros q' Hq; apply R; now right).
    destruct q as [| | | | | |d]; try discriminate.
    destruct (truthy (dict_get_default "readOnly" (JBool false) d)) eqn:T.
    + exact (IH R' _ _ A H).
    + destruct (conv k (JDict d)) as [c|]; cbn [bind] in H; [|discriminate].
      apply (IH R' _ _) in H; [exact H|].
      rewrite dict_get_set_other; [exact A|].
      intros ->. destruct (R (JDict d)) as [d' [E T']]; [now left|].
      inversion E; subst. congruence.
Qed.

Lemma required_filter_kept (required : list json)
  (properties : list (string * out)) :
  forall f k,
    required_filter required properties = Ok f ->
    In (JStr k) f -> dict_mem k properties = true.
Proof.
  induction required as [|r required IH]; intros f k H I; simpl in H.
  - inversion H; subst. destruct I.
  - destruct (match r with
              | JStr k0 => Ok (dict_mem k0 properties)
              | JList _ | JDict _ => Raise TypeError
              | _ => Ok false
              end) as [keep|] eqn:K; cbn [bind] in H; [|discriminate].
    destruct (required_filter required properties) as [rest|];
      cbn [bind] in H; [|discriminate].
    inversion H; subst; clear H.
    destruct keep.
    + destruct I as [->|I]; [now inversion K | eauto].
    + eauto.
Qed.

(** Where the resolution copies the properties of the fragment itself
    (no [$ref] that resolves, no [allOf], no [oneOf]), a property marked
    read-only is in neither the properties nor the required list of the
    result. *)
Lemma read_only_dropped set_order (depth : nat) (st : store) (here : loc)
  (s props : list (string * json)) (components : json) (p : string)
  (r : out) :
  resolve_ref s components = Ok None ->
  dict_get "allOf" s = None ->
  dict_get "oneOf" s = None ->
  dict_get "properties" s = Some (JDict props) ->
  (forall q, In (p, q) props ->
             exists d, q = JDict d
                       /\ truthy (dict_get_default "readOnly" (JBool false) d)
                          = true) ->
  convert_openapi_to_json_schema set_order (S depth) st here (JDict s)
    components = Ok r ->
  exists rd, r = ODict rd
             /\ dict_get p (result_properties rd) = None
             /\ ~ In (JStr p) (result_required rd).
Proof.
  intros R A O P RO. cbn [convert_openapi_to_json_schema].
  rewrite (truthy_dict _ (dict_get_nonempty _ _ _ P)). cbn [negb].
  rewrite R. cbn [bind]. rewrite A, O, P.
  destruct (properties_loop _ props []) as [ps|] eqn:L; cbn [bind];
    [|discriminate].
  apply (properties_loop_skips _ p props RO [] ps eq_refl) in L.
  set (r0 := match dict_get "type" s with
             | Some t => [("type", OVal t)]
             | None => []
             end).
  assert (G1 : dict_get "properties" (dict_set "properties" (ODict ps) r0)
               = Some (ODict ps)) by apply dict_get_set_same.
  rewrite G1.
  destruct (dict_get "required" s) as [q|].
  - destruct q as [| | | | |required|]; try discriminate.
    destruct (required_filter required ps) as [f|] eqn:F; cbn [bind];
      [|discriminate].
    intros H; inversion H; subst; clear H. eexists. split; [reflexivity|].
    unfold result_properties, result_required.
    rewrite !copy_keys_read by (unfold read_key; auto).
    rewrite dict_get_set_other by discriminate.
    rewrite G1, dict_get_set_same. split; [exact L|].
    intros I. apply (required_filter_kept _ _ _ _ F) in I.
    unfold dict_mem in I. now rewrite L in I.
  - cbn [bind]. intros H; inversion H; subst; clear H.
    eexists. split; [reflexivity|].
    unfold result_properties, result_required.
    rewrite !copy_keys_read by (unfold read_key; auto).
    rewrite G1. split; [exact L|].
    assert (Q : dict_get "required" (dict_set "properties" (ODict ps) r0)
                = None).
    { rewrite dict_get_set_other by discriminate.
      subst r0. destruct (dict_get "type" s); reflexivity. }
    rewrite Q. intros [].
Qed.

(** * Further properties of the dispatcher *)

Lemma build_request_parts (method full_url auth : string)
  (query_params body_data : list (string * json)) (request : Request) :
  build_request method full_url auth query_params body_data = Some request ->
  req_method request = method
  /\ req_url request = full_url
  /\ req_params request = query_params
  /\ header "Authorization" request = Some ("Basic " ++ auth)%string
  /\ header "Accept" request = Some "application/json"
  /\ string_in method HTTP_METHODS = true.
Proof.
  unfold build_request, header.
  destruct (String.eqb_spec method "GET") as [->|_];
    [intros H; inversion H; subst; simpl; intuition|].
  destruct (String.eqb_spec method "POST") as [->|_];
    [intros H; inversion H; subst; destruct body_data; simpl; intuition|].
  destruct (String.eqb_spec method "PUT") as [->|_];
    [intros H; inversion H; subst; destruct body_data; simpl; intuition|].
  destruct (String.eqb_spec method "PATCH") as [->|_];
    [intros H; inversion H; subst; destruct body_data; simpl; intuition|].
  destruct (String.eqb_spec method "DELETE") as [->|_];
    [intros H; inversion H; subst; simpl; intuition|].
  discriminate.
Qed.

Lemma build_request_some (method full_url auth : string)
  (query_params body_data : list (string * json)) :
  string_in method HTTP_METHODS = true ->
  exists request,
    build_request method full_url auth query_params body_data = Some request.
Proof.
  unfold string_in, HTTP_METHODS, build_request. simpl.
  destruct (String.eqb method "GET"); [eauto|].
  destruct (String.eqb method "POST"); [eauto|].
  destruct (String.eqb method "PUT"); [eauto|].
  destruct (String.eqb method "PATCH"); [eauto|].
  destruct (String.eqb method "DELETE"); [eauto|discriminate].
Qed.

Lemma call_tool_returns send py_str json_dumps html_title
  (env : environ) (openapi_spec : json) (tool : string)
  (arguments : list (string * json))
  (content : list TextContent) (trace : list Request) :
  call_tool send py_str json_dumps html_title env openapi_spec tool arguments
  = Ok (content, trace) ->
  (exists t, content = [mkTextContent "text" t])
  /\ (length trace <= 1)%nat.
Proof.
  unfold call_tool.
  destruct (String.eqb (get_auth_header env) "");
    [intros H; inversion H; subst; split; [eauto | simpl; lia]|].
  destruct openapi_spec as [| | | | | |sp]; try discriminate.
  destruct (dict_get_default "paths" (JDict []) sp)
    as [| | | | | |paths]; try discriminate.
  destruct (find_operation tool paths None) as [[[[[|c p] m] op]|]|];
    cbn [bind]; try discriminate;
    try (intros H; inversion H; subst; split; [eauto | simpl; lia]).
  destruct (split_arguments arguments) as [[pp qp] bd].
  destruct (build_request m _ (get_auth_header env) qp bd) as [rq|];
    [|intros H; inversion H; subst; split; [eauto | simpl; lia]].
  destruct (send rq) as [r|]; [destruct (is_success _)|];
    intros H; inversion H; subst; split; eauto.
Qed.

(** X1.  A dispatch that returns gives back one text item and has
    called the network at most once: there is no retry and no second
    request, whatever the client answered. *)
Theorem call_tool_single_call send py_str json_dumps html_title
  (env : environ) (openapi_spec : json) (tool : string)
  (arguments : list (string * json))
  (content : list TextContent) (trace : list Request) :
  call_tool send py_str json_dumps html_title env openapi_spec tool arguments
  = Ok (content, trace) ->
  (exists t, content = [mkTextContent "text" t])
  /\ (length trace <= 1)%nat.
Proof. apply call_tool_returns. Qed.

Lemma call_tool_single_call_witness :
  (exists t,
      [mkTextContent "text" (Sample.json_dumps false NO_CONTENT)]
      = [mkTextContent "text" t])
  /\ (length [Sample.destroy_request] <= 1)%nat.
Proof.
  apply (call_tool_single_call Sample.send_204 Sample.py_str
           Sample.json_dumps Sample.html_title Sample.credentials
           Sample.entries "entries_destroy" [("path_id", JInt 42)]).
  vm_compute. reflexivity.
Defined.

(** X2.  Every call a dispatch makes goes to the base URL followed by
    the path of the operation found, with the method of that operation
    (one of the five), the query bucket as its parameters, and the two
    headers [Authorization: Basic <credentials>] and
    [Accept: application/json]. *)
Theorem call_tool_request_shape send py_str json_dumps html_title
  (env : environ) (openapi_spec : json) (tool : string)
  (arguments : list (string * json))
  (content : list TextContent) (request : Request) :
  call_tool send py_str json_dumps html_title env openapi_spec tool arguments
  = Ok (content, [request]) ->
  string_in (req_method request) HTTP_METHODS = true
  /\ startswith API_BASE_URL (req_url request) = true
  /\ req_params request = snd (fst (split_arguments arguments))
  /\ header "Authorization" request
     = Some ("Basic " ++ get_auth_header env)%string
  /\ header "Accept" request = Some "application/json".
Proof.
  intros H.
  apply call_tool_request in H as [sp [paths [p [m [op [_ [_ [_ [_ B]]]]]]]]].
  apply build_request_parts in B as [-> [-> [-> [A [C M]]]]].
  repeat split; auto. apply startswith_app.
Qed.

Lemma call_tool_request_shape_witness :
  string_in (req_method Sample.update_request) HTTP_METHODS = true
  /\ startswith API_BASE_URL (req_url Sample.update_request) = true
  /\ req_params Sample.update_request
     = snd (fst (split_arguments
                   [("path_id", JInt 42); ("body_name", JStr "rent")]))
  /\ header "Authorization" Sample.update_request
     = Some ("Basic " ++ get_auth_header Sample.credentials)%string
  /\ header "Accept" Sample.update_request = Some "application/json".
Proof.
  apply (call_tool_request_shape Sample.send_204 Sample.py_str
           Sample.json_dumps Sample.html_title Sample.credentials
           Sample.entries "entries_update"
           [("path_id", JInt 42); ("body_name", JStr "rent")]
           [mkTextContent "text" (Sample.json_dumps false NO_CONTENT)]).
  vm_compute. reflexivity.
Defined.

(** ** The lookup, both ways *)

Lemma find_in_item_spec (tool path : string) (item : list (string * json)) :
  forallb (fun pmo => is_dict (snd pmo)) (operations_of_item path item) = true ->
  (existsb (id_is tool) (operations_of_item path item) = false
   /\ find_in_item tool path item = Ok None)
  \/ (existsb (id_is tool) (operations_of_item path item) = true
      /\ exists m op,
           find_in_item tool path item = Ok (Some (path, m, op))
           /\ string_in m HTTP_METHODS = true).
Proof.
  unfold operations_of_item.
  induction item as [|[m op] item IH]; simpl; intros D; [now left|].
  destruct (string_in (upper m) HTTP_METHODS) eqn:M; simpl in *; [|auto].
  apply andb_prop in D as [D1 D2].
  destruct op as [| | | | | |o]; try discriminate.
  unfold id_is at 1 3. simpl. unfold dict_get_default.
  destruct (dict_get "operationId" o) as [j|]; simpl.
  - destruct (json_is_str j tool); simpl; [|auto].
    right. split; [reflexivity|]. eauto.
  - auto.
Qed.

Lemma existsb_named_item (tool path : string) (item : list (string * json)) :
  existsb (operation_named tool) (operations_of_item path item)
  = negb (String.eqb path "")
    && existsb (id_is tool) (operations_of_item path item).
Proof.
  unfold operations_of_item.
  induction (filter (fun mo => string_in (upper (fst mo)) HTTP_METHODS) item)
    as [|[m op] l IH]; simpl.
  - now rewrite andb_false_r.
  - rewrite IH. unfold operation_named, id_is. simpl.
    destruct (negb (String.eqb path "")); reflexivity.
Qed.

Lemma find_operation_spec (tool : string) (paths : list (string * json)) :
  paths_ok paths = true ->
  forall found, path_unset found ->
    (has_operation tool paths = true ->
     exists p m op,
       find_operation tool paths found = Ok (Some (p, m, op))
       /\ p <> "" /\ string_in m HTTP_METHODS = true)
    /\ (has_operation tool paths = false ->
        exists r, find_operation tool paths found = Ok r /\ path_unset r).
Proof.
  unfold paths_ok, has_operation, operations.
  induction paths as [|[path item] paths IH]; simpl; intros W found U.
  - split; [discriminate | eauto].
  - apply andb_prop in W as [W1 W2]. apply andb_prop in W1 as [W0 W1].
    destruct item as [| | | | | |item]; try discriminate. simpl in W2.
    rewrite forallb_app in W2. apply andb_prop in W2 as [W2 W3].
    assert (W' : forallb (fun pi => is_dict (snd pi)) paths
                 && forallb (fun pmo => is_dict (snd pmo))
                      (flat_map
                         (fun pi => match snd pi with
                                    | JDict item => operations_of_item (fst pi) item
                                    | _ => []
                                    end) paths) = true)
      by now rewrite W1, W3.
    simpl. rewrite existsb_app, existsb_named_item.
    destruct (find_in_item_spec tool path item W2)
      as [[E ->]|[E [m [op [-> M]]]]]; rewrite E; cbn [bind].
    + rewrite andb_false_r. simpl.
      destruct found as [[[p m] op]|].
      * simpl in U. subst p. simpl.
        apply (IH W' (Some ("", m, op)) eq_refl).
      * apply (IH W' None I).
    + rewrite andb_true_r.
      destruct (String.eqb_spec path "") as [->|N]; simpl.
      * apply (IH W' (Some ("", m, op)) eq_refl).
      * split; [|discriminate]. intros _. exists path, m, op. auto.
Qed.

(** X3.  With the credentials configured and a document whose path
    items and operations are mappings, a dispatch under the
    [operationId] of an operation filed under a path that is not empty
    calls the network exactly once. *)
Theorem call_tool_existing_operation send py_str json_dumps html_title
  (env : environ) (sp paths : list (string * json)) (tool : string)
  (arguments : list (string * json)) :
  configured env ->
  dict_get_default "paths" (JDict []) sp = JDict paths ->
  paths_ok paths = true ->
  has_operation tool paths = true ->
  exists content request,
    call_tool send py_str json_dumps html_title env (JDict sp) tool arguments
    = Ok (content, [request]).
Proof.
  intros C P W O. unfold call_tool.
  rewrite (get_auth_header_configured _ C), P.
  destruct (find_operation_spec tool paths W None I) as [F _].
  destruct (F O) as [p [m [op [-> [N M]]]]]. cbn [bind].
  destruct p as [|c p]; [congruence|].
  destruct (split_arguments arguments) as [[pp qp] bd].
  destruct (build_request_some m
              (API_BASE_URL ++ substitute py_str (String c p) pp)
              (get_auth_header env) qp bd M) as [rq ->].
  destruct (send rq) as [r|]; [destruct (is_success _)|]; eauto.
Qed.

Lemma call_tool_existing_operation_witness :
  exists content request,
    call_tool Sample.send_204 Sample.py_str Sample.json_dumps
      Sample.html_title Sample.credentials Sample.entries
      "entries_retrieve" [("path_id", JInt 42)]
    = Ok (content, [request]).
Proof.
  apply (call_tool_existing_operation _ _ _ _ _ Sample.entries_fields
           Sample.entries_paths).
  - split; [exists "user" | exists "pass"]; split;
      [reflexivity | discriminate | reflexivity | discriminate].
  - reflexivity.
  - vm_compute; reflexivity.
  - vm_compute; reflexivity.
Defined.

(** X4.  With the credentials configured, a dispatch answers the
    tool-not-found error and calls nothing whenever no operation filed
    under a non-empty path carries the name: an operation filed under
    the empty path is never dispatched, its [operationId] notwithstanding
    (line 224 tests [path] for truth). *)
Theorem call_tool_empty_path_not_found send py_str json_dumps html_title
  (env : environ) (sp paths : list (string * json)) (tool : string)
  (arguments : list (string * json)) :
  configured env ->
  dict_get_default "paths" (JDict []) sp = JDict paths ->
  paths_ok paths = true ->
  has_operation tool paths = false ->
  call_tool send py_str json_dumps html_title env (JDict sp) tool arguments
  = Ok ([mkTextContent "text" (TOOL_NOT_FOUND tool)], []).
Proof.
  intros C P W O. unfold call_tool.
  rewrite (get_auth_header_configured _ C), P.
  destruct (find_operation_spec tool paths W None I) as [_ F].
  destruct (F O) as [r [-> U]]. cbn [bind].
  destruct r as [[[p m] op]|]; [|reflexivity].
  simpl in U. subst p. reflexivity.
Qed.

Lemma call_tool_empty_path_not_found_witness :
  no_operation_named "root" Sample.root_paths = false
  /\ call_tool Sample.send_204 Sample.py_str Sample.json_dumps
       Sample.html_title Sample.credentials (JDict Sample.root_fields)
       "root" []
     = Ok ([mkTextContent "text" (TOOL_NOT_FOUND "root")], []).
Proof.
  split; [vm_compute; reflexivity|].
  apply (call_tool_empty_path_not_found _ _ _ _ _ Sample.root_fields
           Sample.root_paths).
  - split; [exists "user" | exists "pass"]; split;
      [reflexivity | discriminate | reflexivity | discriminate].
  - reflexivity.
  - vm_compute; reflexivity.
  - vm_compute; reflexivity.
Defined.

(** ** The values of the buckets *)

Lemma written_snoc {V : Type} (k key : string) (v : V)
  (e : list (string * V)) :
  written k (e ++ [(key, v)])
  = if String.eqb k key then Some v else written k e.
Proof. unfold written. rewrite rev_app_distr. reflexivity. Qed.

Lemma append_inv_head (p a b : string) :
  (p ++ a)%string = (p ++ b)%string -> a = b.
Proof. induction p as [|c p IH]; simpl; intros H; [exact H|]. inversion H. auto. Qed.

Lemma eqb_prefixed_drop (p k key : string) :
  startswith p key = true ->
  String.eqb (p ++ k) key = String.eqb k (drop (String.length p) key).
Proof.
  intros S. rewrite <- (startswith_drop p key S) at 1.
  destruct (String.eqb_spec k (drop (String.length p) key)) as [->|N].
  - apply String.eqb_refl.
  - apply String.eqb_neq. intros H. apply N. exact (append_inv_head _ _ _ H).
Qed.

Lemma eqb_prefixed_other (p k key : string) :
  startswith p key = false -> String.eqb (p ++ k) key = false.
Proof.
  intros S. apply String.eqb_neq. intros <-.
  now rewrite startswith_app in S.
Qed.

Lemma dict_get_set {V : Type} (k k' : string) (v : V) (d : list (string * V)) :
  dict_get k (dict_set k' v d)
  = if String.eqb k k' then Some v else dict_get k d.
Proof.
  destruct (String.eqb_spec k k') as [->|N].
  - apply dict_get_set_same.
  - now apply dict_get_set_other.
Qed.

(** X5.  After the split, a bucket gives the suffix [k] the value the
    arguments give its prefixed key ([path_k], [query_k], [body_k]),
    and nothing where the arguments have no such key. *)
Theorem split_arguments_values (arguments : list (string * json))
  (k : string) :
  dict_get k (fst (fst (split_arguments arguments)))
  = written ("path_" ++ k) arguments
  /\ dict_get k (snd (fst (split_arguments arguments)))
     = written ("query_" ++ k) arguments
  /\ dict_get k (snd (split_arguments arguments))
     = written ("body_" ++ k) arguments.
Proof.
  unfold split_arguments.
  induction arguments as [|[key value] arguments IH] using rev_ind.
  - repeat split.
  - rewrite fold_left_app. cbn [fold_left]. rewrite !written_snoc.
    destruct (fold_left split_step arguments ([], [], []))
      as [[pp qp] bd]. cbn [fst snd] in IH. destruct IH as [I1 [I2 I3]].
    unfold split_step.
    destruct (startswith "path_" key) eqn:P; cbn [fst snd].
    + rewrite dict_get_set, (eqb_prefixed_drop "path_" k key P), I1.
      rewrite <- (startswith_drop "path_" key P).
      repeat split; assumption.
    + rewrite (eqb_prefixed_other "path_" k key P).
      destruct (startswith "query_" key) eqn:Q; cbn [fst snd].
      * rewrite dict_get_set, (eqb_prefixed_drop "query_" k key Q), I2.
        rewrite <- (startswith_drop "query_" key Q).
        repeat split; assumption.
      * rewrite (eqb_prefixed_other "query_" k key Q).
        destruct (startswith "body_" key) eqn:B; cbn [fst snd].
        -- rewrite dict_get_set, (eqb_prefixed_drop "body_" k key B), I3.
           repeat split; assumption.
        -- rewrite (eqb_prefixed_other "body_" k key B).
           repeat split; assumption.
Qed.

(** ** The substitution of path parameters *)

Lemma prefix_brace_free (o s : string) :
  free_of "{" s = true -> String.prefix (String "{" o) s = false.
Proof.
  destruct s as [|c s]; [reflexivity|]. cbn [free_of String.prefix].
  intros F. apply andb_prop in F as [F _].
  destruct (ascii_dec "{" c) as [<-|_]; [|reflexivity].
  now rewrite Ascii.eqb_refl in F.
Qed.

Lemma replace_from_free (o new s : string) :
  free_of "{" s = true ->
  forall fuel, replace_from fuel (String "{" o) new s = s.
Proof.
  induction s as [|c s IH]; intros F [|fuel]; try reflexivity.
  cbn [replace_from]. rewrite prefix_brace_free by exact F.
  cbn [free_of] in F. apply andb_prop in F as [_ F]. now rewrite IH.
Qed.

Lemma replace_from_hit (o new a b : string) :
  free_of "{" a = true -> free_of "{" b = true ->
  forall fuel,
    (String.length a < fuel)%nat ->
    replace_from fuel (String "{" o) new (a ++ String "{" o ++ b)
    = (a ++ new ++ b)%string.
Proof.
  intros Fa Fb. induction a as [|c a IH]; intros [|fuel] L;
    try (simpl in L; lia).
  - cbn [replace_from append].
    change (String "{" (o ++ b)) with (String "{" o ++ b)%string.
    rewrite (startswith_app (String "{" o) b : String.prefix _ _ = true).
    rewrite drop_app. now rewrite replace_from_free.
  - cbn [replace_from]. cbn [free_of] in Fa.
    apply andb_prop in Fa as [Fc Fa].
    assert (P : String.prefix (String "{" o)
                  (String c a ++ String "{" o ++ b) = false).
    { cbn [append String.prefix].
      destruct (ascii_dec "{" c) as [<-|_]; [|reflexivity].
      now rewrite Ascii.eqb_refl in Fc. }
    rewrite P. cbn [append]. f_equal. apply IH; [exact Fa|].
    cbn [String.length] in L. lia.
Qed.

Lemma length_app (a b : string) :
  String.length (a ++ b) = (String.length a + String.length b)%nat.
Proof. induction a; simpl; congruence. Qed.

(** X6.  A path template in which no brace opens is the path of the
    URL whatever the path parameters: a parameter that names no
    placeholder changes nothing and raises nothing. *)
Theorem substitute_no_placeholder (py_str : json -> string) (path : string)
  (path_params : list (string * json)) :
  free_of "{" path = true ->
  substitute py_str path path_params = path.
Proof.
  intros F. unfold substitute.
  induction path_params as [|[n v] path_params IH]; [reflexivity|].
  cbn [fold_left fst snd]. unfold replace at 2.
  change ("{" ++ n ++ "}")%string with (String "{" (n ++ "}")).
  rewrite replace_from_free by exact F. exact IH.
Qed.

Lemma substitute_no_placeholder_witness :
  substitute Sample.py_str "/entries" [("id", JInt 42)] = "/entries".
Proof. apply substitute_no_placeholder. reflexivity. Defined.

(** X7.  A placeholder [{n}] between two texts without a brace is
    replaced by the string form of the path parameter [n]. *)
Theorem substitute_placeholder (py_str : json -> string)
  (a n b : string) (v : json) :
  free_of "{" a = true -> free_of "{" b = true ->
  substitute py_str (a ++ "{" ++ n ++ "}" ++ b) [(n, v)]
  = (a ++ py_str v ++ b)%string.
Proof.
  intros Fa Fb. unfold substitute, replace. cbn [fold_left fst snd].
  assert (E : ("{" ++ n ++ "}" ++ b)%string
              = (String "{" (n ++ "}") ++ b)%string).
  { simpl. f_equal. induction n as [|c n IH]; simpl; congruence. }
  rewrite E.
  change ("{" ++ n ++ "}")%string with (String "{" (n ++ "}")).
  apply replace_from_hit; [exact Fa | exact Fb|].
  rewrite length_app. lia.
Qed.

Lemma substitute_placeholder_witness :
  substitute Sample.py_str "/entries/{id}/lines" [("id", JInt 42)]
  = "/entries/42/lines".
Proof.
  apply (substitute_placeholder Sample.py_str "/entries/" "id" "/lines"
           (JInt 42)); reflexivity.
Defined.

(** ** The answers to an HTTP error *)

Lemma length_take (n : nat) (s : string) :
  (String.length (take n s) <= n)%nat.
Proof.
  unfold take. revert s. induction n as [|n IH]; intros [|c s]; simpl;
    try lia.
  specialize (IH s). lia.
Qed.

(** X8.  Where the client answers with a status outside 200-299, the
    content of the dispatch is ["HTTP Error <status>:"], a newline and
    a detail: the JSON body serialised where there is one, and the
    first 500 characters of the body at most where the body is neither
    JSON nor announced as HTML. *)
Theorem call_tool_http_error send py_str json_dumps html_title
  (env : environ) (openapi_spec : json) (tool : string)
  (arguments : list (string * json))
  (content : list TextContent) (request : Request) (response : Response) :
  call_tool send py_str json_dumps html_title env openapi_spec tool arguments
  = Ok (content, [request]) ->
  send request = Responded response ->
  is_success (status_code response) = false ->
  exists detail,
    content
    = [mkTextContent "text"
         ("HTTP Error " ++ string_of_Z (status_code response) ++ ":"
          ++ newline ++ detail)%string]
    /\ (forall j, resp_json response = Some j -> detail = json_dumps true j)
    /\ (resp_json response = None ->
        contains "text/html" (getenv (resp_content_type response) "") = false ->
        detail = take 500 (resp_text response)
        /\ (String.length detail <= 500)%nat).
Proof.
  intros H S E. apply call_tool_sent in H as [_ ->]. rewrite S, E.
  unfold http_error_text. eexists. split; [reflexivity|]. split.
  - intros j ->. reflexivity.
  - intros -> ->. split; [reflexivity | apply length_take].
Qed.

Lemma call_tool_http_error_witness :
  exists detail,
    [mkTextContent "text" ("HTTP Error 404:" ++ newline ++ "not found")%string]
    = [mkTextContent "text"
         ("HTTP Error " ++ string_of_Z 404 ++ ":" ++ newline ++ detail)%string]
    /\ (forall j, @None json = Some j -> detail = Sample.json_dumps true j)
    /\ (@None json = None ->
        contains "text/html" (getenv (Some "text/plain") "") = false ->
        detail = take 500 "not found"
        /\ (String.length detail <= 500)%nat).
Proof.
  apply (call_tool_http_error
           (fun _ => Responded (mkResponse 404 (Some "text/plain")
                                  "not found" None))
           Sample.py_str Sample.json_dumps Sample.html_title
           Sample.credentials Sample.entries "entries_retrieve"
           [("path_id", JInt 42)]
           [mkTextContent "text" ("HTTP Error 404:" ++ newline ++ "not found")%string]
           (mkRequest "GET" "https://your-WYGIWYH.com/entries/42"
              [("Authorization", Sample.basic_auth);
               ("Accept", "application/json")] [] None)
           (mkResponse 404 (Some "text/plain") "not found" None)).
  - vm_compute. reflexivity.
  - reflexivity.
  - reflexivity.
Defined.

(** * Properties of the credentials and of the direct call *)

(** X9.  The header of the downstream credentials is not empty exactly
    when both variables are set and not empty; this is the test
    [call_tool] makes before anything else. *)
Theorem get_auth_header_nonempty_iff (env : environ) :
  get_auth_header env <> "" <-> configured env.
Proof.
  split.
  - unfold get_auth_header, configured.
    destruct (API_USERNAME env) as [u|], (API_PASSWORD env) as [p|]; simpl;
      try (destruct (String.eqb_spec u ""); simpl; congruence);
      try congruence.
    destruct (String.eqb_spec u "") as [->|Nu]; simpl; [congruence|].
    destruct (String.eqb_spec p "") as [->|Np]; simpl; [congruence|].
    intros _. split; eauto.
  - intros C. apply String.eqb_neq. now apply get_auth_header_configured.
Qed.

(** X10.  The direct call used by the HTTP transport never takes its
    ["No response from tool"] branch: whenever it returns, it returns
    the text of the one item [call_tool] produced, and the same calls
    on the network. *)
Theorem call_tool_internal_text send py_str json_dumps html_title
  (env : environ) (openapi_spec : json) (tool : string)
  (arguments : list (string * json))
  (result : list (string * json)) (trace : list Request) :
  call_tool_internal send py_str json_dumps html_title env openapi_spec
    tool arguments = Ok (result, trace) ->
  exists t,
    result = [("text", JStr t)]
    /\ call_tool send py_str json_dumps html_title env openapi_spec tool
         arguments = Ok ([mkTextContent "text" t], trace).
Proof.
  unfold call_tool_internal.
  destruct (call_tool send py_str json_dumps html_title env openapi_spec
              tool arguments) as [[content tr]|] eqn:C; cbn [bind];
    [|discriminate].
  destruct (call_tool_returns _ _ _ _ _ _ _ _ _ _ C) as [[t ->] _].
  intros H; inversion H; subst. exists t. split; reflexivity.
Qed.

Lemma call_tool_internal_text_witness :
  exists t,
    [("text", JStr (TOOL_NOT_FOUND "missing"))] = [("text", JStr t)]
    /\ call_tool Sample.send_204 Sample.py_str Sample.json_dumps
         Sample.html_title Sample.credentials Sample.entries "missing" []
       = Ok ([mkTextContent "text" t], []).
Proof.
  apply (call_tool_internal_text Sample.send_204 Sample.py_str
           Sample.json_dumps Sample.html_title Sample.credentials
           Sample.entries "missing" []).
  vm_compute. reflexivity.
Defined.

(** * Properties of the HTTP transport *)

Lemma split_on_cons (sep : ascii) (s : string) :
  exists w ws, split_on sep s = w :: ws.
Proof.
  induction s as [|c s [w [ws IH]]]; simpl; [eauto|].
  destruct (Ascii.eqb c sep); [eauto|]. rewrite IH. eauto.
Qed.

Lemma first_field_String (c : ascii) (s : string) :
  first_field (String c s)
  = if Ascii.eqb c " " then "" else String c (first_field s).
Proof.
  unfold first_field. cbn [split_on].
  destruct (Ascii.eqb c " "); [reflexivity|].
  destruct (split_on_cons " " s) as [w [ws ->]]. reflexivity.
Qed.

Lemma first_field_free (s : string) :
  free_of " " (first_field s) = true.
Proof.
  induction s as [|c s IH]; [reflexivity|]. rewrite first_field_String.
  destruct (Ascii.eqb c " ") eqn:E; [reflexivity|].
  cbn [free_of]. rewrite Ascii.eqb_sym, E. exact IH.
Qed.

Lemma first_field_app (t rest : string) :
  free_of " " t = true ->
  first_field t = t /\ first_field (t ++ String " " rest) = t.
Proof.
  induction t as [|c t IH]; intros F.
  - split; reflexivity.
  - cbn [free_of] in F. apply andb_prop in F as [Fc F].
    cbn [append]. rewrite !first_field_String.
    rewrite Ascii.eqb_sym in Fc. apply negb_true_iff in Fc. rewrite Fc.
    destruct (IH F) as [-> ->]. split; reflexivity.
Qed.

Lemma first_field_rest (s : string) :
  exists rest, s = (first_field s ++ rest)%string
               /\ (rest = "" \/ startswith " " rest = true).
Proof.
  induction s as [|c s [rest [E R]]].
  - exists "". split; [reflexivity | now left].
  - rewrite first_field_String. destruct (Ascii.eqb_spec c " ") as [->|N].
    + exists (String " " s). split; [reflexivity|].
      right. apply (startswith_app " " s).
    + exists rest. split; [simpl; now rewrite <- E | exact R].
Qed.

Lemma check_bearer_token_bearer (MCP_TOKEN x : string) :
  check_bearer_token MCP_TOKEN (Some ("Bearer " ++ x)%string)
  = String.eqb (first_field x) MCP_TOKEN.
Proof.
  unfold check_bearer_token, first_field. cbn [getenv].
  rewrite (startswith_app "Bearer " x). cbn [negb].
  change (split_on " " ("Bearer " ++ x)) with ("Bearer" :: split_on " " x).
  destruct (split_on_cons " " x) as [w [ws ->]]. reflexivity.
Qed.

(** X11.  A bearer token without a space is accepted when presented as
    [Bearer <token>], and also when anything follows it after a space:
    only the text up to the next space is compared. *)
Theorem check_bearer_token_accepts (MCP_TOKEN rest : string) :
  free_of " " MCP_TOKEN = true ->
  check_bearer_token MCP_TOKEN (Some ("Bearer " ++ MCP_TOKEN)%string) = true
  /\ check_bearer_token MCP_TOKEN
       (Some ("Bearer " ++ MCP_TOKEN ++ String " " rest)%string) = true.
Proof.
  intros F. rewrite !check_bearer_token_bearer.
  destruct (first_field_app MCP_TOKEN rest F) as [-> ->].
  now rewrite String.eqb_refl.
Qed.

Lemma check_bearer_token_accepts_witness :
  check_bearer_token "s3cret" (Some "Bearer s3cret") = true
  /\ check_bearer_token "s3cret" (Some "Bearer s3cret and more") = true.
Proof.
  apply (check_bearer_token_accepts "s3cret" "and more"). reflexivity.
Defined.

(** X12.  An accepted request carries an [Authorization] header that
    begins with [Bearer ], then the token, then nothing or a space: no
    other header, no other scheme and no other token passes, and a
    request without the header is rejected. *)
Theorem check_bearer_token_sound (MCP_TOKEN : string)
  (authorization : option string) :
  check_bearer_token MCP_TOKEN authorization = true ->
  exists rest,
    authorization = Some ("Bearer " ++ MCP_TOKEN ++ rest)%string
    /\ (rest = "" \/ startswith " " rest = true).
Proof.
  intros H.
  assert (S : startswith "Bearer " (getenv authorization "") = true).
  { unfold check_bearer_token in H.
    destruct (startswith "Bearer " (getenv authorization "")); [reflexivity|].
    discriminate H. }
  destruct authorization as [a|]; [|discriminate S]. cbn [getenv] in S.
  destruct (prefix_app _ _ S) as [x ->].
  rewrite check_bearer_token_bearer in H. apply String.eqb_eq in H.
  destruct (first_field_rest x) as [rest [E R]]. rewrite H in E.
  exists rest. split; [now rewrite <- E | exact R].
Qed.

Lemma check_bearer_token_sound_witness :
  exists rest,
    Some "Bearer s3cret and more" = Some ("Bearer " ++ "s3cret" ++ rest)%string
    /\ (rest = "" \/ startswith " " rest = true).
Proof. apply check_bearer_token_sound. reflexivity. Defined.

(** X13.  A configured token that contains a space can never be
    presented: every request is rejected. *)
Theorem check_bearer_token_space_never (MCP_TOKEN : string)
  (authorization : option string) :
  free_of " " MCP_TOKEN = false ->
  check_bearer_token MCP_TOKEN authorization = false.
Proof.
  intros F. destruct (check_bearer_token MCP_TOKEN authorization) eqn:C;
    [|reflexivity].
  assert (S : startswith "Bearer " (getenv authorization "") = true).
  { unfold check_bearer_token in C.
    destruct (startswith "Bearer " (getenv authorization "")); [reflexivity|].
    discriminate C. }
  destruct authorization as [a|]; [|discriminate S]. cbn [getenv] in S.
  destruct (prefix_app _ _ S) as [x ->].
  rewrite check_bearer_token_bearer in C. apply String.eqb_eq in C.
  rewrite <- C, first_field_free in F. discriminate F.
Qed.

Lemma check_bearer_token_space_never_witness :
  check_bearer_token "two words" (Some "Bearer two words") = false.
Proof. apply check_bearer_token_space_never. reflexivity. Defined.

(** X14.  The server never runs with an empty token (one is generated
    where the variable is unset or empty), so a request with no
    [Authorization] header, or with [Bearer ] and an empty token, is
    rejected. *)
Theorem empty_token_rejected (MCP_TOKEN : option string) (generated : string) :
  generated <> "" ->
  effective_token MCP_TOKEN generated <> ""
  /\ check_bearer_token (effective_token MCP_TOKEN generated) None = false
  /\ check_bearer_token (effective_token MCP_TOKEN generated)
       (Some "Bearer ") = false.
Proof.
  intros G.
  assert (N : effective_token MCP_TOKEN generated <> "").
  { unfold effective_token.
    destruct (String.eqb_spec (getenv MCP_TOKEN "") ""); assumption. }
  split; [exact N|]. split; [reflexivity|].
  change (Some "Bearer ") with (Some ("Bearer " ++ "")%string).
  rewrite check_bearer_token_bearer. apply String.eqb_neq.
  intros E. apply N. now rewrite <- E.
Qed.

Lemma empty_token_rejected_witness :
  effective_token (Some "") "generated" <> ""
  /\ check_bearer_token (effective_token (Some "") "generated") None = false
  /\ check_bearer_token (effective_token (Some "") "generated")
       (Some "Bearer ") = false.
Proof. apply empty_token_rejected. discriminate. Defined.

(** ** The JSON-RPC route *)

Section RouteFacts.
Variable S : Type.
Variable get_tools_list : S -> res json * S.
Variable call_tool_direct : json -> json -> S -> res json * S.
Variable py_str : json -> string.
Variable json_dumps : json -> string.
Variable exn_message : exn -> string.
Variable decode_message : string.

Let post :=
  handle_root_post S get_tools_list call_tool_direct py_str json_dumps
    exn_message decode_message.

(** X15.  A request without an [id] (or with a null one) is a
    notification: once authorized it is answered 200 with no content
    and no handler runs, whatever its method; a [tools/call] sent
    without an [id] calls no tool. *)
Theorem notification_runs_nothing (MCP_TOKEN : string)
  (authorization : option string) (b : list (string * json)) (s : S) :
  check_bearer_token MCP_TOKEN authorization = true ->
  dict_get_default "id" JNull b = JNull ->
  post MCP_TOKEN authorization (Some (JDict b)) s
  = (mkHttpResponse 200 NoContent [], s).
Proof.
  intros A N. unfold post, handle_root_post, route. rewrite A.
  cbn [negb get_attr]. now rewrite N.
Qed.

(** X16.  Every answer to an authorized request that has an [id] is a
    JSON-RPC envelope that carries ["jsonrpc": "2.0"] and that very
    [id], whether the method is known, unknown, or its handler
    raises. *)
Theorem response_echoes_id (MCP_TOKEN : string)
  (authorization : option string) (b : list (string * json)) (s : S) :
  check_bearer_token MCP_TOKEN authorization = true ->
  dict_get_default "id" JNull b <> JNull ->
  exists d,
    http_content (fst (post MCP_TOKEN authorization (Some (JDict b)) s))
    = Json (JDict d)
    /\ dict_get "jsonrpc" d = Some (JStr "2.0")
    /\ dict_get "id" d = Some (dict_get_default "id" JNull b).
Proof.
  intros A N. unfold post, handle_root_post, route. rewrite A.
  cbn [negb get_attr].
  destruct (dict_get_default "id" JNull b) eqn:I; try congruence;
    (destruct (json_is_str _ "initialize");
     [eexists; repeat split|];
     destruct (json_is_str _ "tools/list");
     [destruct (get_tools_list s) as [[tl|ex] s'];
      cbn [fst]; unfold internal_error; rewrite ?I; eexists; repeat split|];
     destruct (json_is_str _ "tools/call");
     [|eexists; repeat split];
     destruct (get_attr "name" JNull _) as [tn|ex];
     [|cbn [fst]; unfold internal_error; rewrite ?I; eexists; repeat split];
     destruct (call_tool_direct tn _ s) as [[r|ex] s'];
     cbn [fst]; unfold internal_error; rewrite ?I; eexists; repeat split).
Qed.

(** X17.  An authorized request with an [id] and a method other than
    [initialize], [tools/list] and [tools/call] is answered status 400
    with the JSON-RPC error -32601 naming the method, and no handler
    runs. *)
Theorem unknown_method_error (MCP_TOKEN : string)
  (authorization : option string) (b : list (string * json)) (s : S) :
  check_bearer_token MCP_TOKEN authorization = true ->
  dict_get_default "id" JNull b <> JNull ->
  json_is_str (dict_get_default "method" JNull b) "initialize" = false ->
  json_is_str (dict_get_default "method" JNull b) "tools/list" = false ->
  json_is_str (dict_get_default "method" JNull b) "tools/call" = false ->
  post MCP_TOKEN authorization (Some (JDict b)) s
  = (rpc_error 400 (dict_get_default "id" JNull b) (-32601)
       ("Method not found: " ++ py_str (dict_get_default "method" JNull b)),
     s).
Proof.
  intros A N M1 M2 M3. unfold post, handle_root_post, route. rewrite A.
  cbn [negb get_attr]. rewrite M1, M2, M3.
  destruct (dict_get_default "id" JNull b); congruence.
Qed.

(** X18.  A body that is not JSON, or is JSON but not an object, is
    answered status 500 with the JSON-RPC error -32603 and a null
    [id]; no handler runs. *)
Theorem malformed_body_error (MCP_TOKEN : string)
  (authorization : option string) (body : option json) (s : S) :
  check_bearer_token MCP_TOKEN authorization = true ->
  (forall b, body <> Some (JDict b)) ->
  exists message,
    post MCP_TOKEN authorization body s
    = (rpc_error 500 JNull (-32603) ("Internal error: " ++ message), s).
Proof.
  intros A N. unfold post, handle_root_post, route, internal_error.
  rewrite A. cbn [negb].
  destruct body as [[| | | | | |b]|]; cbn [get_attr]; eauto.
  now destruct (N b).
Qed.

(** X19.  The state of the handlers changes only in answer to an
    authorized request that has an [id] and whose method is
    [tools/list] or [tools/call]: an unauthorized request, a
    notification, [initialize] and an unknown method run no handler. *)
Theorem handlers_run_only_for_tools (MCP_TOKEN : string)
  (authorization : option string) (body : option json) (s : S) :
  snd (post MCP_TOKEN authorization body s) <> s ->
  check_bearer_token MCP_TOKEN authorization = true
  /\ exists b,
       body = Some (JDict b)
       /\ dict_get_default "id" JNull b <> JNull
       /\ (json_is_str (dict_get_default "method" JNull b) "tools/list" = true
           \/ json_is_str (dict_get_default "method" JNull b) "tools/call"
              = true).
Proof.
  unfold post, handle_root_post, route.
  destruct (check_bearer_token MCP_TOKEN authorization); cbn [negb snd];
    [|congruence].
  destruct body as [[| | | | | |b]|]; cbn [get_attr snd]; try congruence.
  intros H. split; [reflexivity|]. exists b. split; [reflexivity|].
  destruct (dict_get_default "id" JNull b) eqn:I;
    try (cbn [snd] in H; congruence);
    (split; [discriminate|]);
    (destruct (json_is_str _ "initialize");
     [cbn [snd] in H; congruence|];
     destruct (json_is_str _ "tools/list"); [now left|];
     destruct (json_is_str _ "tools/call"); [now right|];
     cbn [snd] in H; congruence).
Qed.

(** X20.  The status of an answer is 401, 200, 400 or 500, and it is
    401 exactly for the requests the token check rejects. *)
Theorem response_status (MCP_TOKEN : string)
  (authorization : option string) (body : option json) (s : S) :
  let status :=
    http_status (fst (post MCP_TOKEN authorization body s)) in
  (status = 401 \/ status = 200 \/ status = 400 \/ status = 500)%Z
  /\ (status = 401%Z
      <-> check_bearer_token MCP_TOKEN authorization = false).
Proof.
  unfold post, handle_root_post, route, internal_error.
  destruct (check_bearer_token MCP_TOKEN authorization); cbn [negb fst];
    [|cbn; intuition].
  destruct body as [[| | | | | |b]|]; cbn [get_attr fst];
    try (cbn; intuition discriminate).
  destruct (dict_get_default "id" JNull b);
    try (cbn; intuition discriminate);
    (destruct (json_is_str _ "initialize");
     [cbn; intuition discriminate|];
     destruct (json_is_str _ "tools/list");
     [destruct (get_tools_list s) as [[tl|ex] s'];
      cbn; intuition discriminate|];
     destruct (json_is_str _ "tools/call");
     [|cbn; intuition discriminate];
     destruct (get_attr "name" JNull _) as [tn|ex];
     [|cbn; intuition discriminate];
     destruct (call_tool_direct tn _ s) as [[r|ex] s'];
     cbn; intuition discriminate).
Qed.

End RouteFacts.

Lemma notification_runs_nothing_witness :
  handle_root_post nat Sample.counting_tools_list Sample.counting_call_tool
    Sample.py_str Sample.compact_dumps Sample.exn_message "bad json"
    "s3cret" (Some "Bearer s3cret")
    (Some (JDict [("jsonrpc", JStr "2.0"); ("method", JStr "tools/call");
                  ("params", JDict [("name", JStr "entries_destroy")])]))
    0%nat
  = (mkHttpResponse 200 NoContent [], 0%nat).
Proof.
  apply (notification_runs_nothing nat Sample.counting_tools_list
           Sample.counting_call_tool Sample.py_str Sample.compact_dumps
           Sample.exn_message "bad json"); reflexivity.
Defined.

Lemma response_echoes_id_witness :
  exists d,
    http_content
      (fst (handle_root_post nat Sample.failing_tools_list
              Sample.counting_call_tool Sample.py_str Sample.compact_dumps
              Sample.exn_message "bad json" "s3cret" (Some "Bearer s3cret")
              (Some (JDict [("method", JStr "tools/list"); ("id", JInt 7)]))
              0%nat))
    = Json (JDict d)
    /\ dict_get "jsonrpc" d = Some (JStr "2.0")
    /\ dict_get "id" d
       = Some (dict_get_default "id" JNull
                 [("method", JStr "tools/list"); ("id", JInt 7)]).
Proof.
  apply (response_echoes_id nat Sample.failing_tools_list
           Sample.counting_call_tool Sample.py_str Sample.compact_dumps
           Sample.exn_message "bad json");
    [reflexivity | discriminate].
Defined.

Lemma unknown_method_error_witness :
  handle_root_post nat Sample.counting_tools_list Sample.counting_call_tool
    Sample.py_str Sample.compact_dumps Sample.exn_message "bad json"
    "s3cret" (Some "Bearer s3cret")
    (Some (JDict [("method", JStr "resources/list"); ("id", JInt 7)])) 0%nat
  = (rpc_error 400
       (dict_get_default "id" JNull
          [("method", JStr "resources/list"); ("id", JInt 7)])
       (-32601)
       ("Method not found: "
        ++ Sample.py_str
             (dict_get_default "method" JNull
                [("method", JStr "resources/list"); ("id", JInt 7)])),
     0%nat).
Proof.
  apply (unknown_method_error nat Sample.counting_tools_list
           Sample.counting_call_tool Sample.py_str Sample.compact_dumps
           Sample.exn_message "bad json");
    [reflexivity | discriminate | reflexivity | reflexivity | reflexivity].
Defined.

Lemma malformed_body_error_witness :
  exists message,
    handle_root_post nat Sample.counting_tools_list Sample.counting_call_tool
      Sample.py_str Sample.compact_dumps Sample.exn_message "bad json"
      "s3cret" (Some "Bearer s3cret")
      (Some (JList [JDict [("method", JStr "tools/list"); ("id", JInt 7)]]))
      0%nat
    = (rpc_error 500 JNull (-32603) ("Internal error: " ++ message), 0%nat).
Proof.
  apply (malformed_body_error nat Sample.counting_tools_list
           Sample.counting_call_tool Sample.py_str Sample.compact_dumps
           Sample.exn_message "bad json");
    [reflexivity | discriminate].
Defined.

Lemma handlers_run_only_for_tools_witness :
  check_bearer_token "s3cret" (Some "Bearer s3cret") = true
  /\ exists b,
       Some (JDict [("method", JStr "tools/list"); ("id", JInt 7)])
       = Some (JDict b)
       /\ dict_get_default "id" JNull b <> JNull
       /\ (json_is_str (dict_get_default "method" JNull b) "tools/list" = true
           \/ json_is_str (dict_get_default "method" JNull b) "tools/call"
              = true).
Proof.
  apply (handlers_run_only_for_tools nat Sample.counting_tools_list
           Sample.counting_call_tool Sample.py_str Sample.compact_dumps
           Sample.exn_message "bad json" "s3cret" (Some "Bearer s3cret")
           (Some (JDict [("method", JStr "tools/list"); ("id", JInt 7)]))
           0%nat).
  discriminate.
Defined.

(** * Further properties of the catalog *)

Section CatalogFacts.
Variable set_order : list string -> list string.

Lemma tool_of_operation_description (depth : nat) (components : json)
  (path method : string) (operation : json) (st st' : store) (t : Tool) :
  tool_of_operation set_order depth components path method operation st
  = Ok (t, st') ->
  description_ok t.
Proof.
  unfold tool_of_operation.
  destruct operation as [| | | | | |op]; try discriminate.
  destruct (match dict_get "parameters" op with
            | Some (JList params) => _
            | Some _ => _
            | None => _
            end) as [acc1|]; cbn [bind]; [|discriminate].
  destruct (match dict_get "requestBody" op with
            | Some req_body => _
            | None => _
            end) as [[schema2 st2]|]; cbn [bind]; [|discriminate].
  destruct (dict_get_default "description" _ op) as [| | | |d| |];
    cbn [bind]; try discriminate.
  destruct (dict_get_default "operationId" _ op) as [| | | |n| |];
    cbn [bind]; try discriminate.
  intros H; inversion H; subst; clear H.
  apply length_take.
Qed.

Lemma methods_loop_description (depth : nat) (components : json)
  (path : string) (item : list (string * json)) :
  forall (acc : list Tool * store) (tools : list Tool) (st' : store),
    Forall description_ok (fst acc) ->
    methods_loop set_order depth components path item acc = Ok (tools, st') ->
    Forall description_ok tools.
Proof.
  induction item as [|[method operation] item IH]; intros acc tools st' A H;
    cbn [methods_loop] in H.
  - now inversion H; subst.
  - destruct (negb (string_in (upper method) HTTP_METHODS)); [eauto|].
    destruct (tool_of_operation _ _ _ _ _ _ _) as [[t st1]|] eqn:T;
      cbn [bind] in H; [|discriminate].
    apply (IH _ _ _) in H; [exact H|]. cbn [fst].
    apply Forall_app. split; [exact A|].
    constructor; [|constructor].
    exact (tool_of_operation_description _ _ _ _ _ _ _ _ T).
Qed.

Lemma paths_loop_description (depth : nat) (components : json)
  (paths : list (string * json)) :
  forall (acc : list Tool * store) (tools : list Tool) (st' : store),
    Forall description_ok (fst acc) ->
    paths_loop set_order depth components paths acc = Ok (tools, st') ->
    Forall description_ok tools.
Proof.
  induction paths as [|[path path_item] paths IH]; intros acc tools st' A H;
    cbn [paths_loop] in H.
  - now inversion H; subst.
  - destruct path_item as [| | | | | |item]; try discriminate.
    destruct (methods_loop _ _ _ _ _ _) as [[tools1 st1]|] eqn:M;
      cbn [bind] in H; [|discriminate].
    apply (IH _ _ _) in H; [exact H|]. cbn [fst].
    exact (methods_loop_description _ _ _ _ _ _ _ A M).
Qed.

(** X21.  Every tool of a catalog that a build returns has a
    description of 1024 characters at most, however long the
    description or the summary of its operation is. *)
Theorem generate_tools_description_bound (depth : nat) (spec : json)
  (st st' : store) (tools : list Tool) :
  generate_tools_from_openapi set_order depth spec st = Ok (tools, st') ->
  Forall description_ok tools.
Proof.
  unfold generate_tools_from_openapi.
  destruct spec as [| | | | | |sp]; try discriminate.
  destruct (dict_get_default "paths" (JDict []) sp)
    as [| | | | | |paths]; try discriminate.
  apply paths_loop_description. constructor.
Qed.

End CatalogFacts.

Lemma generate_tools_description_bound_witness :
  exists tools st',
    generate_tools_from_openapi Sample.set_order 5 Sample.wordy []
    = Ok (tools, st')
    /\ map (fun t => String.length (description t)) tools = [1024%nat]
    /\ Forall description_ok tools.
Proof.
  destruct (generate_tools_from_openapi Sample.set_order 5 Sample.wordy [])
    as [[tools st']|e] eqn:G; [|vm_compute in G; discriminate G].
  exists tools, st'. split; [reflexivity|]. split.
  - vm_compute in G. inversion G; subst. vm_compute. reflexivity.
  - exact (generate_tools_description_bound _ _ _ _ _ _ G).
Defined.

(** ** Declared parameters *)

Lemma dict_mem_set {V : Type} (k k' : string) (v : V) (d : list (string * V)) :
  dict_mem k (dict_set k' v d) = String.eqb k k' || dict_mem k d.
Proof.
  unfold dict_mem. rewrite dict_get_set.
  destruct (String.eqb k k'); reflexivity.
Qed.

Lemma fold_body_mem (props acc : list (string * out)) (k : string) :
  dict_mem k acc = true ->
  dict_mem k
    (fold_left (fun a kv => dict_set ("body_" ++ fst kv)%string (snd kv) a)
       props acc) = true.
Proof.
  revert acc. induction props as [|[n v] props IH]; intros acc H; simpl;
    [exact H|].
  apply IH. rewrite dict_mem_set, H. apply orb_true_r.
Qed.

Lemma body_required_keeps (fields : list json) :
  forall acc r x, body_required fields acc = Ok r -> In x acc -> In x r.
Proof.
  induction fields as [|f fields IH]; intros acc r x H I; simpl in H.
  - now inversion H; subst.
  - destruct (key_of f) as [n|]; cbn [bind] in H; [|discriminate].
    apply (IH _ _ x H). apply in_or_app. now left.
Qed.

Section ParameterFacts.
Variable set_order : list string -> list string.

Lemma add_parameter_keeps (depth : nat) (components : json) (op_loc : loc)
  (i : nat) (param : json) (schema schema' : input_schema) (st st' : store) :
  add_parameter set_order depth components op_loc i param (schema, st)
  = Ok (schema', st') ->
  (forall k, dict_mem k (in_properties schema) = true ->
             dict_mem k (in_properties schema') = true)
  /\ (forall x, In x (in_required schema) -> In x (in_required schema'))
  /\ (forall p k,
         param = JDict p -> parameter_key p = Some k ->
         dict_mem k (in_properties schema') = true
         /\ (truthy (dict_get_default "required" (JBool false) p) = true ->
             In k (in_required schema'))).
Proof.
  unfold add_parameter.
  destruct param as [| | | | | |p]; try discriminate.
  destruct (dict_get "name" p) as [param_name|] eqn:N; [|discriminate].
  destruct (convert_openapi_to_json_schema set_order depth st _ _ components)
    as [converted|]; cbn [bind]; [|discriminate].
  destruct (set_description st converted _) as [[param_schema st1]|];
    cbn [bind]; [|discriminate].
  destruct (dict_get "in" p) as [where_|] eqn:W; [|discriminate].
  destruct param_name as [| | | |n| |]; cbn [key_of bind]; try discriminate.
  intros H; inversion H; subst; clear H. cbn [in_properties in_required].
  split; [|split].
  - intros k M. rewrite dict_mem_set, M. apply orb_true_r.
  - intros x I. destruct (truthy _); [apply in_or_app; now left | exact I].
  - intros p' k E K. inversion E; subst p'. unfold parameter_key in K.
    rewrite N, W in K. inversion K; subst k. split.
    + rewrite dict_mem_set, String.eqb_refl. reflexivity.
    + intros ->. apply in_or_app. right. now left.
Qed.

Lemma parameters_loop_keeps (depth : nat) (components : json) (op_loc : loc)
  (params : list json) :
  forall (i : nat) (schema schema' : input_schema) (st st' : store),
    parameters_loop set_order depth components op_loc i params (schema, st)
    = Ok (schema', st') ->
    (forall k, dict_mem k (in_properties schema) = true ->
               dict_mem k (in_properties schema') = true)
    /\ (forall x, In x (in_required schema) -> In x (in_required schema'))
    /\ (forall p k,
           In (JDict p) params -> parameter_key p = Some k ->
           dict_mem k (in_properties schema') = true
           /\ (truthy (dict_get_default "required" (JBool false) p) = true ->
               In k (in_required schema'))).
Proof.
  induction params as [|param params IH]; intros i schema schema' st st' H;
    cbn [parameters_loop] in H.
  - inversion H; subst. repeat split; auto; destruct H0.
  - destruct (add_parameter set_order depth components op_loc i param
                (schema, st)) as [[schema1 st1]|] eqn:A; cbn [bind] in H;
      [|discriminate].
    apply add_parameter_keeps in A as [A1 [A2 A3]].
    apply IH in H as [H1 [H2 H3]].
    split; [auto|]. split; [auto|].
    intros p k [->|I] K.
    + destruct (A3 p k eq_refl K) as [M R]. split; auto.
    + exact (H3 p k I K).
Qed.

Lemma add_request_body_keeps (depth : nat) (components : json) (op_loc : loc)
  (req_body : json) (schema schema' : input_schema) (st st' : store) :
  add_request_body set_order depth components op_loc req_body (schema, st)
  = Ok (schema', st') ->
  (forall k, dict_mem k (in_properties schema) = true ->
             dict_mem k (in_properties schema') = true)
  /\ (forall x, In x (in_required schema) -> In x (in_required schema')).
Proof.
  unfold add_request_body.
  destruct req_body as [| | | | | |rb]; try discriminate.
  destruct (dict_get_default "content" (JDict []) rb)
    as [| | | | | |content]; try discriminate.
  destruct (select_body content CONTENT_TYPES) as [[[ct body_schema]|]|];
    cbn [bind]; try discriminate;
    [|intros H; inversion H; subst; auto].
  destruct (negb (truthy body_schema)); [intros H; inversion H; subst; auto|].
  destruct (convert_openapi_to_json_schema set_order depth st _ body_schema
              components) as [converted|]; cbn [bind]; [|discriminate].
  destruct (out_items st converted) as [items|]; cbn [bind]; [|discriminate].
  destruct (dict_get "properties" items) as [ps|];
    [|intros H; inversion H; subst; auto].
  destruct (out_items st ps) as [props|]; cbn [bind]; [|discriminate].
  destruct (dict_get "required" items) as [r|]; cbn [bind].
  - destruct (out_list st r) as [fields|]; cbn [bind]; [|discriminate].
    destruct (body_required fields (in_required schema)) as [req|] eqn:B;
      cbn [bind]; [|discriminate].
    intros H; inversion H; subst; clear H. cbn [in_properties in_required].
    split; [intros k; apply fold_body_mem|].
    intros x. exact (body_required_keeps _ _ _ x B).
  - intros H; inversion H; subst; clear H. cbn [in_properties in_required].
    split; [intros k; apply fold_body_mem | auto].
Qed.

(** X22.  Every parameter an operation declares is a property of the
    input schema of its tool, under its name prefixed by [path_] or
    [query_] (by nothing for a header or cookie parameter), and it is
    in the required list when it is marked required; the request body
    added afterwards removes neither. *)
Theorem declared_parameter_listed (depth : nat) (components : json)
  (path method : string) (op : list (string * json)) (params : list json)
  (p : list (string * json)) (k : string) (st st' : store) (t : Tool) :
  tool_of_operation set_order depth components path method (JDict op) st
  = Ok (t, st') ->
  dict_get "parameters" op = Some (JList params) ->
  In (JDict p) params ->
  parameter_key p = Some k ->
  dict_mem k (tool_properties t) = true
  /\ (truthy (dict_get_default "required" (JBool false) p) = true ->
      In (JStr k) (tool_required t)).
Proof.
  unfold tool_of_operation. intros H P I K. rewrite P in H. cbv zeta in H.
  destruct (parameters_loop set_order depth components _ 0 params
              (InputSchema [] [], st)) as [[schema1 st1]|] eqn:L;
    cbn [bind] in H; [|discriminate].
  apply parameters_loop_keeps in L as [_ [_ L]].
  destruct (L p k I K) as [M R].
  destruct (dict_get "requestBody" op) as [rb|].
  - destruct (add_request_body set_order depth components _ rb
                (schema1, st1)) as [[schema2 st2]|] eqn:A;
      cbn [bind] in H; [|discriminate].
    apply add_request_body_keeps in A as [A1 A2].
    destruct (dict_get_default "description" _ op) as [| | | |d| |];
      cbn [bind] in H; try discriminate.
    destruct (dict_get_default "operationId" _ op) as [| | | |n| |];
      cbn [bind] in H; try discriminate.
    inversion H; subst; clear H.
    unfold tool_properties, tool_required, result_properties,
      result_required.
    cbn. split; [auto|]. intros T. apply in_map. auto.
  - cbn [bind] in H.
    destruct (dict_get_default "description" _ op) as [| | | |d| |];
      cbn [bind] in H; try discriminate.
    destruct (dict_get_default "operationId" _ op) as [| | | |n| |];
      cbn [bind] in H; try discriminate.
    inversion H; subst; clear H.
    unfold tool_properties, tool_required, result_properties,
      result_required.
    cbn. split; [auto|]. intros T. apply in_map. auto.
Qed.

End ParameterFacts.

Lemma declared_parameter_listed_witness :
  dict_mem "path_id"
    (tool_properties
       (mkTool "entries_retrieve" "GET /entries/{id}"
          (ODict [("type", OVal (JStr "object"));
                  ("properties",
                   ODict [("path_id",
                           ODict [("type", OVal (JStr "integer"));
                                  ("description", OVal (JStr ""))])]);
                  ("required", OVal (JList [JStr "path_id"]))]))) = true
  /\ (truthy (dict_get_default "required" (JBool false)
                [("name", JStr "id"); ("in", JStr "path");
                 ("required", JBool true);
                 ("schema", JDict [("type", JStr "integer")])]) = true ->
      In (JStr "path_id")
        (tool_required
           (mkTool "entries_retrieve" "GET /entries/{id}"
              (ODict [("type", OVal (JStr "object"));
                      ("properties",
                       ODict [("path_id",
                               ODict [("type", OVal (JStr "integer"));
                                      ("description", OVal (JStr ""))])]);
                      ("required", OVal (JList [JStr "path_id"]))])))).
Proof.
  apply (declared_parameter_listed Sample.set_order 5 (JDict [])
           "/entries/{id}" "get"
           [("operationId", JStr "entries_retrieve");
            ("parameters", JList [Sample.id_parameter])]
           [Sample.id_parameter]
           [("name", JStr "id"); ("in", JStr "path");
            ("required", JBool true);
            ("schema", JDict [("type", JStr "integer")])]
           "path_id" [] []).
  - vm_compute. reflexivity.
  - reflexivity.
  - left. reflexivity.
  - reflexivity.
Defined.

(** ** The content type of a request body *)

(** X23.  The schema taken for a request body is that of the first
    content type, in the order of preference, that the body offers; the
    later ones are not looked at, and where it offers none of them no
    schema is taken. *)
Theorem select_body_first_present (content : list (string * json))
  (types : list string) :
  (forall ct schema,
      select_body content types = Ok (Some (ct, schema)) ->
      exists before after media,
        types = before ++ ct :: after
        /\ (forall t, In t before -> dict_get t content = None)
        /\ dict_get ct content = Some (JDict media)
        /\ schema = dict_get_default "schema" (JDict []) media)
  /\ (select_body content types = Ok None ->
      forall t, In t types -> dict_get t content = None).
Proof.
  induction types as [|t0 types [IH1 IH2]]; simpl.
  - split; [discriminate | tauto].
  - destruct (dict_get t0 content) as [m|] eqn:E.
    + destruct m as [| | | | | |media]; split; try discriminate.
      intros ct schema H. inversion H; subst.
      exists [], types, media. repeat split; auto. intros t [].
    + split.
      * intros ct schema H.
        destruct (IH1 ct schema H) as [before [after [media [-> [B [C D]]]]]].
        exists (t0 :: before), after, media. repeat split; auto.
        intros t [<-|I]; auto.
      * intros H t [<-|I]; auto.
Qed.

(** * Further properties of the schema resolver *)

Section ResolverFacts.
Variable set_order : list string -> list string.

(** X24.  References that lead back to themselves are not detected: on
    a family of schemas each of which is a [$ref] that resolves into
    the family, the conversion ends in [RecursionError] whatever the
    recursion limit, and never returns. *)
Theorem convert_cycle_raises (C : json -> Prop) (components : json) :
  (forall s, C s ->
             exists a n t, s = JDict a
                           /\ resolve_ref a components = Ok (Some (n, t))
                           /\ C t) ->
  forall (depth : nat) (st : store) (here : loc) (s : json),
    C s ->
    convert_openapi_to_json_schema set_order depth st here s components
    = Raise RecursionError.
Proof.
  intros H. induction depth as [|d IH]; intros st here s Cs;
    [reflexivity|].
  destruct (H s Cs) as [a [n [t [-> [R Ct]]]]].
  cbn [convert_openapi_to_json_schema].
  assert (N : a <> []) by (intros ->; discriminate R).
  rewrite (truthy_dict a N). cbn [negb]. rewrite R. cbn [bind].
  now apply IH.
Qed.

(** X25.  A fragment that is nothing but a [$ref] that does not resolve
    (an unknown name, or a pointer outside [#/components/schemas/])
    converts to the empty schema: the reference is dropped without an
    error. *)
Theorem dangling_ref_empty (depth : nat) (st : store) (here : loc)
  (r : string) (components : json) :
  resolve_ref [("$ref", JStr r)] components = Ok None ->
  convert_openapi_to_json_schema set_order (S depth) st here
    (JDict [("$ref", JStr r)]) components = Ok (ODict []).
Proof.
  intros R. cbn [convert_openapi_to_json_schema truthy negb].
  rewrite R. reflexivity.
Qed.

Lemma required_filter_strings (required : list json)
  (properties : list (string * out)) :
  forall f x,
    required_filter required properties = Ok f ->
    In x f -> exists k, x = JStr k /\ dict_mem k properties = true.
Proof.
  induction required as [|r required IH]; intros f x H I; simpl in H.
  - inversion H; subst. destruct I.
  - destruct (match r with
              | JStr k0 => Ok (dict_mem k0 properties)
              | JList _ | JDict _ => Raise TypeError
              | _ => Ok false
              end) as [keep|] eqn:K; cbn [bind] in H; [|discriminate].
    destruct (required_filter required properties) as [rest|];
      cbn [bind] in H; [|discriminate].
    inversion H; subst; clear H.
    destruct keep; [|eauto].
    destruct I as [<-|I]; [|eauto].
    destruct r; inversion K. eauto.
Qed.

(** X26.  Where the resolution copies the fragment itself (no [$ref]
    that resolves, no [allOf], no [oneOf]), every entry of the required
    list of the result is the name of a property of the result: a name
    required by the fragment but absent from its properties, or
    filtered out as read-only, is not required of the caller. *)
Theorem required_within_properties (depth : nat) (st : store) (here : loc)
  (s : list (string * json)) (components : json) (r : out) :
  resolve_ref s components = Ok None ->
  dict_get "allOf" s = None ->
  dict_get "oneOf" s = None ->
  s <> [] ->
  convert_openapi_to_json_schema set_order (S depth) st here (JDict s)
    components = Ok r ->
  exists rd,
    r = ODict rd
    /\ forall x, In x (result_required rd) ->
                 exists k, x = JStr k
                           /\ dict_mem k (result_properties rd) = true.
Proof.
  intros R A O N. cbn [convert_openapi_to_json_schema].
  rewrite (truthy_dict s N). cbn [negb]. rewrite R. cbn [bind].
  rewrite A, O.
  set (r0 := match dict_get "type" s with
             | Some t => [("type", OVal t)]
             | None => []
             end).
  assert (P0 : dict_get "properties" r0 = None)
    by (subst r0; destruct (dict_get "type" s); reflexivity).
  assert (Q0 : dict_get "required" r0 = None)
    by (subst r0; destruct (dict_get "type" s); reflexivity).
  clearbody r0.
  destruct (dict_get "properties" s) as [p|].
  - destruct p as [| | | | | |props]; try discriminate.
    destruct (properties_loop _ props []) as [ps|]; cbn [bind];
      [|discriminate].
    rewrite dict_get_set_same.
    destruct (dict_get "required" s) as [q|].
    + destruct q as [| | | | |required|]; try discriminate.
      destruct (required_filter required ps) as [f|] eqn:F; cbn [bind];
        [|discriminate].
      intros H; inversion H; subst; clear H. eexists. split; [reflexivity|].
      unfold result_properties, result_required.
      rewrite !copy_keys_read by (unfold read_key; auto).
      rewrite dict_get_set_same.
      rewrite dict_get_set_other by discriminate.
      rewrite dict_get_set_same.
      intros x I. exact (required_filter_strings _ _ _ _ F I).
    + cbn [bind]. intros H; inversion H; subst; clear H.
      eexists. split; [reflexivity|].
      unfold result_required.
      rewrite copy_keys_read by (unfold read_key; auto).
      rewrite dict_get_set_other by discriminate. rewrite Q0.
      intros x [].
  - cbn [bind]. rewrite P0.
    destruct (dict_get "required" s) as [q|].
    + destruct q as [| | | | |required|]; try discriminate.
      destruct (required_filter required []) as [f|] eqn:F; cbn [bind];
        [|discriminate].
      intros H; inversion H; subst; clear H. eexists. split; [reflexivity|].
      unfold result_required.
      rewrite copy_keys_read by (unfold read_key; auto).
      rewrite dict_get_set_same.
      intros x I.
      destruct (required_filter_strings _ _ _ _ F I) as [k [_ M]].
      discriminate M.
    + cbn [bind]. intros H; inversion H; subst; clear H.
      eexists. split; [reflexivity|].
      unfold result_required.
      rewrite copy_keys_read by (unfold read_key; auto). rewrite Q0.
      intros x [].
Qed.

End ResolverFacts.

Lemma convert_cycle_raises_witness :
  convert_openapi_to_json_schema Sample.set_order 1000 [] []
    (JDict Sample.node_schema) Sample.node_components
  = Raise RecursionError.
Proof.
  apply (convert_cycle_raises Sample.set_order
           (fun s => s = JDict Sample.node_schema) Sample.node_components);
    [|reflexivity].
  intros s ->.
  exists Sample.node_schema, "Node", (JDict Sample.node_schema).
  repeat split.
Defined.

Lemma dangling_ref_empty_witness :
  convert_openapi_to_json_schema Sample.set_order 5 [] []
    (JDict [("$ref", JStr "#/definitions/Entry")]) Sample.no_components
  = Ok (ODict []).
Proof. apply dangling_ref_empty. reflexivity. Defined.

Lemma required_within_properties_witness :
  exists rd,
    ODict [("type", OVal (JStr "object"));
           ("properties",
            ODict [("name", ODict [("type", OVal (JStr "string"))]);
                   ("amount", ODict [("type", OVal (JStr "number"))])]);
           ("required", OVal (JList [JStr "name"]))]
    = ODict rd
    /\ forall x, In x (result_required rd) ->
                 exists k, x = JStr k
                           /\ dict_mem k (result_properties rd) = true.
Proof.
  apply (required_within_properties Sample.set_order 4 [] []
           Sample.entry_schema Sample.no_components);
    try reflexivity; discriminate.
Defined.

(** ** The keys of a converted schema *)

Lemma fold_copy_keys (schema : list (string * json)) (keys : list string)
  (k : string) :
  forall result : list (string * out),
    In k (dict_keys
            (fold_left (fun acc key =>
                          match dict_get key schema with
                          | Some v => dict_set key (OVal v) acc
                          | None => acc
                          end) keys result)) ->
    In k keys \/ In k (dict_keys result).
Proof.
  induction keys as [|key keys IH]; intros result H; simpl in H; [auto|].
  apply IH in H as [H|H]; [left; now right|].
  destruct (dict_get key schema); [|auto].
  apply dict_keys_set in H as [->|H]; [left; now left | auto].
Qed.

Section KeyFacts.
Variable set_order : list string -> list string.

Lemma allOf_result_keys (st : store) (m : merged) (rd : list (string * out)) :
  allOf_result set_order st m = Ok (ODict rd) ->
  forall k, In k (dict_keys rd) -> In k RESULT_KEYS.
Proof.
  unfold allOf_result.
  set (ty := match merged_type m with
             | Some t => if out_truthy st t then t else OVal (JStr "object")
             | None => OVal (JStr "object")
             end).
  clearbody ty.
  destruct (merged_properties m) as [|p0 ps];
    (destruct (merged_required m) as [|x0 req];
     [intros H; inversion H; subst; clear H
     |destruct (list_set set_order (x0 :: req)) as [s|]; cbn [bind];
      [intros H; inversion H; subst; clear H | discriminate]]);
    simpl; unfold RESULT_KEYS; simpl; intuition.
Qed.

(** X27.  A dict the conversion allocates has no key outside [type],
    [properties], [required] and the eleven copied ones: [readOnly],
    [$ref], [allOf], [oneOf], [default], [example] and any other key of
    the fragment never reach the top level of a converted schema.  (A
    [oneOf] alternative is returned as it stands and is not such a
    dict.) *)
Theorem convert_result_keys (depth : nat) :
  forall (st : store) (here : loc) (schema components : json)
         (rd : list (string * out)),
    convert_openapi_to_json_schema set_order depth st here schema components
    = Ok (ODict rd) ->
    forall k, In k (dict_keys rd) -> In k RESULT_KEYS.
Proof.
  induction depth as [|d IH]; intros st here schema components rd;
    cbn [convert_openapi_to_json_schema]; [discriminate|].
  destruct (truthy schema); cbn [negb].
  - destruct schema as [| | | | | |s]; try discriminate.
    destruct (resolve_ref s components) as [[[n t]|]|]; cbn [bind];
      [apply IH| |discriminate].
    destruct (dict_get "allOf" s) as [a|].
    { destruct a as [| | | | |subs|]; try discriminate.
      destruct (allOf_loop _ st 0 subs (Merged [] [] None)) as [m|];
        cbn [bind]; [|discriminate].
      apply allOf_result_keys. }
    destruct (dict_get "oneOf" s) as [o|].
    { destruct o as [| | | | |alts|]; try discriminate.
      destruct (index alts 0); cbn [bind]; discriminate. }
    set (r0 := match dict_get "type" s with
               | Some t => [("type", OVal t)]
               | None => []
               end).
    assert (K0 : forall k, In k (dict_keys r0) -> k = "type")
      by (subst r0; destruct (dict_get "type" s); simpl; intuition).
    clearbody r0.
    assert (F : forall r2 : list (string * out),
               (forall k, In k (dict_keys r2) ->
                          k = "type" \/ k = "properties" \/ k = "required") ->
               forall k, In k (dict_keys (copy_keys s r2)) ->
                         In k RESULT_KEYS).
    { intros r2 K2 k H. apply fold_copy_keys in H as [H|H].
      - unfold RESULT_KEYS. right. right. now right.
      - destruct (K2 k H) as [-> | [-> | ->]]; unfold RESULT_KEYS; simpl; auto. }
    destruct (dict_get "properties" s) as [p|].
    + destruct p as [| | | | | |props]; try discriminate.
      destruct (properties_loop _ props []) as [ps|]; cbn [bind];
        [|discriminate].
      destruct (dict_get "required" s) as [q|].
      * destruct q as [| | | | |required|]; try discriminate.
        destruct (required_filter required _) as [f|]; cbn [bind];
          [|discriminate].
        intros H; inversion H; subst; clear H. apply F.
        intros k H. apply dict_keys_set in H as [->|H]; [auto|].
        apply dict_keys_set in H as [->|H]; [auto|].
        left. now apply K0.
      * cbn [bind]. intros H; inversion H; subst; clear H. apply F.
        intros k H. apply dict_keys_set in H as [->|H]; [auto|].
        left. now apply K0.
    + cbn [bind]. destruct (dict_get "required" s) as [q|].
      * destruct q as [| | | | |required|]; try discriminate.
        destruct (required_filter required _) as [f|]; cbn [bind];
          [|discriminate].
        intros H; inversion H; subst; clear H. apply F.
        intros k H. apply dict_keys_set in H as [->|H]; [auto|].
        left. now apply K0.
      * cbn [bind]. intros H; inversion H; subst; clear H. apply F.
        intros k H. left. now apply K0.
  - intros H; inversion H; subst; clear H.
    unfold RESULT_KEYS. simpl. intuition.
Qed.

End KeyFacts.

Lemma convert_result_keys_witness :
  convert_openapi_to_json_schema Sample.set_order 5 [] []
    (JDict Sample.entry_schema) Sample.no_components
  = Ok (ODict
          [("type", OVal (JStr "object"));
           ("properties",
            ODict [("name", ODict [("type", OVal (JStr "string"))]);
                   ("amount", ODict [("type", OVal (JStr "number"))])]);
           ("required", OVal (JList [JStr "name"]))])
  /\ In "required" RESULT_KEYS.
Proof.
  split; [reflexivity|].
  apply (convert_result_keys Sample.set_order 5 [] []
           (JDict Sample.entry_schema) Sample.no_components
           [("type", OVal (JStr "object"));
            ("properties",
             ODict [("name", ODict [("type", OVal (JStr "string"))]);
                    ("amount", ODict [("type", OVal (JStr "number"))])]);
            ("required", OVal (JList [JStr "name"]))]).
  - reflexivity.
  - simpl. auto.
Defined.
